(** * PortfolioDB: the ledger services over an explicit database state

    A shallow embedding of the service layer of [portfoliodb]
    ([services/holding_service.py], [cash_service.py],
    [transaction_service.py], [order_service.py], [price_service.py],
    [fx_service.py], [sync_service.py], with [db.get_connection]) and the
    properties of the ledger proved on it.

    Conventions of the embedding.
    - The SQLite database is a record [DB] with one finite map per table,
      keyed by the table's UNIQUE constraint or its [id].  Columns that
      the services below neither test nor compute with ([id] and
      [created_at] of holdings and cash positions, the names of an
      account) and the tables they do not touch (users,
      cash_transactions) are left out.
    - Python [float] and SQLite [REAL] are idealised as exact rationals
      ([Q]); rounding is not modelled.  [==] and [<=] on numbers are
      [Qeq_bool] and [Qle_bool].
    - [str.upper()] is modelled on byte strings: the letters a-z are
      mapped to A-Z, every other byte is kept.
    - The clock is an integer count of microseconds; every service call
      takes the clock reading [now] of the moment it runs.
    - Exceptions are values: a connection body is a function from the
      working state to either a result with the new working state or an
      exception, and [get_connection] commits the working state or keeps
      the state it started from. *)

From Stdlib Require Import QArith Qabs ZArith String Ascii List Lia Lqa.
From Stdlib Require Import DecimalString.
From stdpp Require Import gmap strings list sorting.

Local Open Scope Z_scope.
Local Open Scope string_scope.

#[local] Set Warnings "-clear-no-such-hyp".

(** ** Numbers, strings and time *)

Definition Qlt_bool (x y : Q) : bool := negb (Qle_bool y x).

Definition upper_ascii (c : ascii) : ascii :=
  let n := N_of_ascii c in
  if ((97 <=? n) && (n <=? 122))%N then ascii_of_N (n - 32) else c.

Fixpoint upper (s : string) : string :=
  match s with
  | EmptyString => EmptyString
  | String c rest => String (upper_ascii c) (upper rest)
  end.

(** [str(n)] for an integer, as used inside f-strings. *)
Definition str_of_int (n : Z) : string := NilZero.string_of_int (Z.to_int n).

(** Clock readings and stored timestamps.  [datetime('now')] of SQLite
    has a resolution of one second; [datetime.utcnow()] of one
    microsecond. *)
Definition timestamp := Z.

Definition datetime_now (now : timestamp) : Z := now / 1000000.
Definition fromisoformat (stored : Z) : timestamp := stored * 1000000.
Definition utcnow (now : timestamp) : timestamp := now.
Definition timedelta_minutes (m : Z) : Z := m * 60 * 1000000.

(** ** utils/constants.py *)

Definition TRANSACTION_ACTIONS : gset string := {[ "BUY"; "SELL" ]}.
Definition ORDER_PRIORITIES : gset string := {[ "HIGH"; "NORMAL"; "LOW" ]}.
Definition PRICE_CACHE_TTL_MINUTES : Z := 15.
Definition FX_CACHE_TTL_MINUTES : Z := 60.

Definition fx_ticker (from_currency to_currency : string) : string :=
  from_currency ++ to_currency ++ "=X".

(** ** models.py and the schema of db.py *)

Record Account := mkAccount {
  acc_user_id : Z;
  acc_market : string;
  acc_currency : string;
  acc_is_active : bool
}.

Record Holding := mkHolding {
  h_shares : Q;
  h_avg_cost : Q;
  h_updated_at : Z
}.

Record Transaction := mkTransaction {
  t_id : Z;
  t_account_id : Z;
  t_ticker : string;
  t_action : string;
  t_shares : Q;
  t_price : Q;
  t_fee : Q;
  t_tax : Q;
  t_currency : string;
  t_notes : option string;
  t_executed_at : Z;
  t_created_at : Z
}.

Record CashPosition := mkCashPosition {
  c_balance : Q;
  c_updated_at : Z
}.

Record PlannedOrder := mkPlannedOrder {
  o_account_id : Z;
  o_ticker : string;
  o_action : string;
  o_shares : Q;
  o_target_price : option Q;
  o_reason : option string;
  o_priority : string;
  o_status : string;
  o_created_at : Z;
  o_executed_at : option Z;
  o_linked_transaction_id : option Z
}.

Record ExchangeRate := mkExchangeRate {
  r_rate : Q;
  r_fetched_at : Z
}.

Record PriceCache := mkPriceCache {
  p_price : Q;
  p_currency : string;
  p_fetched_at : Z
}.

(** The database: one map per table.  [holdings] and [cash_positions]
    are keyed by their UNIQUE pair, [planned_orders] and [accounts] by
    [id], the caches by their natural key.  [transactions] is the
    append-only log, oldest row first. *)
Record DB := mkDB {
  accounts : gmap Z Account;
  holdings : gmap (Z * string) Holding;
  transactions : list Transaction;
  cash_positions : gmap (Z * string) CashPosition;
  planned_orders : gmap Z PlannedOrder;
  exchange_rates : gmap (string * string) ExchangeRate;
  price_cache : gmap string PriceCache
}.

Definition set_holdings (f : gmap (Z * string) Holding → gmap (Z * string) Holding)
    (db : DB) : DB :=
  mkDB (accounts db) (f (holdings db)) (transactions db) (cash_positions db)
       (planned_orders db) (exchange_rates db) (price_cache db).

Definition set_transactions (f : list Transaction → list Transaction) (db : DB) : DB :=
  mkDB (accounts db) (holdings db) (f (transactions db)) (cash_positions db)
       (planned_orders db) (exchange_rates db) (price_cache db).

Definition set_cash_positions
    (f : gmap (Z * string) CashPosition → gmap (Z * string) CashPosition)
    (db : DB) : DB :=
  mkDB (accounts db) (holdings db) (transactions db) (f (cash_positions db))
       (planned_orders db) (exchange_rates db) (price_cache db).

Definition set_planned_orders (f : gmap Z PlannedOrder → gmap Z PlannedOrder)
    (db : DB) : DB :=
  mkDB (accounts db) (holdings db) (transactions db) (cash_positions db)
       (f (planned_orders db)) (exchange_rates db) (price_cache db).

Definition set_exchange_rates
    (f : gmap (string * string) ExchangeRate → gmap (string * string) ExchangeRate)
    (db : DB) : DB :=
  mkDB (accounts db) (holdings db) (transactions db) (cash_positions db)
       (planned_orders db) (f (exchange_rates db)) (price_cache db).

Definition set_price_cache (f : gmap string PriceCache → gmap string PriceCache)
    (db : DB) : DB :=
  mkDB (accounts db) (holdings db) (transactions db) (cash_positions db)
       (planned_orders db) (exchange_rates db) (f (price_cache db)).

(** ** Exceptions *)

(** The texts of the [ValueError]s the services raise, one constructor
    per raise site. *)
Inductive message :=
  | Invalid_action (action : string)
  | Shares_must_be_positive
  | Price_must_be_positive
  | Account_not_found (account_id : Z)
  | Cannot_sell (shares : Q) (ticker : string) (current : Q)
  | Order_not_found (order_id : Z)
  | Order_is_already (status : string)
  | Cannot_update_order (status : string)
  | Invalid_priority (priority : string)
  | No_valid_fields
  | Could_not_fetch_price (ticker : string)
  | Could_not_fetch_rate (from_currency to_currency : string).

Inductive exn :=
  | ValueError (m : message)
  | IntegrityError
  | ZeroDivisionError
  | TypeError.

Inductive result (A : Type) :=
  | Ok (a : A)
  | Raise (e : exn).
Arguments Ok {A} a.
Arguments Raise {A} e.

(** ** db.get_connection: connection bodies and committed calls *)

(** A body run inside [with get_connection() as conn]: [conn] is the
    working state. *)
Definition Tx (A : Type) : Type := DB → result (A * DB).

(** A service call: it returns or raises, and leaves a committed state. *)
Definition Svc (A : Type) : Type := DB → result A * DB.

Definition tx_ret {A} (a : A) : Tx A := λ conn, Ok (a, conn).
Definition tx_raise {A} (e : exn) : Tx A := λ _, Raise e.
Definition tx_bind {A B} (m : Tx A) (k : A → Tx B) : Tx B :=
  λ conn, match m conn with
          | Ok (a, conn') => k a conn'
          | Raise e => Raise e
          end.

Definition svc_ret {A} (a : A) : Svc A := λ db, (Ok a, db).
Definition svc_raise {A} (e : exn) : Svc A := λ db, (Raise e, db).
Definition svc_bind {A B} (m : Svc A) (k : A → Svc B) : Svc B :=
  λ db, match m db with
        | (Ok a, db') => k a db'
        | (Raise e, db') => (Raise e, db')
        end.

Declare Scope tx_scope.
Delimit Scope tx_scope with tx.
Declare Scope svc_scope.
Delimit Scope svc_scope with svc.

Notation "x <- m ;; k" := (tx_bind m (λ x, k))
  (at level 100, m at next level, right associativity) : tx_scope.
Notation "m ;; k" := (tx_bind m (λ _, k))
  (at level 100, right associativity) : tx_scope.
Notation "x <- m ;; k" := (svc_bind m (λ x, k))
  (at level 100, m at next level, right associativity) : svc_scope.

(** [yield conn; conn.commit()] on a normal exit, [conn.rollback();
    raise] on an exception. *)
Definition get_connection {A} (body : Tx A) : Svc A :=
  λ db, match body db with
        | Ok (a, conn) => (Ok a, conn)
        | Raise e => (Raise e, db)
        end.

(** Python's true division of floats. *)
Definition py_div {A} (a b : Q) (k : Q → Tx A) : Tx A :=
  if Qeq_bool b 0 then tx_raise ZeroDivisionError else k (a / b)%Q.

(** ** The SQL statements the services execute *)

Module Sql.

Local Open Scope tx_scope.

(** SELECT * FROM accounts WHERE id = ? *)
Definition select_account (account_id : Z) : Tx (option Account) :=
  λ conn, Ok (accounts conn !! account_id, conn).

(** SELECT * FROM holdings WHERE account_id = ? AND ticker = ? *)
Definition select_holding (account_id : Z) (ticker : string) : Tx (option Holding) :=
  λ conn, Ok (holdings conn !! (account_id, ticker), conn).

(** INSERT INTO holdings (account_id, ticker, shares, avg_cost):
    UNIQUE(account_id, ticker) rejects a second row, and the account must
    exist: account_id REFERENCES accounts(id), and every connection runs
    PRAGMA foreign_keys = ON.  Both failures are sqlite3.IntegrityError. *)
Definition insert_holding (account_id : Z) (ticker : string) (shares avg_cost : Q)
    (now : timestamp) : Tx unit :=
  λ conn, match holdings conn !! (account_id, ticker), accounts conn !! account_id with
          | Some _, _ => Raise IntegrityError
          | None, None => Raise IntegrityError
          | None, Some _ =>
              Ok (tt, set_holdings
                        <[(account_id, ticker) :=
                            mkHolding shares avg_cost (datetime_now now)]> conn)
          end.

(** UPDATE holdings SET shares = ?, avg_cost = ?, updated_at = datetime('now')
    WHERE account_id = ? AND ticker = ? *)
Definition update_holding (account_id : Z) (ticker : string) (shares avg_cost : Q)
    (now : timestamp) : Tx unit :=
  λ conn, Ok (tt, set_holdings
                    (alter (λ _, mkHolding shares avg_cost (datetime_now now))
                           (account_id, ticker)) conn).

(** UPDATE holdings SET shares = ?, updated_at = datetime('now')
    WHERE account_id = ? AND ticker = ? *)
Definition update_holding_shares (account_id : Z) (ticker : string) (shares : Q)
    (now : timestamp) : Tx unit :=
  λ conn, Ok (tt, set_holdings
                    (alter (λ h, mkHolding shares (h_avg_cost h) (datetime_now now))
                           (account_id, ticker)) conn).

(** DELETE FROM holdings WHERE account_id = ? AND ticker = ? *)
Definition delete_holding (account_id : Z) (ticker : string) : Tx unit :=
  λ conn, Ok (tt, set_holdings (delete (account_id, ticker)) conn).

(** SELECT * FROM cash_positions WHERE account_id = ? AND currency = ? *)
Definition select_cash (account_id : Z) (currency : string) : Tx (option CashPosition) :=
  λ conn, Ok (cash_positions conn !! (account_id, currency), conn).

(** INSERT INTO cash_positions (account_id, currency, balance) *)
Definition insert_cash (account_id : Z) (currency : string) (balance : Q)
    (now : timestamp) : Tx unit :=
  λ conn, match cash_positions conn !! (account_id, currency) with
          | Some _ => Raise IntegrityError
          | None =>
              Ok (tt, set_cash_positions
                        <[(account_id, currency) :=
                            mkCashPosition balance (datetime_now now)]> conn)
          end.

(** UPDATE cash_positions SET balance = ?, updated_at = datetime('now')
    WHERE account_id = ? AND currency = ? *)
Definition update_cash (account_id : Z) (currency : string) (balance : Q)
    (now : timestamp) : Tx unit :=
  λ conn, Ok (tt, set_cash_positions
                    (alter (λ _, mkCashPosition balance (datetime_now now))
                           (account_id, currency)) conn).

(** The row id an AUTOINCREMENT key gives the next row: one more than
    the largest id of the table (rows of [transactions] are never
    deleted). *)
Definition next_rowid (ids : list Z) : Z := 1 + foldr Z.max 0 ids.

(** INSERT INTO transactions (...) VALUES (...), followed by
    SELECT * FROM transactions WHERE id = cursor.lastrowid *)
Definition insert_transaction (account_id : Z) (ticker action : string)
    (shares price fee tax : Q) (currency : string) (notes : option string)
    (executed_at : Z) (now : timestamp) : Tx Transaction :=
  λ conn,
    let row := mkTransaction (next_rowid (t_id <$> transactions conn))
                 account_id ticker action shares price fee tax currency notes
                 executed_at (datetime_now now) in
    Ok (row, set_transactions (λ log, (log ++ [row])%list) conn).

(** SELECT * FROM planned_orders WHERE id = ? *)
Definition select_order (order_id : Z) : Tx (option PlannedOrder) :=
  λ conn, Ok (planned_orders conn !! order_id, conn).

(** INSERT INTO planned_orders
    (account_id, ticker, action, shares, target_price, reason, priority);
    status defaults to 'PENDING', created_at to datetime('now').  The
    account must exist: account_id REFERENCES accounts(id), and every
    connection runs PRAGMA foreign_keys = ON. *)
Definition insert_order (account_id : Z) (ticker action : string) (shares : Q)
    (target_price : option Q) (reason : option string) (priority : string)
    (now : timestamp) : Tx Z :=
  λ conn,
    match accounts conn !! account_id with
    | None => Raise IntegrityError
    | Some _ =>
        let order_id := next_rowid (map_to_list (planned_orders conn)).*1 in
        Ok (order_id,
            set_planned_orders
              <[order_id := mkPlannedOrder account_id ticker action shares
                              target_price reason priority "PENDING"
                              (datetime_now now) None None]>
              conn)
    end.

(** UPDATE planned_orders
    SET status = 'EXECUTED', executed_at = datetime('now'),
        linked_transaction_id = ?
    WHERE id = ?
    The row it changes must link a transaction of the log:
    linked_transaction_id REFERENCES transactions(id), checked as every
    connection runs PRAGMA foreign_keys = ON.  Without a row of that id
    the statement changes nothing and checks nothing. *)
Definition update_order_executed (order_id tx_id : Z) (now : timestamp) : Tx unit :=
  λ conn,
    match planned_orders conn !! order_id with
    | Some _ =>
        if bool_decide (tx_id ∈ t_id <$> transactions conn)
        then
          Ok (tt, set_planned_orders
                    (alter (λ o, mkPlannedOrder (o_account_id o) (o_ticker o)
                                   (o_action o) (o_shares o) (o_target_price o)
                                   (o_reason o) (o_priority o) "EXECUTED"
                                   (o_created_at o) (Some (datetime_now now))
                                   (Some tx_id))
                           order_id) conn)
        else Raise IntegrityError
    | None => Ok (tt, conn)
    end.

(** UPDATE planned_orders SET status = 'CANCELLED' WHERE id = ? *)
Definition update_order_cancelled (order_id : Z) : Tx unit :=
  λ conn,
    Ok (tt, set_planned_orders
              (alter (λ o, mkPlannedOrder (o_account_id o) (o_ticker o) (o_action o)
                             (o_shares o) (o_target_price o) (o_reason o)
                             (o_priority o) "CANCELLED" (o_created_at o)
                             (o_executed_at o) (o_linked_transaction_id o))
                     order_id) conn).

(** SELECT * FROM price_cache WHERE ticker = ? *)
Definition select_price (ticker : string) : Tx (option PriceCache) :=
  λ conn, Ok (price_cache conn !! ticker, conn).

(** INSERT INTO price_cache (ticker, price, currency, fetched_at)
    VALUES (?, ?, ?, datetime('now'))
    ON CONFLICT(ticker)
    DO UPDATE SET price = ?, currency = ?, fetched_at = datetime('now') *)
Definition upsert_price (ticker : string) (price : Q) (currency : string)
    (now : timestamp) : Tx unit :=
  λ conn,
    Ok (tt, set_price_cache
              <[ticker := mkPriceCache price currency (datetime_now now)]> conn).

(** SELECT * FROM exchange_rates WHERE from_currency = ? AND to_currency = ? *)
Definition select_rate (from_currency to_currency : string)
    : Tx (option ExchangeRate) :=
  λ conn, Ok (exchange_rates conn !! (from_currency, to_currency), conn).

(** INSERT INTO exchange_rates (from_currency, to_currency, rate, fetched_at)
    VALUES (?, ?, ?, datetime('now'))
    ON CONFLICT(from_currency, to_currency)
    DO UPDATE SET rate = ?, fetched_at = datetime('now') *)
Definition upsert_rate (from_currency to_currency : string) (rate : Q)
    (now : timestamp) : Tx unit :=
  λ conn,
    Ok (tt, set_exchange_rates
              <[(from_currency, to_currency) :=
                  mkExchangeRate rate (datetime_now now)]> conn).

End Sql.

(** ** services/account_service.py *)

Definition get_account (account_id : Z) : Svc Account :=
  get_connection
    (row <- Sql.select_account account_id ;;
     match row with
     | None => tx_raise (ValueError (Account_not_found account_id))
     | Some account => tx_ret account
     end)%tx.

(** ** services/holding_service.py *)

Definition add_holding (account_id : Z) (ticker : string) (shares avg_cost : Q)
    (now : timestamp) : Svc Holding :=
  let ticker := upper ticker in
  get_connection
    (existing <- Sql.select_holding account_id ticker ;;
     (match existing with
      | Some existing =>
          let old_shares := h_shares existing in
          let old_cost := h_avg_cost existing in
          let new_total_shares := (old_shares + shares)%Q in
          let new_avg_cost :=
            if Qlt_bool 0 new_total_shares
            then ((old_shares * old_cost + shares * avg_cost) / new_total_shares)%Q
            else 0%Q in
          Sql.update_holding account_id ticker new_total_shares new_avg_cost now
      | None => Sql.insert_holding account_id ticker shares avg_cost now
      end ;;
      row <- Sql.select_holding account_id ticker ;;
      match row with
      | Some h => tx_ret h
      | None => tx_raise TypeError
      end))%tx.

Definition update_holding_from_trade (account_id : Z) (ticker action : string)
    (shares price : Q) (now : timestamp) : Tx unit :=
  let ticker := upper ticker in
  (existing <- Sql.select_holding account_id ticker ;;
   if decide (action = "BUY") then
     match existing with
     | Some existing =>
         let old_shares := h_shares existing in
         let old_cost := h_avg_cost existing in
         let new_shares := (old_shares + shares)%Q in
         py_div (old_shares * old_cost + shares * price)%Q new_shares (λ new_avg_cost,
         Sql.update_holding account_id ticker new_shares new_avg_cost now)
     | None => Sql.insert_holding account_id ticker shares price now
     end
   else if decide (action = "SELL") then
     match existing with
     | None => tx_raise (ValueError (Cannot_sell shares ticker 0))
     | Some existing =>
         if Qlt_bool (h_shares existing) shares
         then tx_raise (ValueError (Cannot_sell shares ticker (h_shares existing)))
         else
           let new_shares := (h_shares existing - shares)%Q in
           if Qeq_bool new_shares 0
           then Sql.delete_holding account_id ticker
           else Sql.update_holding_shares account_id ticker new_shares now
     end
   else tx_ret tt)%tx.

Definition get_holding (account_id : Z) (ticker : string) : Svc (option Holding) :=
  get_connection (Sql.select_holding account_id (upper ticker)).

(** The rows of [list_holdings]: each holding of the account with
    [shares > 0], with its ticker. *)
Definition holdings_of (account_id : Z) (conn : DB) : list (string * Holding) :=
  omap (λ '((a, t), h),
          if bool_decide (a = account_id) && Qlt_bool 0 (h_shares h)
          then Some (t, h) else None)
       (map_to_list (holdings conn)).

(** ORDER BY ticker (byte order). *)
Definition ticker_le (x y : string * Holding) : Prop := String.leb x.1 y.1 = true.

#[global] Instance ticker_le_dec : RelDecision ticker_le :=
  λ x y, decide (String.leb x.1 y.1 = true).

Definition list_holdings (account_id : Z) : Svc (list (string * Holding)) :=
  get_connection (λ conn, Ok (merge_sort ticker_le (holdings_of account_id conn), conn)).

Definition remove_holding (account_id : Z) (ticker : string) : Svc unit :=
  get_connection (Sql.delete_holding account_id (upper ticker)).

(** ** services/cash_service.py *)

Definition adjust_cash (account_id : Z) (currency : string) (amount : Q)
    (now : timestamp) : Tx unit :=
  let currency := upper currency in
  (existing <- Sql.select_cash account_id currency ;;
   match existing with
   | Some existing =>
       let new_balance := (c_balance existing + amount)%Q in
       Sql.update_cash account_id currency new_balance now
   | None => Sql.insert_cash account_id currency amount now
   end)%tx.

(** ** services/transaction_service.py *)

Definition cash_change (action : string) (shares price fee tax : Q) : Q :=
  let total_cost := (shares * price)%Q in
  if decide (action = "BUY") then (- (total_cost + fee + tax))%Q
  else (total_cost - fee - tax)%Q.

Definition record_transaction (account_id : Z) (ticker action : string)
    (shares price fee tax : Q) (executed_at : option Z) (notes : option string)
    (now : timestamp) : Svc Transaction :=
  let action := upper action in
  let ticker := upper ticker in
  if negb (bool_decide (action ∈ TRANSACTION_ACTIONS))
  then svc_raise (ValueError (Invalid_action action))
  else if Qle_bool shares 0 then svc_raise (ValueError Shares_must_be_positive)
  else if Qle_bool price 0 then svc_raise (ValueError Price_must_be_positive)
  else
    (account <- get_account account_id ;;
     let currency := acc_currency account in
     get_connection
       (update_holding_from_trade account_id ticker action shares price now ;;
        adjust_cash account_id currency (cash_change action shares price fee tax) now ;;
        Sql.insert_transaction account_id ticker action shares price fee tax currency
          notes
          (match executed_at with
           | None => datetime_now now
           | Some at_ => at_
           end) now)%tx)%svc.

(** ** services/order_service.py *)

Definition create_order (account_id : Z) (ticker action : string) (shares : Q)
    (target_price : option Q) (reason : option string) (priority : string)
    (now : timestamp) : Svc (Z * PlannedOrder) :=
  let action := upper action in
  let ticker := upper ticker in
  let priority := upper priority in
  if negb (bool_decide (action ∈ TRANSACTION_ACTIONS))
  then svc_raise (ValueError (Invalid_action action))
  else if negb (bool_decide (priority ∈ ORDER_PRIORITIES))
  then svc_raise (ValueError (Invalid_priority priority))
  else
    get_connection
      (order_id <- Sql.insert_order account_id ticker action shares target_price
                     reason priority now ;;
       row <- Sql.select_order order_id ;;
       match row with
       | Some order => tx_ret (order_id, order)
       | None => tx_raise TypeError
       end)%tx.

(** The first [with get_connection()] block of [execute_order]: load the
    order and check that it is pending. *)
Definition execute_order_load (order_id : Z) : Svc PlannedOrder :=
  get_connection
    (row <- Sql.select_order order_id ;;
     match row with
     | None => tx_raise (ValueError (Order_not_found order_id))
     | Some order =>
         if decide (o_status order ≠ "PENDING")
         then tx_raise (ValueError (Order_is_already (o_status order)))
         else tx_ret order
     end)%tx.

(** The call of [record_transaction] between the two blocks. *)
Definition execute_order_record (order_id : Z) (order : PlannedOrder)
    (actual_price fee tax : Q) (now : timestamp) : Svc Transaction :=
  record_transaction (o_account_id order) (o_ticker order) (o_action order)
    (o_shares order) actual_price fee tax None
    (Some ("Executed from planned order #" ++ str_of_int order_id)) now.

(** The second [with get_connection()] block of [execute_order]: write
    the status and read the row back. *)
Definition execute_order_mark (order_id tx_id : Z) (now : timestamp)
    : Svc PlannedOrder :=
  get_connection
    (Sql.update_order_executed order_id tx_id now ;;
     row <- Sql.select_order order_id ;;
     match row with
     | Some order => tx_ret order
     | None => tx_raise TypeError
     end)%tx.

Definition execute_order (order_id : Z) (actual_price fee tax : Q) (now : timestamp)
    : Svc PlannedOrder :=
  (order <- execute_order_load order_id ;;
   tx <- execute_order_record order_id order actual_price fee tax now ;;
   execute_order_mark order_id (t_id tx) now)%svc.

Definition cancel_order (order_id : Z) : Svc PlannedOrder :=
  get_connection
    (row <- Sql.select_order order_id ;;
     match row with
     | None => tx_raise (ValueError (Order_not_found order_id))
     | Some order =>
         if decide (o_status order ≠ "PENDING")
         then tx_raise (ValueError (Order_is_already (o_status order)))
         else
           (Sql.update_order_cancelled order_id ;;
            row <- Sql.select_order order_id ;;
            match row with
            | Some order => tx_ret order
            | None => tx_raise TypeError
            end)
     end)%tx.

(** The keyword arguments of [update_order] that survive
    [k in allowed and v is not None]: one optional value per allowed
    column. *)
Record OrderUpdates := mkOrderUpdates {
  upd_ticker : option string;
  upd_action : option string;
  upd_shares : option Q;
  upd_target_price : option Q;
  upd_reason : option string;
  upd_priority : option string
}.

(** [not updates] *)
Definition no_updates (u : OrderUpdates) : bool :=
  match upd_ticker u, upd_action u, upd_shares u,
        upd_target_price u, upd_reason u, upd_priority u with
  | None, None, None, None, None, None => true
  | _, _, _, _, _, _ => false
  end.

(** UPDATE planned_orders SET k1 = ?, ... WHERE id = ?, on one row. *)
Definition apply_updates (u : OrderUpdates) (o : PlannedOrder) : PlannedOrder :=
  mkPlannedOrder (o_account_id o)
    (default (o_ticker o) (upd_ticker u))
    (default (o_action o) (upd_action u))
    (default (o_shares o) (upd_shares u))
    (match upd_target_price u with Some p => Some p | None => o_target_price o end)
    (match upd_reason u with Some r => Some r | None => o_reason o end)
    (default (o_priority o) (upd_priority u))
    (o_status o) (o_created_at o) (o_executed_at o) (o_linked_transaction_id o).

Definition update_order (order_id : Z) (updates : OrderUpdates) : Svc PlannedOrder :=
  if no_updates updates then svc_raise (ValueError No_valid_fields)
  else
    get_connection
      (row <- Sql.select_order order_id ;;
       match row with
       | None => tx_raise (ValueError (Order_not_found order_id))
       | Some order =>
           if decide (o_status order ≠ "PENDING")
           then tx_raise (ValueError (Cannot_update_order (o_status order)))
           else
             ((λ conn, Ok (tt, set_planned_orders
                                 (alter (apply_updates updates) order_id) conn)) ;;
              row <- Sql.select_order order_id ;;
              match row with
              | Some order => tx_ret order
              | None => tx_raise TypeError
              end)
       end)%tx.

(** ** The market data source (yfinance) *)

(** The "currency" entry of [fast_info]: the key can be missing, or
    present with the value None, or present with a text. *)
Inductive CurrencyEntry :=
  | NoCurrencyKey
  | CurrencyNone
  | CurrencyText (text : string).

(** [yf.Ticker(t).fast_info], as far as the services read it.  A price
    field is [None] when the key is missing or its value is None:
    [info.get(key)] does not tell the two apart. *)
Record FastInfo := mkFastInfo {
  lastPrice : option Q;
  previousClose : option Q;
  currency : CurrencyEntry
}.

(** [str(info.get("currency", "USD"))]: the default stands in for a
    missing key only; a key that is present with the value None gives
    None, and [str(None)] is the text "None". *)
Definition currency_or_usd (info : FastInfo) : string :=
  match currency info with
  | NoCurrencyKey => "USD"
  | CurrencyNone => "None"
  | CurrencyText text => text
  end.

(** [info.get("lastPrice") or info.get("previousClose")]: Python's [or]
    takes the second operand when the first is None or zero. *)
Definition last_or_previous (info : FastInfo) : option Q :=
  match lastPrice info with
  | Some p => if Qeq_bool p 0 then previousClose info else Some p
  | None => previousClose info
  end.

(** ** services/price_service.py *)

Module PriceService.

Record PriceResult := mkPriceResult {
  res_ticker : string;
  res_price : Q;
  res_currency : string;
  res_cached : bool
}.

Definition _get_cached_price (ticker : string) (now : timestamp)
    : Svc (option (Q * string)) :=
  (row <- get_connection (Sql.select_price ticker) ;;
   match row with
   | None => svc_ret None
   | Some row =>
       let fetched_at := fromisoformat (p_fetched_at row) in
       if (timedelta_minutes PRICE_CACHE_TTL_MINUTES <? utcnow now - fetched_at)%Z
       then svc_ret None
       else svc_ret (Some (p_price row, p_currency row))
   end)%svc.

Definition _update_cache (ticker : string) (price : Q) (currency : string)
    (now : timestamp) : Svc unit :=
  get_connection (Sql.upsert_price ticker price currency now).

Definition fetch_price (yf : string → FastInfo) (ticker : string) (now : timestamp)
    : Svc PriceResult :=
  let ticker := upper ticker in
  (cached <- _get_cached_price ticker now ;;
   match cached with
   | Some (price, currency) => svc_ret (mkPriceResult ticker price currency true)
   | None =>
       let info := yf ticker in
       match last_or_previous info with
       | None => svc_raise (ValueError (Could_not_fetch_price ticker))
       | Some price =>
           let currency := currency_or_usd info in
           _ <- _update_cache ticker price currency now ;;
           svc_ret (mkPriceResult ticker price currency false)
       end
   end)%svc.

End PriceService.

(** ** services/fx_service.py *)

Module FxService.

Definition _get_cached_rate (from_currency to_currency : string) (now : timestamp)
    : Svc (option Q) :=
  (row <- get_connection (Sql.select_rate from_currency to_currency) ;;
   match row with
   | None => svc_ret None
   | Some row =>
       let fetched_at := fromisoformat (r_fetched_at row) in
       if (timedelta_minutes FX_CACHE_TTL_MINUTES <? utcnow now - fetched_at)%Z
       then svc_ret None
       else svc_ret (Some (r_rate row))
   end)%svc.

Definition _update_cache (from_currency to_currency : string) (rate : Q)
    (now : timestamp) : Svc unit :=
  get_connection (Sql.upsert_rate from_currency to_currency rate now).

Definition fetch_rate (yf : string → FastInfo) (from_currency to_currency : string)
    (now : timestamp) : Svc Q :=
  let from_currency := upper from_currency in
  let to_currency := upper to_currency in
  if decide (from_currency = to_currency) then svc_ret 1%Q
  else
    (cached <- _get_cached_rate from_currency to_currency now ;;
     match cached with
     | Some rate => svc_ret rate
     | None =>
         let info := yf (fx_ticker from_currency to_currency) in
         match last_or_previous info with
         | None =>
             svc_raise (ValueError (Could_not_fetch_rate from_currency to_currency))
         | Some rate =>
             _ <- _update_cache from_currency to_currency rate now ;;
             svc_ret rate
         end
     end)%svc.

End FxService.

(** ** services/sync_service.py *)

Record HoldingItem := mkHoldingItem {
  item_ticker : string;
  item_shares : Q;
  item_avg_cost : Q
}.

Record SyncCounts := mkSyncCounts {
  added : Z;
  updated : Z;
  removed : Z
}.

(** The variables the upsert loop of [sync_broker_holdings] updates. *)
Record SyncLoop := mkSyncLoop {
  broker_tickers : gset string;
  loop_added : Z;
  loop_updated : Z
}.

(** [{h.ticker: h for h in existing}]: a later row replaces an earlier
    one with the same key. *)
Definition dict_of_rows (existing : list (string * Holding)) : gmap string Holding :=
  list_to_map (reverse existing).

(** The [for item in holdings_data] loop, inside its connection. *)
Fixpoint sync_items (account_id : Z) (existing_map : gmap string Holding)
    (now : timestamp) (holdings_data : list HoldingItem) (st : SyncLoop) : Tx SyncLoop :=
  match holdings_data with
  | [] => tx_ret st
  | item :: rest =>
      let ticker := upper (item_ticker item) in
      let shares := item_shares item in
      let avg_cost := item_avg_cost item in
      let st := mkSyncLoop ({[ ticker ]} ∪ broker_tickers st)
                  (loop_added st) (loop_updated st) in
      if Qle_bool shares 0 then sync_items account_id existing_map now rest st
      else
        match existing_map !! ticker with
        | Some old =>
            if negb (Qeq_bool (h_shares old) shares)
               || Qlt_bool (1 # 100) (Qabs (h_avg_cost old - avg_cost))
            then
              (Sql.update_holding account_id ticker shares avg_cost now ;;
               sync_items account_id existing_map now rest
                 (mkSyncLoop (broker_tickers st) (loop_added st) (loop_updated st + 1)))%tx
            else sync_items account_id existing_map now rest st
        | None =>
            (Sql.insert_holding account_id ticker shares avg_cost now ;;
             sync_items account_id existing_map now rest
               (mkSyncLoop (broker_tickers st) (loop_added st + 1) (loop_updated st)))%tx
        end
  end.

(** The [for ticker, h in existing_map.items()] loop: a dict iterates in
    insertion order, which is the order of [existing]; every removal
    runs in a connection of its own. *)
Fixpoint remove_missing (account_id : Z) (existing : list (string * Holding))
    (tickers : gset string) (removed : Z) : Svc Z :=
  match existing with
  | [] => svc_ret removed
  | (ticker, _) :: rest =>
      if bool_decide (ticker ∉ tickers)
      then (_ <- remove_holding account_id ticker ;;
            remove_missing account_id rest tickers (removed + 1))%svc
      else remove_missing account_id rest tickers removed
  end.

Definition sync_broker_holdings (account_id : Z) (holdings_data : list HoldingItem)
    (now : timestamp) : Svc SyncCounts :=
  (account <- get_account account_id ;;
   existing <- list_holdings account_id ;;
   let existing_map := dict_of_rows existing in
   st <- get_connection
           (sync_items account_id existing_map now holdings_data (mkSyncLoop ∅ 0 0)) ;;
   removed <- remove_missing account_id existing (broker_tickers st) 0 ;;
   svc_ret (mkSyncCounts (loop_added st) (loop_updated st) removed))%svc.

(** ** Vocabulary of the statements *)

(** [record_transaction] past its validation, as one connection body. *)
Definition trade_body (account_id : Z) (ticker action : string)
    (shares price fee tax : Q) (currency : string) (executed_at : option Z)
    (notes : option string) (now : timestamp) : Tx Transaction :=
  (update_holding_from_trade account_id ticker action shares price now ;;
   adjust_cash account_id currency (cash_change action shares price fee tax) now ;;
   Sql.insert_transaction account_id ticker action shares price fee tax currency
     notes
     (match executed_at with
      | None => datetime_now now
      | Some at_ => at_
      end) now)%tx.



Definition total_cost (buys : list (Q * Q)) : Q :=
  foldr (λ b acc, (b.1 * b.2 + acc)%Q) 0%Q buys.


(** The balance [adjust_cash] leaves: the amount itself on a fresh
    position, the old balance plus the amount otherwise. *)
Definition adjusted_balance (old : option CashPosition) (amount : Q) : Q :=
  match old with
  | Some c => (c_balance c + amount)%Q
  | None => amount
  end.

(** Two calls of [execute_order] on one order, A and B, scheduled so
    that both run their first connection before either runs its second:
    load A, load B, trade A, write A, trade B, write B. *)
Definition interleaved_executes (order_id : Z) (price_a price_b fee tax : Q)
    (now : timestamp) : Svc (PlannedOrder * PlannedOrder) :=
  (order_a <- execute_order_load order_id ;;
   order_b <- execute_order_load order_id ;;
   tx_a <- execute_order_record order_id order_a price_a fee tax now ;;
   done_a <- execute_order_mark order_id (t_id tx_a) now ;;
   tx_b <- execute_order_record order_id order_b price_b fee tax now ;;
   done_b <- execute_order_mark order_id (t_id tx_b) now ;;
   svc_ret (done_a, done_b))%svc.

(** The row the terminal write of [execute_order] leaves. *)
Definition executed (o : PlannedOrder) (tx_id : Z) (now : timestamp) : PlannedOrder :=
  mkPlannedOrder (o_account_id o) (o_ticker o) (o_action o) (o_shares o)
    (o_target_price o) (o_reason o) (o_priority o) "EXECUTED" (o_created_at o)
    (Some (datetime_now now)) (Some tx_id).

(** One second of clock time. *)
Definition one_second : Z := 1000000.

(** The cache rows a refresh at clock reading [at_] writes. *)
Definition price_row (price : Q) (currency : string) (at_ : timestamp) : PriceCache :=
  mkPriceCache price currency (datetime_now at_).

Definition rate_row (rate : Q) (at_ : timestamp) : ExchangeRate :=
  mkExchangeRate rate (datetime_now at_).

(** Age of a stored timestamp at clock reading [now]. *)
Definition age (now : timestamp) (fetched_at : Z) : Z :=
  utcnow now - fromisoformat fetched_at.

(** The tickers of a snapshot, as the sync loop reads them. *)
Definition snapshot_tickers (holdings_data : list HoldingItem) : list string :=
  (λ item, upper (item_ticker item)) <$> holdings_data.

(** Every stored holding satisfies [P]. *)
Definition holdings_all (P : Holding → Prop) (db : DB) : Prop :=
  ∀ key h, holdings db !! key = Some h → P h.

(** No holding has a negative share count. *)
Definition shares_nonneg (db : DB) : Prop :=
  holdings_all (λ h, (0 <= h_shares h)%Q) db.

(** No holding has a negative or zero share count. *)
Definition shares_positive (db : DB) : Prop :=
  holdings_all (λ h, (0 < h_shares h)%Q) db.

(** The tickers stored for an account are in upper case, as every
    writer of the services leaves them. *)
Definition tickers_upper (account_id : Z) (db : DB) : Prop :=
  ∀ ticker h, holdings db !! (account_id, ticker) = Some h → upper ticker = ticker.

(** One round of the upsert loop of [sync_broker_holdings], by the branch
    it takes: the loop variables and the working state before and after
    the round. *)
Inductive sync_step (account_id : Z) (existing_map : gmap string Holding)
    (now : timestamp) (item : HoldingItem) (st : SyncLoop) (conn : DB)
    : SyncLoop → DB → Prop :=
  | step_skipped :
      (item_shares item <= 0)%Q →
      sync_step account_id existing_map now item st conn
        (mkSyncLoop ({[ upper (item_ticker item) ]} ∪ broker_tickers st)
           (loop_added st) (loop_updated st))
        conn
  | step_unchanged old :
      (0 < item_shares item)%Q →
      existing_map !! upper (item_ticker item) = Some old →
      (h_shares old == item_shares item)%Q →
      (Qabs (h_avg_cost old - item_avg_cost item) <= 1 # 100)%Q →
      sync_step account_id existing_map now item st conn
        (mkSyncLoop ({[ upper (item_ticker item) ]} ∪ broker_tickers st)
           (loop_added st) (loop_updated st))
        conn
  | step_updated old :
      (0 < item_shares item)%Q →
      existing_map !! upper (item_ticker item) = Some old →
      sync_step account_id existing_map now item st conn
        (mkSyncLoop ({[ upper (item_ticker item) ]} ∪ broker_tickers st)
           (loop_added st) (loop_updated st + 1))
        (set_holdings
           (alter (λ _, mkHolding (item_shares item) (item_avg_cost item)
                          (datetime_now now))
                  (account_id, upper (item_ticker item))) conn)
  | step_added :
      (0 < item_shares item)%Q →
      existing_map !! upper (item_ticker item) = None →
      holdings conn !! (account_id, upper (item_ticker item)) = None →
      sync_step account_id existing_map now item st conn
        (mkSyncLoop ({[ upper (item_ticker item) ]} ∪ broker_tickers st)
           (loop_added st + 1) (loop_updated st))
        (set_holdings
           <[(account_id, upper (item_ticker item)) :=
               mkHolding (item_shares item) (item_avg_cost item) (datetime_now now)]>
           conn).

(** ** More of the services *)

(** *** utils/constants.py, continued *)

Definition CURRENCIES : gset string := {[ "TWD"; "USD"; "SGD" ]}.

Definition CASH_CATEGORIES : gset string :=
  {[ "DEPOSIT"; "WITHDRAWAL"; "DIVIDEND"; "INTEREST"; "FEE"; "FX_CONVERSION" ]}.

(** The keys of MARKETS and MARKET_CURRENCY. *)
Definition MARKET_CODES : gset string := {[ "TW"; "US"; "SG" ]}.

(** *** The exceptions of the services below *)

(** [ValueError]s with the texts of the cash and lookup services,
    sqlite3's IntegrityError for a FOREIGN KEY that finds no parent row
    (every connection runs PRAGMA foreign_keys = ON), and the exceptions
    of the services above. *)
Inductive failure :=
  | Invalid_currency (currency : string)
  | Invalid_category (category : string)
  | Transaction_not_found (transaction_id : Z)
  | Foreign_key_failed
  | Earlier (e : exn).

Inductive outcome (A : Type) :=
  | Returns (a : A)
  | Raises (f : failure).
Arguments Returns {A} a.
Arguments Raises {A} f.

(** *** services/account_service.py, continued *)

Definition set_accounts (f : gmap Z Account → gmap Z Account) (db : DB) : DB :=
  mkDB (f (accounts db)) (holdings db) (transactions db) (cash_positions db)
       (planned_orders db) (exchange_rates db) (price_cache db).

Definition deactivated (account : Account) : Account :=
  mkAccount (acc_user_id account) (acc_market account) (acc_currency account) false.

(** UPDATE accounts SET is_active = 0 WHERE id = ? *)
Definition deactivate_account (account_id : Z) : Svc unit :=
  get_connection (λ conn, Ok (tt, set_accounts (alter deactivated account_id) conn)).

(** ORDER BY id *)
Definition id_le (x y : Z * Account) : Prop := x.1 <= y.1.

#[global] Instance id_le_dec : RelDecision id_le := λ x y, decide (x.1 <= y.1).

(** WHERE user_id = ? AND is_active = 1, or WHERE is_active = 1 when no
    user is given. *)
Definition account_listed (user_id : option Z) (row : Z * Account) : bool :=
  match user_id with
  | Some u => bool_decide (acc_user_id row.2 = u)
  | None => true
  end && acc_is_active row.2.

(** SELECT * FROM accounts WHERE ... ORDER BY id *)
Definition list_accounts (user_id : option Z) : Svc (list (Z * Account)) :=
  get_connection
    (λ conn,
       Ok (merge_sort id_le
             (filter (λ row, account_listed user_id row = true)
                     (map_to_list (accounts conn))),
           conn)).

(** *** services/cash_service.py, continued *)

(** INSERT INTO cash_positions (account_id, currency, balance)
    VALUES (?, ?, ?)
    ON CONFLICT(account_id, currency)
    DO UPDATE SET balance = ?, updated_at = datetime('now').
    A new row needs its account (FOREIGN KEY). *)
Definition upsert_cash (account_id : Z) (currency : string) (balance : Q)
    (now : timestamp) (conn : DB) : outcome (unit * DB) :=
  match cash_positions conn !! (account_id, currency), accounts conn !! account_id with
  | None, None => Raises Foreign_key_failed
  | _, _ =>
      Returns (tt, set_cash_positions
                     <[(account_id, currency) :=
                         mkCashPosition balance (datetime_now now)]> conn)
  end.

Definition set_cash (account_id : Z) (currency : string) (balance : Q)
    (now : timestamp) (db : DB) : outcome CashPosition * DB :=
  let currency := upper currency in
  if negb (bool_decide (currency ∈ CURRENCIES))
  then (Raises (Invalid_currency currency), db)
  else
    match upsert_cash account_id currency balance now db with
    | Raises f => (Raises f, db)
    | Returns (_, conn) =>
        match cash_positions conn !! (account_id, currency) with
        | Some row => (Returns row, conn)
        | None => (Raises (Earlier TypeError), db)
        end
    end.

Definition get_cash (account_id : Z) (currency : string) : Svc (option CashPosition) :=
  get_connection (Sql.select_cash account_id (upper currency)).

(** services/sync_service.py: [sync_broker_cash] passes the balance of
    the snapshot to [set_cash] and returns None: the position [set_cash]
    returns is dropped, its exceptions pass. *)
Definition sync_broker_cash (account_id : Z) (balance_currency : string)
    (balance : Q) (now : timestamp) (db : DB) : outcome unit * DB :=
  match set_cash account_id balance_currency balance now db with
  | (Returns _, db') => (Returns tt, db')
  | (Raises f, db') => (Raises f, db')
  end.

(** The rows of [list_cash]: each cash position of the account, with its
    currency. *)
Definition cash_of (account_id : Z) (conn : DB) : list (string * CashPosition) :=
  omap (λ '((a, c), p), if bool_decide (a = account_id) then Some (c, p) else None)
       (map_to_list (cash_positions conn)).

(** ORDER BY currency *)
Definition currency_le (x y : string * CashPosition) : Prop :=
  String.leb x.1 y.1 = true.

#[global] Instance currency_le_dec : RelDecision currency_le :=
  λ x y, decide (String.leb x.1 y.1 = true).

Definition list_cash (account_id : Z) : Svc (list (string * CashPosition)) :=
  get_connection (λ conn, Ok (merge_sort currency_le (cash_of account_id conn), conn)).

(** The cash_transactions table (an append-only log) beside the tables
    of [DB]. *)
Record CashTransaction := mkCashTransaction {
  ct_id : Z;
  ct_account_id : Z;
  ct_currency : string;
  ct_amount : Q;
  ct_category : string;
  ct_description : option string;
  ct_executed_at : Z;
  ct_created_at : Z
}.

Record Books := mkBooks {
  books_db : DB;
  cash_transactions : list CashTransaction
}.

(** [record_cash_transaction].  Both statements run in one connection,
    so an exception of the second takes the first back as well.  The
    INSERT INTO cash_transactions needs the account (FOREIGN KEY); for an
    account that does not exist the INSERT of [adjust_cash] would fail
    the same way one statement earlier, with the same exception and the
    same rollback. *)
Definition record_cash_transaction (account_id : Z) (currency : string) (amount : Q)
    (category : string) (description : option string) (executed_at : option Z)
    (now : timestamp) (books : Books) : outcome CashTransaction * Books :=
  let currency := upper currency in
  let category := upper category in
  if negb (bool_decide (currency ∈ CURRENCIES))
  then (Raises (Invalid_currency currency), books)
  else if negb (bool_decide (category ∈ CASH_CATEGORIES))
  then (Raises (Invalid_category category), books)
  else
    match adjust_cash account_id currency amount now (books_db books) with
    | Raise e => (Raises (Earlier e), books)
    | Ok (_, conn) =>
        match accounts conn !! account_id with
        | None => (Raises Foreign_key_failed, books)
        | Some _ =>
            let row :=
              mkCashTransaction
                (Sql.next_rowid (ct_id <$> cash_transactions books))
                account_id currency amount category description
                (match executed_at with
                 | None => datetime_now now
                 | Some at_ => at_
                 end) (datetime_now now) in
            (Returns row, mkBooks conn (cash_transactions books ++ [row])%list)
        end
    end.

(** *** services/transaction_service.py, continued *)

(** SELECT * FROM transactions WHERE id = ? *)
Definition get_transaction (transaction_id : Z) (db : DB) : outcome Transaction * DB :=
  match list_find (λ row, t_id row = transaction_id) (transactions db) with
  | Some (_, row) => (Returns row, db)
  | None => (Raises (Transaction_not_found transaction_id), db)
  end.

(** *** services/price_service.py, continued *)

(** An entry of the dict [fetch_prices] returns: the result of
    [fetch_price], or the record with price None and the text of the
    exception. *)
Inductive PriceEntry :=
  | Priced (r : PriceService.PriceResult)
  | Unpriced (ticker : string) (error : exn).

Definition entry_price (entry : PriceEntry) : option Q :=
  match entry with
  | Priced r => Some (PriceService.res_price r)
  | Unpriced _ _ => None
  end.

(** The [for t in tickers] loop of [fetch_prices] on the dict built so
    far. *)
Fixpoint fetch_prices_loop (yf : string → FastInfo) (tickers : list string)
    (now : timestamp) (results : gmap string PriceEntry)
    : DB → gmap string PriceEntry * DB :=
  λ db,
    match tickers with
    | [] => (results, db)
    | t :: rest =>
        match PriceService.fetch_price yf t now db with
        | (Ok r, db') =>
            fetch_prices_loop yf rest now (<[upper t := Priced r]> results) db'
        | (Raise e, db') =>
            fetch_prices_loop yf rest now
              (<[upper t := Unpriced (upper t) e]> results) db'
        end
    end.

Definition fetch_prices (yf : string → FastInfo) (tickers : list string)
    (now : timestamp) : DB → gmap string PriceEntry * DB :=
  fetch_prices_loop yf tickers now ∅.

(** *** services/portfolio_service.py *)

Record HoldingDetail := mkHoldingDetail {
  d_ticker : string;
  d_holding : Holding;
  d_current_price : option Q;
  d_market_value : option Q;
  d_unrealized_pnl : option Q;
  d_pnl_pct : option Q
}.

Record AccountSummary := mkAccountSummary {
  s_account : Account;
  s_holdings : list HoldingDetail;
  s_cash : list (string * CashPosition);
  s_total_stock_value : Q;
  s_total_cash_value : Q;
  s_total_value : Q;
  s_currency : string
}.

(** One round of the [for h in holdings] loop. *)
Definition holding_detail (prices : gmap string PriceEntry) (row : string * Holding)
    : HoldingDetail :=
  let h := row.2 in
  match prices !! row.1 ≫= entry_price with
  | Some current_price =>
      let market_value := (current_price * h_shares h)%Q in
      let cost_basis := (h_avg_cost h * h_shares h)%Q in
      mkHoldingDetail row.1 h (Some current_price) (Some market_value)
        (Some (market_value - cost_basis)%Q)
        (Some (if Qlt_bool 0 (h_avg_cost h)
               then ((current_price / h_avg_cost h - 1) * 100)%Q else 0%Q))
  | None => mkHoldingDetail row.1 h None None None None
  end.

(** [total_stock_value += market_value], over the rounds. *)
Definition add_market_value (total : Q) (detail : HoldingDetail) : Q :=
  match d_market_value detail with
  | Some market_value => (total + market_value)%Q
  | None => total
  end.

(** [sum(cp.balance for cp in cash_positions if cp.currency == account.currency)] *)
Definition sum_cash (currency : string) (rows : list (string * CashPosition)) : Q :=
  foldl (λ total row, (total + c_balance row.2)%Q) 0%Q
        (filter (λ row, row.1 = currency) rows).

Definition get_account_summary (yf : string → FastInfo) (account_id : Z)
    (now : timestamp) : Svc AccountSummary :=
  (account <- get_account account_id ;;
   holdings <- list_holdings account_id ;;
   cash_positions <- list_cash account_id ;;
   let tickers := holdings.*1 in
   prices <- (λ db, match tickers with
                    | [] => (Ok ∅, db)
                    | _ => let '(prices, db') := fetch_prices yf tickers now db in
                           (Ok prices, db')
                    end) ;;
   let holding_details := holding_detail prices <$> holdings in
   let total_stock_value := foldl add_market_value 0%Q holding_details in
   let total_cash := sum_cash (acc_currency account) cash_positions in
   svc_ret (mkAccountSummary account holding_details cash_positions
              total_stock_value total_cash (total_stock_value + total_cash)%Q
              (acc_currency account)))%svc.

(** *** utils/ticker.py *)

(** [s.endswith(suffix)] *)
Definition endswith (s suffix : string) : bool :=
  String.prefix (String.rev suffix) (String.rev s).

Definition detect_market (ticker : string) : string :=
  let ticker := upper ticker in
  if endswith ticker ".TW" then "TW"
  else if endswith ticker ".SI" then "SG"
  else "US".

(** *** importers/scb_csv.py *)

(** [needle in text] *)
Fixpoint contains (needle text : string) : bool :=
  String.prefix needle text
  || match text with
     | EmptyString => false
     | String _ rest => contains needle rest
     end.

Definition _categorize_scb_transaction (description : string) : string :=
  let desc := upper description in
  if contains "INTEREST" desc || contains "CR INTEREST" desc then "INTEREST"
  else if contains "DIVIDEND" desc then "DIVIDEND"
  else if contains "WITHDRAWAL" desc || contains "ATM" desc then "WITHDRAWAL"
  else if contains "DEPOSIT" desc || contains "SALARY" desc
          || contains "TRANSFER IN" desc then "DEPOSIT"
  else if contains "FEE" desc || contains "CHARGE" desc then "FEE"
  else if contains "FX" desc || contains "EXCHANGE" desc then "FX_CONVERSION"
  else "DEPOSIT".

(** *** Vocabulary of the further statements *)

(** A description mentions a word when some stretch of it reads as the
    word in upper case. *)
Definition mentions (word description : string) : Prop :=
  ∃ before found after,
    description = before ++ found ++ after ∧ upper found = word.

(** The entry [fetch_prices] stores for a ticker, from what [fetch_price]
    gives for it. *)
Definition price_entry (ticker : string) (res : result PriceService.PriceResult)
    : PriceEntry :=
  match res with
  | Ok r => Priced r
  | Raise e => Unpriced (upper ticker) e
  end.

(** * Properties *)

(** ** Basic facts about the embedding *)

Lemma Qlt_bool_true (x y : Q) : Qlt_bool x y = true ↔ (x < y)%Q.
Proof.
  unfold Qlt_bool. rewrite negb_true_iff. split.
  - intros H. apply Qnot_le_lt. intros Hle.
    apply Qle_bool_iff in Hle. congruence.
  - intros H. destruct (Qle_bool y x) eqn:E; [|done].
    apply Qle_bool_iff in E. exfalso. eapply Qlt_not_le; eauto.
Qed.

Lemma Qlt_bool_false (x y : Q) : Qlt_bool x y = false ↔ (y <= x)%Q.
Proof.
  unfold Qlt_bool. rewrite negb_false_iff. apply Qle_bool_iff.
Qed.

Lemma Qle_bool_false (x y : Q) : Qle_bool x y = false ↔ (y < x)%Q.
Proof.
  rewrite <- Qlt_bool_true. unfold Qlt_bool.
  destruct (Qle_bool x y); simpl; split; congruence.
Qed.

Lemma Qeq_bool_false (x y : Q) : Qeq_bool x y = false ↔ ¬ (x == y)%Q.
Proof.
  split; [apply Qeq_bool_neq|].
  intros H. destruct (Qeq_bool x y) eqn:E; [|done].
  apply Qeq_bool_iff in E. contradiction.
Qed.

Lemma upper_ascii_idemp (c : ascii) : upper_ascii (upper_ascii c) = upper_ascii c.
Proof. destruct c as [[] [] [] [] [] [] [] []]; reflexivity. Qed.

Lemma upper_idemp (s : string) : upper (upper s) = upper s.
Proof.
  induction s as [|c s IH]; simpl; [done|].
  by rewrite upper_ascii_idemp, IH.
Qed.

Lemma BUY_in_actions : "BUY" ∈ TRANSACTION_ACTIONS.
Proof. unfold TRANSACTION_ACTIONS. set_solver. Qed.

Lemma SELL_in_actions : "SELL" ∈ TRANSACTION_ACTIONS.
Proof. unfold TRANSACTION_ACTIONS. set_solver. Qed.

Lemma in_actions (a : string) : a ∈ TRANSACTION_ACTIONS ↔ a = "BUY" ∨ a = "SELL".
Proof. unfold TRANSACTION_ACTIONS. set_solver. Qed.

(** A call that raises inside its connection leaves the database as it
    found it. *)
Lemma get_connection_raise {A} (body : Tx A) (db db' : DB) (e : exn) :
  get_connection body db = (Raise e, db') → db' = db.
Proof.
  unfold get_connection. destruct (body db) as [[a conn]|e']; congruence.
Qed.

Lemma get_account_spec (account_id : Z) (db : DB) :
  get_account account_id db =
    match accounts db !! account_id with
    | Some account => (Ok account, db)
    | None => (Raise (ValueError (Account_not_found account_id)), db)
    end.
Proof.
  unfold get_account, get_connection, tx_bind, Sql.select_account.
  by destruct (accounts db !! account_id).
Qed.

Lemma record_transaction_valid account_id ticker action shares price fee tax
    executed_at notes now db account :
  upper action ∈ TRANSACTION_ACTIONS →
  (0 < shares)%Q → (0 < price)%Q →
  accounts db !! account_id = Some account →
  record_transaction account_id ticker action shares price fee tax executed_at notes
    now db =
  get_connection
    (trade_body account_id (upper ticker) (upper action) shares price fee tax
       (acc_currency account) executed_at notes now) db.
Proof.
  intros Hact Hs Hp Hacc. unfold record_transaction.
  rewrite bool_decide_eq_true_2 by done. simpl.
  apply Qle_bool_false in Hs, Hp. rewrite Hs, Hp.
  unfold svc_bind. rewrite get_account_spec, Hacc. done.
Qed.

(** Whatever the arguments, a raising [record_transaction] commits
    nothing. *)
Lemma record_transaction_raise account_id ticker action shares price fee tax
    executed_at notes now db db' e :
  record_transaction account_id ticker action shares price fee tax executed_at notes
    now db = (Raise e, db') →
  db' = db.
Proof.
  unfold record_transaction, svc_raise, svc_bind.
  destruct (negb _); [congruence|].
  destruct (Qle_bool shares 0); [congruence|].
  destruct (Qle_bool price 0); [congruence|].
  rewrite get_account_spec.
  destruct (accounts db !! account_id); [|congruence].
  apply get_connection_raise.
Qed.

(** ** C1: a sell without enough shares *)

(** C1.  When [record_transaction] is called with an action that reads
    SELL and the account has no holding row for the ticker, or a row with
    fewer shares than requested, the call raises and the committed
    database is the one it started from: holdings, cash positions and the
    transaction log are untouched.  When the other arguments pass
    validation and the account exists, the exception is the
    "Cannot sell ... only ... held" [ValueError]. *)
Theorem C1_rejected_sell_changes_nothing
    (db : DB) (account_id : Z) (ticker action : string) (shares price fee tax : Q)
    (executed_at : option Z) (notes : option string) (now : timestamp) :
  upper action = "SELL" →
  (holdings db !! (account_id, upper ticker) = None
   ∨ ∃ h, holdings db !! (account_id, upper ticker) = Some h
          ∧ (h_shares h < shares)%Q) →
  ∃ e,
    record_transaction account_id ticker action shares price fee tax executed_at
      notes now db = (Raise e, db)
    ∧ ((0 < shares)%Q → (0 < price)%Q → is_Some (accounts db !! account_id) →
       ∃ current, e = ValueError (Cannot_sell shares (upper ticker) current)).
Proof.
  intros Hact Hrow.
  destruct (Qle_bool shares 0) eqn:Hs.
  { eexists. split.
    - unfold record_transaction. rewrite Hact.
      rewrite bool_decide_eq_true_2 by apply SELL_in_actions. simpl.
      by rewrite Hs.
    - intros H. apply Qle_bool_false in H. congruence. }
  destruct (Qle_bool price 0) eqn:Hp.
  { eexists. split.
    - unfold record_transaction. rewrite Hact.
      rewrite bool_decide_eq_true_2 by apply SELL_in_actions. simpl.
      by rewrite Hs, Hp.
    - intros _ H. apply Qle_bool_false in H. congruence. }
  destruct (accounts db !! account_id) as [account|] eqn:Hacc.
  2:{ eexists. split.
      - unfold record_transaction. rewrite Hact.
        rewrite bool_decide_eq_true_2 by apply SELL_in_actions. simpl.
        rewrite Hs, Hp. unfold svc_bind. rewrite get_account_spec, Hacc. done.
      - intros _ _ [? ?]. congruence. }
  apply Qle_bool_false in Hs, Hp.
  rewrite (record_transaction_valid _ _ _ _ _ _ _ _ _ _ _ account)
    by (rewrite ?Hact; auto using SELL_in_actions).
  rewrite Hact.
  unfold get_connection, trade_body, tx_bind, update_holding_from_trade,
    Sql.select_holding.
  rewrite upper_idemp. simpl. unfold tx_bind, tx_raise.
  destruct Hrow as [Hnone|(h & Hsome & Hlt)].
  - rewrite Hnone. eexists. split; [done|]. intros _ _ _. by eexists.
  - rewrite Hsome. apply Qlt_bool_true in Hlt. rewrite Hlt.
    eexists. split; [done|]. intros _ _ _. by eexists.
Qed.

Lemma C1_rejected_sell_witness :
  let db := mkDB {[ 1 := mkAccount 1 "US" "USD" true ]}
                 {[ (1, "AAPL") := mkHolding 10 150 0 ]} [] ∅ ∅ ∅ ∅ in
  ∃ e,
    record_transaction 1 "aapl" "sell" 20 160 1 0 None None 7000000 db = (Raise e, db)
    ∧ ((0 < 20)%Q → (0 < 160)%Q → is_Some (accounts db !! 1) →
       ∃ current, e = ValueError (Cannot_sell 20 (upper "aapl") current)).
Proof.
  intros db.
  apply (C1_rejected_sell_changes_nothing db 1 "aapl" "sell" 20 160 1 0 None None
           7000000).
  - reflexivity.
  - right. exists (mkHolding 10 150 0). split; reflexivity.
Defined.

(** ** Effects of the ledger statements *)

Lemma alter_const_insert `{Countable K} {V} (m : gmap K V) (k : K) (v w : V) :
  m !! k = Some w → alter (λ _, v) k m = <[k := v]> m.
Proof.
  intros Hk. apply map_eq. intros j.
  destruct (decide (k = j)) as [->|Hne].
  - by rewrite lookup_alter_eq, lookup_insert_eq, Hk.
  - by rewrite lookup_alter_ne, lookup_insert_ne.
Qed.

Lemma adjust_cash_spec account_id currency amount now conn :
  adjust_cash account_id currency amount now conn =
  Ok (tt, set_cash_positions
            <[(account_id, upper currency) :=
                mkCashPosition
                  (adjusted_balance
                     (cash_positions conn !! (account_id, upper currency)) amount)
                  (datetime_now now)]> conn).
Proof.
  unfold adjust_cash, tx_bind, Sql.select_cash.
  destruct (cash_positions conn !! (account_id, upper currency)) as [c|] eqn:Hc.
  - unfold Sql.update_cash, set_cash_positions. simpl.
    by erewrite alter_const_insert.
  - unfold Sql.insert_cash. by rewrite Hc.
Qed.

(** A trade touches no table but [holdings]. *)
Lemma update_holding_from_trade_frame account_id ticker action shares price now
    conn conn' u :
  update_holding_from_trade account_id ticker action shares price now conn
    = Ok (u, conn') →
  conn' = set_holdings (λ _, holdings conn') conn.
Proof.
  unfold update_holding_from_trade, tx_bind, Sql.select_holding, py_div, tx_raise,
    tx_ret, Sql.update_holding, Sql.insert_holding, Sql.delete_holding,
    Sql.update_holding_shares.
  intros H. destruct conn. simpl in *.
  repeat (case_match; simplify_eq/=; try done).
Qed.

(** What a returning [record_transaction] did. *)
Lemma record_transaction_ok account_id ticker action shares price fee tax
    executed_at notes now db db' tx :
  record_transaction account_id ticker action shares price fee tax executed_at notes
    now db = (Ok tx, db') →
  upper action ∈ TRANSACTION_ACTIONS ∧ (0 < shares)%Q ∧ (0 < price)%Q
  ∧ ∃ account conn1,
      accounts db !! account_id = Some account
      ∧ update_holding_from_trade account_id (upper ticker) (upper action) shares
          price now db = Ok (tt, conn1)
      ∧ tx = mkTransaction (Sql.next_rowid (t_id <$> transactions db)) account_id
               (upper ticker) (upper action) shares price fee tax
               (acc_currency account) notes
               (match executed_at with
                | None => datetime_now now
                | Some at_ => at_
                end) (datetime_now now)
      ∧ db' = set_transactions (λ log, (log ++ [tx])%list)
                (set_cash_positions
                   <[(account_id, upper (acc_currency account)) :=
                       mkCashPosition
                         (adjusted_balance
                            (cash_positions db
                               !! (account_id, upper (acc_currency account)))
                            (cash_change (upper action) shares price fee tax))
                         (datetime_now now)]> conn1).
Proof.
  unfold record_transaction, svc_raise, svc_bind.
  destruct (bool_decide (upper action ∈ TRANSACTION_ACTIONS)) eqn:Hact;
    simpl; [|congruence].
  apply bool_decide_eq_true in Hact.
  destruct (Qle_bool shares 0) eqn:Hs; [congruence|].
  destruct (Qle_bool price 0) eqn:Hp; [congruence|].
  apply Qle_bool_false in Hs, Hp.
  rewrite get_account_spec.
  destruct (accounts db !! account_id) as [account|] eqn:Hacc; [|congruence].
  unfold get_connection, tx_bind.
  destruct (update_holding_from_trade _ _ _ _ _ _ db) as [[[] conn1]|] eqn:Hupd;
    [|congruence].
  rewrite adjust_cash_spec. unfold Sql.insert_transaction.
  pose proof (update_holding_from_trade_frame _ _ _ _ _ _ _ _ _ Hupd) as Hfr.
  assert (transactions conn1 = transactions db) as Htx by (by rewrite Hfr).
  assert (cash_positions conn1 = cash_positions db) as Hcash by (by rewrite Hfr).
  simpl. rewrite Htx, Hcash.
  intros [= <- <-].
  repeat split; try done.
  by exists account, conn1.
Qed.

(** The converse: past validation, only the holding step can raise. *)
Lemma record_transaction_returns account_id ticker action shares price fee tax
    executed_at notes now db account conn1 :
  upper action ∈ TRANSACTION_ACTIONS → (0 < shares)%Q → (0 < price)%Q →
  accounts db !! account_id = Some account →
  update_holding_from_trade account_id (upper ticker) (upper action) shares price
    now db = Ok (tt, conn1) →
  ∃ tx db',
    record_transaction account_id ticker action shares price fee tax executed_at
      notes now db = (Ok tx, db').
Proof.
  intros Hact Hs Hp Hacc Hupd.
  rewrite (record_transaction_valid _ _ _ _ _ _ _ _ _ _ _ account) by done.
  unfold get_connection, trade_body, tx_bind. rewrite Hupd, adjust_cash_spec.
  unfold Sql.insert_transaction. eauto.
Qed.

(** ** C2: buys and the weighted-average cost *)

Lemma buy_without_holding account_id ticker shares price now conn :
  is_Some (accounts conn !! account_id) →
  holdings conn !! (account_id, upper ticker) = None →
  update_holding_from_trade account_id ticker "BUY" shares price now conn =
  Ok (tt, set_holdings
            <[(account_id, upper ticker) :=
                mkHolding shares price (datetime_now now)]> conn).
Proof.
  intros [account Hacc] Hnone.
  unfold update_holding_from_trade, tx_bind, Sql.select_holding, Sql.insert_holding.
  simpl. rewrite Hnone. simpl. by rewrite Hnone, Hacc.
Qed.






(** ** C3: the cash side of a trade *)

(** C3.  Every committed trade moves the cash position of the account's
    settlement currency by the trade's cash delta,
    -(shares * price + fee + tax) for a BUY and
    +(shares * price - fee - tax) for a SELL: the position is created at
    that amount when the account had none in that currency, and is the
    old balance plus that amount otherwise.  No other cash position
    changes. *)
Theorem C3_trade_cash_delta
    (db db' : DB) (account_id : Z) (ticker action : string)
    (shares price fee tax : Q) (executed_at : option Z) (notes : option string)
    (now : timestamp) (tx : Transaction) :
  record_transaction account_id ticker action shares price fee tax executed_at notes
    now db = (Ok tx, db') →
  ∃ account delta,
    accounts db !! account_id = Some account
    ∧ ((upper action = "BUY" ∧ delta = (- (shares * price + fee + tax))%Q)
       ∨ (upper action = "SELL" ∧ delta = (shares * price - fee - tax)%Q))
    ∧ (c_balance <$> cash_positions db' !! (account_id, upper (acc_currency account)))
      = Some (match cash_positions db !! (account_id, upper (acc_currency account)) with
              | None => delta
              | Some before => (c_balance before + delta)%Q
              end)
    ∧ ∀ key, key ≠ (account_id, upper (acc_currency account)) →
             cash_positions db' !! key = cash_positions db !! key.
Proof.
  intros Hrun.
  apply record_transaction_ok in Hrun
    as (Hact & Hs & Hp & account & conn1 & Hacc & Hupd & -> & ->).
  pose proof (update_holding_from_trade_frame _ _ _ _ _ _ _ _ _ Hupd) as Hfr.
  assert (cash_positions conn1 = cash_positions db) as Hcash by (by rewrite Hfr).
  exists account, (cash_change (upper action) shares price fee tax).
  split; [done|]. split; [|split].
  - apply in_actions in Hact as [Hb|Hsell]; [left|right];
      (split; [done|]); rewrite ?Hb, ?Hsell; reflexivity.
  - simpl. rewrite lookup_insert_eq. simpl. unfold adjusted_balance.
    by destruct (cash_positions db !! _).
  - intros key Hne. simpl. rewrite lookup_insert_ne by done. by rewrite Hcash.
Qed.

Lemma C3_trade_cash_witness :
  let db := mkDB {[ 1 := mkAccount 1 "TW" "TWD" true ]} ∅ []
                 {[ (1, "TWD") := mkCashPosition 100000 0 ]} ∅ ∅ ∅ in
  ∃ db' account delta,
    accounts db !! 1 = Some account
    ∧ ((upper "BUY" = "BUY" ∧ delta = (- (1000 * (1161 # 2) + 20 + 0))%Q)
       ∨ (upper "BUY" = "SELL" ∧ delta = (1000 * (1161 # 2) - 20 - 0)%Q))
    ∧ (c_balance <$> cash_positions db' !! (1, upper (acc_currency account)))
      = Some (match cash_positions db !! (1, upper (acc_currency account)) with
              | None => delta
              | Some before => (c_balance before + delta)%Q
              end)
    ∧ ∀ key, key ≠ (1, upper (acc_currency account)) →
             cash_positions db' !! key = cash_positions db !! key.
Proof.
  intros db.
  destruct (record_transaction 1 "2330.TW" "BUY" 1000 (1161 # 2) 20 0 None None 0 db)
    as [[tx|e] db'] eqn:Hrun; [|by vm_compute in Hrun].
  exists db'.
  exact (C3_trade_cash_delta db db' 1 "2330.TW" "BUY" 1000 (1161 # 2) 20 0 None None
           0 tx Hrun).
Defined.

(** ** C4: sells *)

Lemma sell_inv account_id ticker shares price now conn conn' u :
  update_holding_from_trade account_id ticker "SELL" shares price now conn
    = Ok (u, conn') →
  ∃ old,
    holdings conn !! (account_id, upper ticker) = Some old
    ∧ (shares <= h_shares old)%Q
    ∧ conn' =
        if Qeq_bool (h_shares old - shares) 0
        then set_holdings (delete (account_id, upper ticker)) conn
        else set_holdings
               <[(account_id, upper ticker) :=
                   mkHolding (h_shares old - shares) (h_avg_cost old)
                     (datetime_now now)]> conn.
Proof.
  unfold update_holding_from_trade, tx_bind, Sql.select_holding. simpl.
  destruct (holdings conn !! (account_id, upper ticker)) as [old|] eqn:Hold;
    [|done].
  unfold tx_raise.
  destruct (Qlt_bool (h_shares old) shares) eqn:Hlt; [done|].
  apply Qlt_bool_false in Hlt.
  intros Hrun. exists old. split; [done|]. split; [done|].
  destruct (Qeq_bool (h_shares old - shares) 0).
  - unfold Sql.delete_holding in Hrun. congruence.
  - unfold Sql.update_holding_shares in Hrun. injection Hrun as _ <-.
    unfold set_holdings. f_equal. apply map_eq. intros j.
    destruct (decide ((account_id, upper ticker) = j)) as [<-|Hne].
    + by rewrite lookup_alter_eq, lookup_insert_eq, Hold.
    + by rewrite lookup_alter_ne, lookup_insert_ne.
Qed.

Lemma sell_returns account_id ticker shares price now conn old :
  holdings conn !! (account_id, upper ticker) = Some old →
  (shares <= h_shares old)%Q →
  ∃ conn',
    update_holding_from_trade account_id ticker "SELL" shares price now conn
      = Ok (tt, conn').
Proof.
  intros Hold Hle.
  unfold update_holding_from_trade, tx_bind, Sql.select_holding. simpl.
  rewrite Hold. apply Qlt_bool_false in Hle. rewrite Hle.
  destruct (Qeq_bool (h_shares old - shares) 0); eauto.
Qed.

(** C4.  A SELL of at most the held shares goes through, and every SELL
    that goes through found a holding with at least the sold shares; it
    leaves the holding with the share count reduced by the sold amount
    and the avg_cost it had, except that a resulting share count of zero
    deletes the row.  Other holdings are untouched. *)
Theorem C4_sell_decrements_or_deletes
    (account_id : Z) (ticker : string) (shares price : Q) (now : timestamp)
    (conn : DB) (old : Holding) :
  holdings conn !! (account_id, upper ticker) = Some old →
  (shares <= h_shares old)%Q →
  ∃ conn',
    update_holding_from_trade account_id ticker "SELL" shares price now conn
      = Ok (tt, conn')
    ∧ ((h_shares old - shares == 0)%Q →
       holdings conn' !! (account_id, upper ticker) = None)
    ∧ (¬ (h_shares old - shares == 0)%Q →
       ∃ h, holdings conn' !! (account_id, upper ticker) = Some h
            ∧ h_shares h = (h_shares old - shares)%Q
            ∧ h_avg_cost h = h_avg_cost old)
    ∧ ∀ key, key ≠ (account_id, upper ticker) →
             holdings conn' !! key = holdings conn !! key.
Proof.
  intros Hold Hle.
  destruct (sell_returns account_id ticker shares price now conn old Hold Hle)
    as [conn' Hrun].
  exists conn'. split; [done|].
  apply sell_inv in Hrun as (old' & Hold' & _ & ->).
  rewrite Hold in Hold'. injection Hold' as <-.
  destruct (Qeq_bool (h_shares old - shares) 0) eqn:Hz.
  - apply Qeq_bool_iff in Hz. split; [|split].
    + intros _. simpl. apply lookup_delete_eq.
    + intros Hnz. contradiction.
    + intros key Hne. simpl. by rewrite lookup_delete_ne.
  - apply Qeq_bool_false in Hz. split; [|split].
    + intros Hzero. contradiction.
    + intros _. eexists. split; [simpl; apply lookup_insert_eq|done].
    + intros key Hne. simpl. by rewrite lookup_insert_ne.
Qed.

Lemma C4_sell_witness :
  let conn := mkDB ∅ {[ (1, "2330.TW") := mkHolding 1000 (1161 # 2) 0 ]} [] ∅ ∅ ∅ ∅ in
  ∃ conn',
    update_holding_from_trade 1 "2330.TW" "SELL" 400 600 0 conn = Ok (tt, conn')
    ∧ ((1000 - 400 == 0)%Q → holdings conn' !! (1, upper "2330.TW") = None)
    ∧ (¬ (1000 - 400 == 0)%Q →
       ∃ h, holdings conn' !! (1, upper "2330.TW") = Some h
            ∧ h_shares h = (1000 - 400)%Q
            ∧ h_avg_cost h = (1161 # 2)%Q)
    ∧ ∀ key, key ≠ (1, upper "2330.TW") →
             holdings conn' !! key = holdings conn !! key.
Proof.
  intros conn.
  apply (C4_sell_decrements_or_deletes 1 "2330.TW" 400 600 0 conn
           (mkHolding 1000 (1161 # 2) 0)).
  - reflexivity.
  - vm_compute. discriminate.
Defined.

(** Selling all of a holding at once removes its row. *)
Example sell_everything_deletes_the_row :
  let conn := mkDB ∅ {[ (1, "2330.TW") := mkHolding 1000 (1161 # 2) 0 ]} [] ∅ ∅ ∅ ∅ in
  update_holding_from_trade 1 "2330.TW" "SELL" 1000 600 0 conn
  = Ok (tt, mkDB ∅ ∅ [] ∅ ∅ ∅ ∅).
Proof. vm_compute. reflexivity. Qed.

(** ** C10: fee and tax are taken as given *)

(** C10.  [record_transaction] checks the action, the shares and the
    price only.  If a call returns for some fee and tax, the same call
    returns for every other fee and tax, negative ones included: it
    appends the trade to the log with the fee and tax as given, and they
    enter the cash delta unchanged, so that a BUY moves the balance by
    -(shares * price + fee + tax) whatever the signs of fee and tax. *)
Theorem C10_fee_and_tax_not_validated
    (db db0 : DB) (account_id : Z) (ticker action : string)
    (shares price fee0 tax0 fee tax : Q) (executed_at : option Z)
    (notes : option string) (now : timestamp) (tx0 : Transaction) :
  record_transaction account_id ticker action shares price fee0 tax0 executed_at
    notes now db = (Ok tx0, db0) →
  ∃ tx db' account,
    record_transaction account_id ticker action shares price fee tax executed_at
      notes now db = (Ok tx, db')
    ∧ t_fee tx = fee ∧ t_tax tx = tax
    ∧ transactions db' = (transactions db ++ [tx])%list
    ∧ accounts db !! account_id = Some account
    ∧ (upper action = "BUY" →
       (c_balance <$> cash_positions db' !! (account_id, upper (acc_currency account)))
       = Some (adjusted_balance
                 (cash_positions db !! (account_id, upper (acc_currency account)))
                 (- (shares * price + fee + tax))%Q))
    ∧ (upper action = "SELL" →
       (c_balance <$> cash_positions db' !! (account_id, upper (acc_currency account)))
       = Some (adjusted_balance
                 (cash_positions db !! (account_id, upper (acc_currency account)))
                 (shares * price - fee - tax)%Q)).
Proof.
  intros Hrun0.
  apply record_transaction_ok in Hrun0
    as (Hact & Hs & Hp & account & conn1 & Hacc & Hupd & _ & _).
  destruct (record_transaction_returns account_id ticker action shares price fee tax
              executed_at notes now db account conn1 Hact Hs Hp Hacc Hupd)
    as (tx & db' & Hrun).
  exists tx, db', account. split; [done|].
  apply record_transaction_ok in Hrun
    as (_ & _ & _ & account' & conn1' & Hacc' & Hupd' & -> & ->).
  rewrite Hacc in Hacc'. injection Hacc' as <-.
  pose proof (update_holding_from_trade_frame _ _ _ _ _ _ _ _ _ Hupd') as Hfr.
  assert (transactions conn1' = transactions db) as Htx by (by rewrite Hfr).
  simpl. rewrite Htx, lookup_insert_eq. simpl.
  do 4 (split; [done|]).
  split; intros ->; reflexivity.
Qed.

Lemma C10_negative_fee_witness :
  let db := mkDB {[ 1 := mkAccount 1 "US" "USD" true ]} ∅ []
                 {[ (1, "USD") := mkCashPosition 1000 0 ]} ∅ ∅ ∅ in
  ∃ tx db' account,
    record_transaction 1 "AAPL" "BUY" 10 50 (-100) 0 None None 0 db = (Ok tx, db')
    ∧ t_fee tx = (-100)%Q ∧ t_tax tx = 0%Q
    ∧ transactions db' = (transactions db ++ [tx])%list
    ∧ accounts db !! 1 = Some account
    ∧ (upper "BUY" = "BUY" →
       (c_balance <$> cash_positions db' !! (1, upper (acc_currency account)))
       = Some (adjusted_balance
                 (cash_positions db !! (1, upper (acc_currency account)))
                 (- (10 * 50 + (-100) + 0))%Q))
    ∧ (upper "BUY" = "SELL" →
       (c_balance <$> cash_positions db' !! (1, upper (acc_currency account)))
       = Some (adjusted_balance
                 (cash_positions db !! (1, upper (acc_currency account)))
                 (10 * 50 - (-100) - 0)%Q)).
Proof.
  intros db.
  destruct (record_transaction 1 "AAPL" "BUY" 10 50 0 0 None None 0 db)
    as [[tx0|e] db0] eqn:Hrun0; [|by vm_compute in Hrun0].
  exact (C10_fee_and_tax_not_validated db db0 1 "AAPL" "BUY" 10 50 0 0 (-100) 0 None
           None 0 tx0 Hrun0).
Defined.

(** A BUY of 10 shares at 50 with fee -100 takes 400 from the balance,
    100 less than shares * price + tax. *)
Example negative_fee_buy_is_committed :
  let db := mkDB {[ 1 := mkAccount 1 "US" "USD" true ]} ∅ []
                 {[ (1, "USD") := mkCashPosition 1000 0 ]} ∅ ∅ ∅ in
  ∃ tx db',
    record_transaction 1 "AAPL" "BUY" 10 50 (-100) 0 None None 0 db = (Ok tx, db')
    ∧ (c_balance <$> cash_positions db' !! (1, "USD")) = Some (1000 + - (10 * 50 + -100 + 0))%Q
    ∧ (1000 + - (10 * 50 + -100 + 0) == 600)%Q.
Proof. do 2 eexists. split; [vm_compute; reflexivity|]. split; reflexivity. Qed.

(** ** C5: the life cycle of a planned order *)

Lemma execute_order_load_spec order_id db :
  execute_order_load order_id db =
    match planned_orders db !! order_id with
    | None => (Raise (ValueError (Order_not_found order_id)), db)
    | Some order =>
        if decide (o_status order ≠ "PENDING")
        then (Raise (ValueError (Order_is_already (o_status order))), db)
        else (Ok order, db)
    end.
Proof.
  unfold execute_order_load, get_connection, tx_bind, Sql.select_order.
  destruct (planned_orders db !! order_id) as [order|]; [|done].
  by destruct (decide (o_status order ≠ "PENDING")).
Qed.

Lemma execute_order_mark_spec order_id tx_id now db order :
  planned_orders db !! order_id = Some order →
  tx_id ∈ t_id <$> transactions db →
  execute_order_mark order_id tx_id now db =
    (Ok (executed order tx_id now),
     set_planned_orders <[order_id := executed order tx_id now]> db).
Proof.
  intros Hrow Hlogged.
  unfold execute_order_mark, get_connection, tx_bind, Sql.update_order_executed,
    Sql.select_order.
  rewrite Hrow, bool_decide_eq_true_2 by done.
  simpl. rewrite lookup_alter_eq, Hrow. simpl.
  unfold set_planned_orders, executed. do 2 f_equal.
  apply map_eq. intros j. destruct (decide (order_id = j)) as [<-|Hne].
  - by rewrite lookup_alter_eq, lookup_insert_eq, Hrow.
  - by rewrite lookup_alter_ne, lookup_insert_ne.
Qed.

(** A trade leaves the planned orders alone and appends one row, with a
    fresh id, to the log. *)
Lemma record_transaction_log account_id ticker action shares price fee tax
    executed_at notes now db db' tx :
  record_transaction account_id ticker action shares price fee tax executed_at notes
    now db = (Ok tx, db') →
  planned_orders db' = planned_orders db
  ∧ transactions db' = (transactions db ++ [tx])%list
  ∧ t_id tx = Sql.next_rowid (t_id <$> transactions db)
  ∧ t_price tx = price ∧ t_fee tx = fee ∧ t_tax tx = tax ∧ t_notes tx = notes.
Proof.
  intros Hrun.
  apply record_transaction_ok in Hrun
    as (_ & _ & _ & account & conn1 & _ & Hupd & -> & ->).
  pose proof (update_holding_from_trade_frame _ _ _ _ _ _ _ _ _ Hupd) as Hfr.
  simpl. rewrite Hfr. done.
Qed.

Lemma next_rowid_fresh (ids : list Z) : Sql.next_rowid ids ∉ ids.
Proof.
  assert (∀ x, x ∈ ids → x <= foldr Z.max 0 ids) as Hmax.
  { induction ids as [|y ids IH]; intros x Hx; [by apply elem_of_nil in Hx|].
    apply elem_of_cons in Hx as [->|Hx]; simpl; [lia|].
    specialize (IH x Hx). lia. }
  intros Hin. apply Hmax in Hin. unfold Sql.next_rowid in Hin. lia.
Qed.

Lemma execute_order_terminal order_id actual_price fee tax now db order :
  planned_orders db !! order_id = Some order →
  o_status order ≠ "PENDING" →
  execute_order order_id actual_price fee tax now db
  = (Raise (ValueError (Order_is_already (o_status order))), db).
Proof.
  intros Hrow Hst. unfold execute_order, svc_bind.
  rewrite execute_order_load_spec, Hrow.
  by destruct (decide (o_status order ≠ "PENDING")).
Qed.

Lemma cancel_order_terminal order_id db order :
  planned_orders db !! order_id = Some order →
  o_status order ≠ "PENDING" →
  cancel_order order_id db
  = (Raise (ValueError (Order_is_already (o_status order))), db).
Proof.
  intros Hrow Hst.
  unfold cancel_order, get_connection, tx_bind, Sql.select_order.
  rewrite Hrow. by destruct (decide (o_status order ≠ "PENDING")).
Qed.

Lemma update_order_terminal order_id updates db order :
  planned_orders db !! order_id = Some order →
  o_status order ≠ "PENDING" →
  update_order order_id updates db
  = (Raise (ValueError (if no_updates updates then No_valid_fields
                        else Cannot_update_order (o_status order))), db).
Proof.
  intros Hrow Hst. unfold update_order.
  destruct (no_updates updates); [done|].
  unfold get_connection, tx_bind, Sql.select_order.
  rewrite Hrow. by destruct (decide (o_status order ≠ "PENDING")).
Qed.

(** What a returning [execute_order] did. *)
Lemma execute_order_ok order_id actual_price fee tax now db db' order' :
  execute_order order_id actual_price fee tax now db = (Ok order', db') →
  ∃ order tx,
    planned_orders db !! order_id = Some order
    ∧ o_status order = "PENDING"
    ∧ order' = executed order (t_id tx) now
    ∧ planned_orders db' = <[order_id := order']> (planned_orders db)
    ∧ transactions db' = (transactions db ++ [tx])%list
    ∧ (t_id tx ∉ (t_id <$> transactions db))
    ∧ t_price tx = actual_price
    ∧ t_notes tx = Some ("Executed from planned order #" ++ str_of_int order_id).
Proof.
  unfold execute_order, svc_bind. rewrite execute_order_load_spec.
  destruct (planned_orders db !! order_id) as [order|] eqn:Hrow; [|done].
  destruct (decide (o_status order ≠ "PENDING")) as [|Hst]; [done|].
  apply dec_stable in Hst.
  unfold execute_order_record.
  destruct (record_transaction _ _ _ _ _ _ _ _ _ _ db) as [[tx|e] db1] eqn:Hrec;
    [|done].
  apply record_transaction_log in Hrec as (Hpo & Hlog & Hid & Hprice & _ & _ & Hnotes).
  rewrite (execute_order_mark_spec _ _ _ _ order)
    by (rewrite ?Hpo, ?Hlog; set_solver).
  intros [= <- <-]. exists order, tx. simpl. rewrite Hpo.
  do 5 (split; [done|]).
  split; [|done]. rewrite Hid. apply next_rowid_fresh.
Qed.

(** C5.  An [execute_order] that returns found the order PENDING; it
    leaves it EXECUTED, stamped with the time of the call and linked to
    one new transaction, the only row added to the log, whose id no
    earlier row has and whose price is the actual price passed in (the
    target price plays no part).  After that, and on any order whose
    status is EXECUTED or CANCELLED, [execute_order], [cancel_order] and
    [update_order] raise a ValueError and commit nothing, so the order is
    unchanged: "Order is already <status>" for execute and cancel,
    "Cannot update order with status <status>" for an update that names
    a field (an update that names none is turned down as "No valid
    fields to update" before the order is read). *)
Theorem C5_order_life_cycle (db : DB) (order_id : Z) (now : timestamp) :
  (∀ actual_price fee tax db' order',
     execute_order order_id actual_price fee tax now db = (Ok order', db') →
     (∃ order tx,
        planned_orders db !! order_id = Some order
        ∧ o_status order = "PENDING"
        ∧ o_status order' = "EXECUTED"
        ∧ o_executed_at order' = Some (datetime_now now)
        ∧ o_linked_transaction_id order' = Some (t_id tx)
        ∧ planned_orders db' !! order_id = Some order'
        ∧ transactions db' = (transactions db ++ [tx])%list
        ∧ (t_id tx ∉ (t_id <$> transactions db))
        ∧ t_price tx = actual_price)
     ∧ ∀ price2 fee2 tax2 now2,
         execute_order order_id price2 fee2 tax2 now2 db'
         = (Raise (ValueError (Order_is_already "EXECUTED")), db'))
  ∧ (∀ order,
       planned_orders db !! order_id = Some order →
       o_status order = "EXECUTED" ∨ o_status order = "CANCELLED" →
       (∀ actual_price fee tax,
          execute_order order_id actual_price fee tax now db
          = (Raise (ValueError (Order_is_already (o_status order))), db))
       ∧ cancel_order order_id db
         = (Raise (ValueError (Order_is_already (o_status order))), db)
       ∧ ∀ updates,
           ∃ m, update_order order_id updates db = (Raise (ValueError m), db)
                ∧ (no_updates updates = false →
                   m = Cannot_update_order (o_status order))).
Proof.
  split.
  - intros actual_price fee tax db' order' Hrun.
    apply execute_order_ok in Hrun
      as (order & tx & Hrow & Hst & -> & Hpo & Hlog & Hfresh & Hprice & _).
    split.
    + exists order, tx. rewrite Hpo, lookup_insert_eq. done.
    + intros price2 fee2 tax2 now2.
      apply (execute_order_terminal _ _ _ _ _ _ (executed order (t_id tx) now)).
      * by rewrite Hpo, lookup_insert_eq.
      * done.
  - intros order Hrow Hst.
    assert (o_status order ≠ "PENDING") as Hne by (destruct Hst as [-> | ->]; done).
    split; [|split].
    + intros. by apply execute_order_terminal.
    + by apply cancel_order_terminal.
    + intros updates. eexists. split.
      * by apply update_order_terminal.
      * by intros ->.
Qed.

Lemma C5_order_witness :
  let db := mkDB {[ 1 := mkAccount 1 "US" "USD" true ]} ∅ [] ∅
                 {[ 7 := mkPlannedOrder 1 "AAPL" "BUY" 10 (Some 150%Q) None "NORMAL"
                           "PENDING" 0 None None ]} ∅ ∅ in
  ∃ db' order',
    execute_order 7 160 1 0 5000000 db = (Ok order', db')
    ∧ (∃ order tx,
         planned_orders db !! 7 = Some order
         ∧ o_status order = "PENDING"
         ∧ o_status order' = "EXECUTED"
         ∧ o_executed_at order' = Some (datetime_now 5000000)
         ∧ o_linked_transaction_id order' = Some (t_id tx)
         ∧ planned_orders db' !! 7 = Some order'
         ∧ transactions db' = (transactions db ++ [tx])%list
         ∧ (t_id tx ∉ (t_id <$> transactions db))
         ∧ t_price tx = 160%Q)
    ∧ ∀ price2 fee2 tax2 now2,
        execute_order 7 price2 fee2 tax2 now2 db'
        = (Raise (ValueError (Order_is_already "EXECUTED")), db').
Proof.
  intros db.
  destruct (execute_order 7 160 1 0 5000000 db) as [[order'|e] db'] eqn:Hrun;
    [|by vm_compute in Hrun].
  exists db', order'. split; [done|].
  exact (proj1 (C5_order_life_cycle db 7 5000000) 160%Q 1%Q 0%Q db' order' Hrun).
Defined.

(** ** C6: the terminal write of [execute_order] *)

(** C6 does not hold as stated.  With both loads ahead of both writes,
    two executes of the pending order 7 both return, the log gets two
    transactions, and the second write lands on a row that is EXECUTED
    already. *)
Lemma C6_both_interleaved_executes_return :
  let db := mkDB {[ 1 := mkAccount 1 "US" "USD" true ]} ∅ [] ∅
                 {[ 7 := mkPlannedOrder 1 "AAPL" "BUY" 10 (Some 150%Q) None "NORMAL"
                           "PENDING" 0 None None ]} ∅ ∅ in
  ∃ done_a done_b db',
    interleaved_executes 7 160 161 0 0 5000000 db = (Ok (done_a, done_b), db')
    ∧ o_status done_a = "EXECUTED" ∧ o_linked_transaction_id done_a = Some 1
    ∧ o_status done_b = "EXECUTED" ∧ o_linked_transaction_id done_b = Some 2
    ∧ t_id <$> transactions db' = [1; 2]
    ∧ (h_shares <$> holdings db' !! (1, "AAPL")) = Some (10 + 10)%Q.
Proof.
  do 3 eexists. split; [vm_compute; reflexivity|].
  repeat split; vm_compute; reflexivity.
Qed.

(** C6 (as the code has it).  [execute_order] checks the status only in
    its first connection, which writes nothing.  Its terminal write is an
    UPDATE selected by the order id alone: whatever the status of the row
    at that moment, PENDING, EXECUTED or CANCELLED, the write of a
    transaction of the log returns and leaves the row EXECUTED, stamped
    and linked to that transaction (only an id that no transaction has
    is refused, by the FOREIGN KEY, with nothing written).  So when two
    executes of a pending order both load before either writes and both
    trades are recorded, both executes return, and the order ends linked
    to the transaction of the later write. *)
Theorem C6_terminal_write_is_unconditional
    (db : DB) (order_id : Z) (now : timestamp) (order : PlannedOrder) :
  planned_orders db !! order_id = Some order →
  execute_order_load order_id db
  = (if decide (o_status order ≠ "PENDING")
     then Raise (ValueError (Order_is_already (o_status order)))
     else Ok order, db)
  ∧ (∀ tx_id,
       tx_id ∈ t_id <$> transactions db →
       execute_order_mark order_id tx_id now db
       = (Ok (executed order tx_id now),
          set_planned_orders <[order_id := executed order tx_id now]> db))
  ∧ (∀ tx_id,
       tx_id ∉ t_id <$> transactions db →
       execute_order_mark order_id tx_id now db = (Raise IntegrityError, db))
  ∧ (∀ price_a price_b fee tax tx_a db_a tx_b db_b,
       o_status order = "PENDING" →
       execute_order_record order_id order price_a fee tax now db = (Ok tx_a, db_a) →
       execute_order_record order_id order price_b fee tax now
         (set_planned_orders <[order_id := executed order (t_id tx_a) now]> db_a)
       = (Ok tx_b, db_b) →
       interleaved_executes order_id price_a price_b fee tax now db
       = (Ok (executed order (t_id tx_a) now, executed order (t_id tx_b) now),
          set_planned_orders <[order_id := executed order (t_id tx_b) now]> db_b)).
Proof.
  intros Hrow. split; [|split; [|split]].
  - rewrite execute_order_load_spec, Hrow.
    by destruct (decide (o_status order ≠ "PENDING")).
  - intros tx_id Hlogged. by apply execute_order_mark_spec.
  - intros tx_id Hnot.
    unfold execute_order_mark, get_connection, tx_bind, Sql.update_order_executed.
    by rewrite Hrow, bool_decide_eq_false_2.
  - intros price_a price_b fee tax tx_a db_a tx_b db_b Hst Hrec_a Hrec_b.
    unfold interleaved_executes, svc_bind.
    rewrite !execute_order_load_spec, Hrow.
    destruct (decide (o_status order ≠ "PENDING")) as [|_]; [done|].
    rewrite execute_order_load_spec, Hrow.
    destruct (decide (o_status order ≠ "PENDING")) as [|_]; [done|].
    rewrite Hrec_a.
    pose proof Hrec_a as Hlog_a. unfold execute_order_record in Hlog_a.
    apply record_transaction_log in Hlog_a as (Hpo_a & Htx_a & _).
    rewrite (execute_order_mark_spec _ _ _ _ order)
      by (rewrite ?Hpo_a, ?Htx_a; set_solver).
    rewrite Hrec_b.
    pose proof Hrec_b as Hlog_b. unfold execute_order_record in Hlog_b.
    apply record_transaction_log in Hlog_b as (Hpo_b & Htx_b & _).
    rewrite (execute_order_mark_spec _ _ _ _ (executed order (t_id tx_a) now)).
    + done.
    + rewrite Hpo_b. simpl. apply lookup_insert_eq.
    + rewrite Htx_b. set_solver.
Qed.

Lemma C6_terminal_write_witness :
  let order := mkPlannedOrder 1 "AAPL" "BUY" 10 None None "NORMAL"
                 "CANCELLED" 0 None None in
  let db := mkDB {[ 1 := mkAccount 1 "US" "USD" true ]}
                 {[ (1, "AAPL") := mkHolding 10 150 0 ]}
                 [mkTransaction 3 1 "AAPL" "BUY" 10 150 0 0 "USD" None 0 0]
                 {[ (1, "USD") := mkCashPosition (-1500) 0 ]}
                 {[ 7 := order ]} ∅ ∅ in
  execute_order_mark 7 3 5000000 db
  = (Ok (executed order 3 5000000),
     set_planned_orders <[7 := executed order 3 5000000]> db).
Proof.
  intros order db.
  apply (proj1 (proj2 (C6_terminal_write_is_unconditional db 7 5000000 order
                         eq_refl))).
  by apply (bool_decide_unpack _).
Defined.

(** ** C8: the price and FX caches *)

Lemma stored_stamp_bounds (at_ : timestamp) :
  fromisoformat (datetime_now at_) <= at_ < fromisoformat (datetime_now at_) + one_second.
Proof.
  unfold fromisoformat, datetime_now, one_second.
  pose proof (Z.mod_pos_bound at_ 1000000 ltac:(lia)).
  pose proof (Z.div_mod at_ 1000000 ltac:(lia)). lia.
Qed.

Ltac clock :=
  unfold age, utcnow, price_row, rate_row, timedelta_minutes,
    PRICE_CACHE_TTL_MINUTES, FX_CACHE_TTL_MINUTES, one_second in *;
  cbn [p_fetched_at r_fetched_at] in *; lia.

Lemma fetch_price_hit yf ticker now db row :
  price_cache db !! upper ticker = Some row →
  age now (p_fetched_at row) <= timedelta_minutes PRICE_CACHE_TTL_MINUTES →
  PriceService.fetch_price yf ticker now db
  = (Ok (PriceService.mkPriceResult (upper ticker) (p_price row) (p_currency row) true),
     db).
Proof.
  intros Hrow Hage.
  unfold PriceService.fetch_price, PriceService._get_cached_price, svc_bind,
    get_connection, Sql.select_price.
  rewrite Hrow. unfold age in Hage.
  destruct (Z.ltb_spec (timedelta_minutes PRICE_CACHE_TTL_MINUTES)
              (utcnow now - fromisoformat (p_fetched_at row))); [lia|done].
Qed.

Lemma fetch_price_miss yf ticker now db price :
  (price_cache db !! upper ticker = None
   ∨ ∃ row, price_cache db !! upper ticker = Some row
            ∧ timedelta_minutes PRICE_CACHE_TTL_MINUTES < age now (p_fetched_at row)) →
  last_or_previous (yf (upper ticker)) = Some price →
  PriceService.fetch_price yf ticker now db
  = (Ok (PriceService.mkPriceResult (upper ticker) price
           (currency_or_usd (yf (upper ticker))) false),
     set_price_cache
       <[upper ticker :=
           price_row price (currency_or_usd (yf (upper ticker))) now]> db).
Proof.
  intros Hmiss Hsrc.
  unfold PriceService.fetch_price, PriceService._get_cached_price, svc_bind,
    get_connection, Sql.select_price, PriceService._update_cache, Sql.upsert_price.
  destruct Hmiss as [Hnone|(row & Hrow & Hage)].
  - rewrite Hnone. simpl. by rewrite Hsrc.
  - rewrite Hrow. unfold age in Hage.
    destruct (Z.ltb_spec (timedelta_minutes PRICE_CACHE_TTL_MINUTES)
                (utcnow now - fromisoformat (p_fetched_at row))); [|lia].
    simpl. by rewrite Hsrc.
Qed.

Lemma fetch_rate_hit yf from_currency to_currency now db row :
  upper from_currency ≠ upper to_currency →
  exchange_rates db !! (upper from_currency, upper to_currency) = Some row →
  age now (r_fetched_at row) <= timedelta_minutes FX_CACHE_TTL_MINUTES →
  FxService.fetch_rate yf from_currency to_currency now db = (Ok (r_rate row), db).
Proof.
  intros Hne Hrow Hage.
  unfold FxService.fetch_rate, FxService._get_cached_rate, svc_bind,
    get_connection, Sql.select_rate.
  rewrite decide_False by done.
  rewrite Hrow. unfold age in Hage.
  destruct (Z.ltb_spec (timedelta_minutes FX_CACHE_TTL_MINUTES)
              (utcnow now - fromisoformat (r_fetched_at row))); [lia|done].
Qed.

Lemma fetch_rate_miss yf from_currency to_currency now db rate :
  upper from_currency ≠ upper to_currency →
  (exchange_rates db !! (upper from_currency, upper to_currency) = None
   ∨ ∃ row, exchange_rates db !! (upper from_currency, upper to_currency) = Some row
            ∧ timedelta_minutes FX_CACHE_TTL_MINUTES < age now (r_fetched_at row)) →
  last_or_previous (yf (fx_ticker (upper from_currency) (upper to_currency)))
    = Some rate →
  FxService.fetch_rate yf from_currency to_currency now db
  = (Ok rate,
     set_exchange_rates
       <[(upper from_currency, upper to_currency) := rate_row rate now]> db).
Proof.
  intros Hne Hmiss Hsrc.
  unfold FxService.fetch_rate, FxService._get_cached_rate, svc_bind,
    get_connection, Sql.select_rate, FxService._update_cache, Sql.upsert_rate.
  rewrite decide_False by done.
  destruct Hmiss as [Hnone|(row & Hrow & Hage)].
  - rewrite Hnone. simpl. by rewrite Hsrc.
  - rewrite Hrow. unfold age in Hage.
    destruct (Z.ltb_spec (timedelta_minutes FX_CACHE_TTL_MINUTES)
                (utcnow now - fromisoformat (r_fetched_at row))); [|lia].
    simpl. by rewrite Hsrc.
Qed.

(** What the source is taken to say: its lastPrice unless that is
    missing or zero, and its previousClose then. *)
Lemma last_or_previous_last (info : FastInfo) (price : Q) :
  lastPrice info = Some price → ¬ (price == 0)%Q →
  last_or_previous info = Some price.
Proof.
  intros Hlast Hnz. unfold last_or_previous. rewrite Hlast.
  apply Qeq_bool_false in Hnz. by rewrite Hnz.
Qed.

Lemma last_or_previous_previous (info : FastInfo) :
  (lastPrice info = None ∨ ∃ zero, lastPrice info = Some zero ∧ (zero == 0)%Q) →
  last_or_previous info = previousClose info.
Proof.
  unfold last_or_previous. intros [->|(zero & -> & Hz)]; [done|].
  apply Qeq_bool_iff in Hz. by rewrite Hz.
Qed.

(** C8.  A price lookup whose cached row is at most 15 minutes old
    returns that row's price with cached = True and leaves the database
    alone, whatever the data source would answer.  Without a row, or with
    an older one, it asks the source: it takes the lastPrice of the
    ticker's fast_info, or the previousClose when the lastPrice is
    missing or zero, and the currency of the fast_info (USD without the
    key), writes them with the current time into the row of that ticker
    (one row per key) and returns them with cached = False.  Rate lookups
    between two different currencies do the same with a limit of 60
    minutes on the fast_info of the pair's ticker, and return the bare
    rate.  In particular a value refreshed at T is served from the cache
    one second before T + TTL and fetched again one second after
    T + TTL. *)
Theorem C8_cache_lookup_ttl (yf : string → FastInfo) (db : DB) (now : timestamp) :
  (∀ ticker row,
     price_cache db !! upper ticker = Some row →
     age now (p_fetched_at row) <= timedelta_minutes 15 →
     PriceService.fetch_price yf ticker now db
     = (Ok (PriceService.mkPriceResult (upper ticker) (p_price row) (p_currency row)
              true), db))
  ∧ (∀ ticker price,
       (price_cache db !! upper ticker = None
        ∨ ∃ row, price_cache db !! upper ticker = Some row
                 ∧ timedelta_minutes 15 < age now (p_fetched_at row)) →
       (lastPrice (yf (upper ticker)) = Some price ∧ ¬ (price == 0)%Q
        ∨ (lastPrice (yf (upper ticker)) = None
           ∨ ∃ zero, lastPrice (yf (upper ticker)) = Some zero ∧ (zero == 0)%Q)
          ∧ previousClose (yf (upper ticker)) = Some price) →
       let quoted :=
         match currency (yf (upper ticker)) with
         | NoCurrencyKey => "USD"
         | CurrencyNone => "None"
         | CurrencyText text => text
         end in
       PriceService.fetch_price yf ticker now db
       = (Ok (PriceService.mkPriceResult (upper ticker) price quoted false),
          set_price_cache
            <[upper ticker := mkPriceCache price quoted (datetime_now now)]> db))
  ∧ (∀ from_currency to_currency row,
       upper from_currency ≠ upper to_currency →
       exchange_rates db !! (upper from_currency, upper to_currency) = Some row →
       age now (r_fetched_at row) <= timedelta_minutes 60 →
       FxService.fetch_rate yf from_currency to_currency now db = (Ok (r_rate row), db))
  ∧ (∀ from_currency to_currency rate,
       upper from_currency ≠ upper to_currency →
       (exchange_rates db !! (upper from_currency, upper to_currency) = None
        ∨ ∃ row, exchange_rates db !! (upper from_currency, upper to_currency)
                   = Some row
                 ∧ timedelta_minutes 60 < age now (r_fetched_at row)) →
       let info := yf (upper from_currency ++ upper to_currency ++ "=X") in
       (lastPrice info = Some rate ∧ ¬ (rate == 0)%Q
        ∨ (lastPrice info = None
           ∨ ∃ zero, lastPrice info = Some zero ∧ (zero == 0)%Q)
          ∧ previousClose info = Some rate) →
       FxService.fetch_rate yf from_currency to_currency now db
       = (Ok rate,
          set_exchange_rates
            <[(upper from_currency, upper to_currency) :=
                mkExchangeRate rate (datetime_now now)]> db))
  ∧ (∀ ticker price quoted fetched,
       price_cache db !! upper ticker
         = Some (mkPriceCache price quoted (datetime_now fetched)) →
       (now = fetched + timedelta_minutes 15 - one_second →
        PriceService.fetch_price yf ticker now db
        = (Ok (PriceService.mkPriceResult (upper ticker) price quoted true), db))
       ∧ (now = fetched + timedelta_minutes 15 + one_second →
          ∀ fresh quoted',
            lastPrice (yf (upper ticker)) = Some fresh → ¬ (fresh == 0)%Q →
            currency (yf (upper ticker)) = CurrencyText quoted' →
            PriceService.fetch_price yf ticker now db
            = (Ok (PriceService.mkPriceResult (upper ticker) fresh quoted' false),
               set_price_cache
                 <[upper ticker := mkPriceCache fresh quoted' (datetime_now now)]>
                 db)))
  ∧ (∀ from_currency to_currency rate fetched,
       upper from_currency ≠ upper to_currency →
       exchange_rates db !! (upper from_currency, upper to_currency)
         = Some (mkExchangeRate rate (datetime_now fetched)) →
       (now = fetched + timedelta_minutes 60 - one_second →
        FxService.fetch_rate yf from_currency to_currency now db = (Ok rate, db))
       ∧ (now = fetched + timedelta_minutes 60 + one_second →
          ∀ fresh,
            lastPrice (yf (upper from_currency ++ upper to_currency ++ "=X"))
              = Some fresh →
            ¬ (fresh == 0)%Q →
            FxService.fetch_rate yf from_currency to_currency now db
            = (Ok fresh,
               set_exchange_rates
                 <[(upper from_currency, upper to_currency) :=
                     mkExchangeRate fresh (datetime_now now)]> db))).
Proof.
  assert (∀ info price,
            lastPrice info = Some price ∧ ¬ (price == 0)%Q
            ∨ (lastPrice info = None
               ∨ ∃ zero, lastPrice info = Some zero ∧ (zero == 0)%Q)
              ∧ previousClose info = Some price →
            last_or_previous info = Some price) as Hsource.
  { intros info price [[Hlast Hnz]|[Hnone Hprev]].
    - by apply last_or_previous_last.
    - by rewrite last_or_previous_previous. }
  split_and!.
  - intros ticker row Hrow Hage. by apply fetch_price_hit.
  - intros ticker price Hmiss Hsrc currency0. subst currency0.
    by rewrite (fetch_price_miss yf ticker now db price) by auto.
  - intros from_currency to_currency row Hne Hrow Hage. by apply fetch_rate_hit.
  - intros from_currency to_currency rate Hne Hmiss info Hsrc.
    by rewrite (fetch_rate_miss yf _ _ now db rate) by auto.
  - intros ticker price currency0 fetched Hrow.
    pose proof (stored_stamp_bounds fetched) as Hb. split.
    + intros ->.
      apply (fetch_price_hit yf ticker _ db (price_row price currency0 fetched));
        [done|].
      clock.
    + intros -> fresh currency' Hlast Hnz Hcur.
      rewrite (fetch_price_miss yf ticker _ db fresh).
      * unfold currency_or_usd. by rewrite Hcur.
      * right. eexists. split; [done|]. clock.
      * by apply last_or_previous_last.
  - intros from_currency to_currency rate fetched Hne Hrow.
    pose proof (stored_stamp_bounds fetched) as Hb. split.
    + intros ->.
      apply (fetch_rate_hit yf _ _ _ db (rate_row rate fetched)); [done..|].
      clock.
    + intros -> fresh Hlast Hnz. apply fetch_rate_miss; [done| |].
      * right. eexists. split; [done|]. clock.
      * by apply last_or_previous_last.
Qed.

Lemma C8_cache_witness :
  let yf := λ _ : string, mkFastInfo (Some 200%Q) None (CurrencyText "USD") in
  let later := λ _ : string, mkFastInfo (Some 210%Q) None (CurrencyText "USD") in
  let db := mkDB ∅ ∅ [] ∅ ∅ ∅ ∅ in
  let db1 := set_price_cache <["AAPL" := mkPriceCache 200 "USD" 0]> db in
  let db2 := set_price_cache <["AAPL" := mkPriceCache 210 "USD" 901]> db1 in
  PriceService.fetch_price yf "aapl" 0 db
  = (Ok (PriceService.mkPriceResult "AAPL" 200 "USD" false), db1)
  ∧ PriceService.fetch_price later "aapl" (0 + timedelta_minutes 15 - one_second) db1
    = (Ok (PriceService.mkPriceResult "AAPL" 200 "USD" true), db1)
  ∧ PriceService.fetch_price later "aapl" (0 + timedelta_minutes 15 + one_second) db1
    = (Ok (PriceService.mkPriceResult "AAPL" 210 "USD" false), db2).
Proof.
  intros yf later db db1 db2. split; [|split].
  - apply (proj1 (proj2 (C8_cache_lookup_ttl yf db 0)) "aapl" 200%Q).
    + by left.
    + left. by split.
  - apply (proj1 (proj1 (proj2 (proj2 (proj2 (proj2
             (C8_cache_lookup_ttl later db1
                (0 + timedelta_minutes 15 - one_second))))))
             "aapl" 200%Q "USD" 0 eq_refl)).
    reflexivity.
  - apply (proj2 (proj1 (proj2 (proj2 (proj2 (proj2
             (C8_cache_lookup_ttl later db1
                (0 + timedelta_minutes 15 + one_second))))))
             "aapl" 200%Q "USD" 0 eq_refl)); done.
Defined.

(** ** What [list_holdings] returns *)

Lemma holdings_of_elem account_id conn ticker h :
  (ticker, h) ∈ holdings_of account_id conn
  ↔ holdings conn !! (account_id, ticker) = Some h ∧ (0 < h_shares h)%Q.
Proof.
  unfold holdings_of. rewrite list_elem_of_omap. split.
  - intros ([[a t] h'] & Hin & Hf).
    apply elem_of_map_to_list in Hin.
    destruct (bool_decide (a = account_id)) eqn:Ha; simpl in Hf; [|done].
    destruct (Qlt_bool 0 (h_shares h')) eqn:Hpos; [|done].
    apply bool_decide_eq_true in Ha. apply Qlt_bool_true in Hpos.
    by simplify_eq.
  - intros [Hrow Hpos]. exists ((account_id, ticker), h). split.
    + by apply elem_of_map_to_list.
    + rewrite bool_decide_eq_true_2 by done.
      apply Qlt_bool_true in Hpos. by rewrite Hpos.
Qed.

Lemma holdings_of_NoDup account_id conn : NoDup (holdings_of account_id conn).*1.
Proof.
  unfold holdings_of.
  pose proof (NoDup_fst_map_to_list (holdings conn)) as Hnd.
  induction (map_to_list (holdings conn)) as [|[[a t] h] l IH]; simpl;
    [constructor|].
  apply NoDup_cons in Hnd as [Hnotin Hnd]. specialize (IH Hnd).
  destruct (bool_decide (a = account_id) && Qlt_bool 0 (h_shares h)) eqn:Hf;
    [|done].
  simpl. constructor; [|done].
  intros Hin. apply Hnotin.
  apply list_elem_of_fmap in Hin as ([t' h'] & Heq & Hin). simpl in Heq. subst t'.
  apply list_elem_of_omap in Hin as ([[a2 t2] h2] & Hin & Hf2).
  destruct (bool_decide (a2 = account_id)) eqn:Ha2; simpl in Hf2; [|done].
  destruct (Qlt_bool 0 (h_shares h2)); [|done].
  apply bool_decide_eq_true in Ha2.
  apply andb_true_iff in Hf as [Ha _]. apply bool_decide_eq_true in Ha.
  simplify_eq. apply list_elem_of_fmap. by exists ((account_id, t), h').
Qed.

Lemma list_holdings_spec account_id db :
  list_holdings account_id db
  = (Ok (merge_sort ticker_le (holdings_of account_id db)), db).
Proof. done. Qed.

Lemma listed_elem account_id db ticker h :
  (ticker, h) ∈ merge_sort ticker_le (holdings_of account_id db)
  ↔ holdings db !! (account_id, ticker) = Some h ∧ (0 < h_shares h)%Q.
Proof. rewrite merge_sort_Permutation. apply holdings_of_elem. Qed.

Lemma existing_map_lookup account_id db ticker h :
  dict_of_rows (merge_sort ticker_le (holdings_of account_id db)) !! ticker = Some h
  ↔ holdings db !! (account_id, ticker) = Some h ∧ (0 < h_shares h)%Q.
Proof.
  unfold dict_of_rows. rewrite <- elem_of_list_to_map.
  - rewrite elem_of_reverse. apply listed_elem.
  - rewrite fmap_reverse, reverse_Permutation, merge_sort_Permutation.
    apply holdings_of_NoDup.
Qed.

(** ** The upsert loop of [sync_broker_holdings] *)

Lemma sync_items_cons account_id E now item rest st conn st' conn' :
  sync_items account_id E now (item :: rest) st conn = Ok (st', conn') →
  ∃ st1 conn1,
    sync_step account_id E now item st conn st1 conn1
    ∧ sync_items account_id E now rest st1 conn1 = Ok (st', conn').
Proof.
  cbn [sync_items].
  destruct (Qle_bool (item_shares item) 0) eqn:Hs.
  { apply Qle_bool_iff in Hs. intros Hrun. do 2 eexists. split; [|exact Hrun].
    by constructor. }
  apply Qle_bool_false in Hs.
  destruct (E !! upper (item_ticker item)) as [old|] eqn:HE.
  - destruct (negb (Qeq_bool (h_shares old) (item_shares item))
              || Qlt_bool (1 # 100) (Qabs (h_avg_cost old - item_avg_cost item)))
      eqn:Hdiff.
    + unfold tx_bind, Sql.update_holding. cbn [broker_tickers loop_added loop_updated].
      intros Hrun. do 2 eexists. split; [|exact Hrun].
      by eapply step_updated.
    + apply orb_false_iff in Hdiff as [Heq Htol].
      apply negb_false_iff, Qeq_bool_iff in Heq. apply Qlt_bool_false in Htol.
      intros Hrun. do 2 eexists. split; [|exact Hrun].
      by eapply step_unchanged.
  - unfold tx_bind, Sql.insert_holding. cbn [broker_tickers loop_added loop_updated].
    destruct (holdings conn !! (account_id, upper (item_ticker item))) eqn:Hrow;
      [done|].
    destruct (accounts conn !! account_id) eqn:Hacc; [|done].
    intros Hrun. do 2 eexists. split; [|exact Hrun].
    by apply step_added.
Qed.

Lemma sync_step_frame account_id E now item st conn st1 conn1 :
  sync_step account_id E now item st conn st1 conn1 →
  conn1 = set_holdings (λ _, holdings conn1) conn
  ∧ broker_tickers st1 = {[ upper (item_ticker item) ]} ∪ broker_tickers st
  ∧ ∀ key, key ≠ (account_id, upper (item_ticker item)) →
           holdings conn1 !! key = holdings conn !! key.
Proof.
  destruct 1; (split; [by destruct conn|]); (split; [done|]); intros key Hne;
    simpl; try done.
  - by rewrite lookup_alter_ne.
  - by rewrite lookup_insert_ne.
Qed.

(** A round writes only rows with a positive share count. *)
Lemma sync_step_all (P : Holding → Prop) account_id E now item st conn st1 conn1 :
  (∀ h, (0 < h_shares h)%Q → P h) →
  sync_step account_id E now item st conn st1 conn1 →
  holdings_all P conn → holdings_all P conn1.
Proof.
  intros HP Hstep Hall. destruct Hstep; try done; intros key h; simpl.
  - destruct (decide ((account_id, upper (item_ticker item)) = key)) as [<-|Hne].
    + rewrite lookup_alter_eq.
      destruct (holdings conn !! _); simpl; [|done].
      intros [= <-]. by apply HP.
    + rewrite lookup_alter_ne by done. apply Hall.
  - destruct (decide ((account_id, upper (item_ticker item)) = key)) as [<-|Hne].
    + rewrite lookup_insert_eq. intros [= <-]. by apply HP.
    + rewrite lookup_insert_ne by done. apply Hall.
Qed.

(** After its round, the row of an item with positive shares agrees with
    the item, provided the dict of existing rows agrees with the working
    state at that ticker. *)
Lemma sync_step_row account_id E now item st conn st1 conn1 :
  sync_step account_id E now item st conn st1 conn1 →
  (0 < item_shares item)%Q →
  (∀ old, E !! upper (item_ticker item) = Some old →
          holdings conn !! (account_id, upper (item_ticker item)) = Some old
          ∧ (0 < h_shares old)%Q) →
  ∃ h, holdings conn1 !! (account_id, upper (item_ticker item)) = Some h
       ∧ (h_shares h == item_shares item)%Q
       ∧ (Qabs (h_avg_cost h - item_avg_cost item) <= 1 # 100)%Q
       ∧ (0 < h_shares h)%Q.
Proof.
  assert (∀ x : Q, (Qabs (x - x) <= 1 # 100)%Q) as Hself.
  { intros x. apply Qabs_Qle_condition. split; lra. }
  intros Hstep Hpos HE. destruct Hstep as [Hle|old ? Hold|old ? Hold|].
  - lra.
  - destruct (HE old Hold) as [Hrow Hposo]. by exists old.
  - destruct (HE old Hold) as [Hrow _]. eexists. split.
    + simpl. rewrite lookup_alter_eq, Hrow. done.
    + simpl. split; [reflexivity|]. split; [apply Hself|done].
  - eexists. split.
    + simpl. apply lookup_insert_eq.
    + simpl. split; [reflexivity|]. split; [apply Hself|done].
Qed.

Lemma sync_items_frame account_id E now items :
  ∀ st conn st' conn',
    sync_items account_id E now items st conn = Ok (st', conn') →
    conn' = set_holdings (λ _, holdings conn') conn
    ∧ broker_tickers st' = broker_tickers st ∪ list_to_set (snapshot_tickers items)
    ∧ ∀ key, (∀ t, t ∈ snapshot_tickers items → key ≠ (account_id, t)) →
             holdings conn' !! key = holdings conn !! key.
Proof.
  induction items as [|item rest IH]; intros st conn st' conn' Hrun.
  - injection Hrun as <- <-. split; [by destruct conn|]. split; [set_solver|done].
  - apply sync_items_cons in Hrun as (st1 & conn1 & Hstep & Hrun).
    apply sync_step_frame in Hstep as (Hfr1 & Hb1 & Hk1).
    apply IH in Hrun as (Hfr & Hb & Hk).
    split; [|split].
    + rewrite Hfr, Hfr1. done.
    + rewrite Hb, Hb1. unfold snapshot_tickers. simpl. set_solver.
    + intros key Hkey. rewrite Hk, Hk1; [done| |].
      * apply Hkey. unfold snapshot_tickers. simpl. set_solver.
      * intros t Ht. apply Hkey. unfold snapshot_tickers in *. simpl. set_solver.
Qed.

Lemma sync_items_all (P : Holding → Prop) account_id E now items :
  (∀ h, (0 < h_shares h)%Q → P h) →
  ∀ st conn st' conn',
    sync_items account_id E now items st conn = Ok (st', conn') →
    holdings_all P conn → holdings_all P conn'.
Proof.
  intros HP. induction items as [|item rest IH]; intros st conn st' conn' Hrun Hall.
  - by injection Hrun as <- <-.
  - apply sync_items_cons in Hrun as (st1 & conn1 & Hstep & Hrun).
    eapply IH; [done|]. by eapply sync_step_all.
Qed.

(** After the loop, every snapshot item with positive shares has a row
    that agrees with it, when no ticker occurs twice in the snapshot. *)
Lemma sync_items_rows account_id E now items :
  NoDup (snapshot_tickers items) →
  ∀ st conn st' conn',
    sync_items account_id E now items st conn = Ok (st', conn') →
    (∀ t old, t ∈ snapshot_tickers items → E !! t = Some old →
              holdings conn !! (account_id, t) = Some old ∧ (0 < h_shares old)%Q) →
    ∀ item, item ∈ items → (0 < item_shares item)%Q →
      ∃ h, holdings conn' !! (account_id, upper (item_ticker item)) = Some h
           ∧ (h_shares h == item_shares item)%Q
           ∧ (Qabs (h_avg_cost h - item_avg_cost item) <= 1 # 100)%Q
           ∧ (0 < h_shares h)%Q.
Proof.
  induction items as [|item rest IH]; intros Hnd st conn st' conn' Hrun HE it Hin Hpos.
  - by apply elem_of_nil in Hin.
  - assert ((upper (item_ticker item) ∉ snapshot_tickers rest)
            ∧ NoDup (snapshot_tickers rest)) as [Hfresh Hnd'].
    { unfold snapshot_tickers in *. simpl in Hnd. by apply NoDup_cons in Hnd. }
    apply sync_items_cons in Hrun as (st1 & conn1 & Hstep & Hrun).
    pose proof (sync_step_frame _ _ _ _ _ _ _ _ Hstep) as (_ & _ & Hk1).
    apply elem_of_cons in Hin as [->|Hin].
    + eapply sync_step_row in Hstep as (h & Hrow & Hrest); [|done|].
      * exists h. split; [|done].
        apply sync_items_frame in Hrun as (_ & _ & Hk).
        rewrite Hk; [done|]. intros t Ht [= Heq]. by rewrite <- Heq in Ht.
      * intros old Hold. apply HE; [|done].
        unfold snapshot_tickers. simpl. set_solver.
    + eapply (IH Hnd' _ _ _ _ Hrun); [|done..].
      intros t old Ht Hold.
      rewrite Hk1 by (intros [= Heq]; by rewrite Heq in Ht).
      apply HE; [|done]. unfold snapshot_tickers in *. simpl. set_solver.
Qed.

(** A loop over items that all agree with their existing rows changes
    nothing and counts nothing. *)
Lemma sync_items_noop account_id E now items :
  (∀ item, item ∈ items → (0 < item_shares item)%Q →
     ∃ h, E !! upper (item_ticker item) = Some h
          ∧ (h_shares h == item_shares item)%Q
          ∧ (Qabs (h_avg_cost h - item_avg_cost item) <= 1 # 100)%Q) →
  ∀ st conn,
    sync_items account_id E now items st conn
    = Ok (mkSyncLoop (list_to_set (reverse (snapshot_tickers items)) ∪ broker_tickers st)
            (loop_added st) (loop_updated st), conn).
Proof.
  induction items as [|item rest IH]; intros Hagree st conn.
  - simpl. unfold tx_ret. destruct st. simpl. do 3 f_equal. set_solver.
  - cbn [sync_items].
    assert (∀ st1 : SyncLoop,
              broker_tickers st1 = {[ upper (item_ticker item) ]} ∪ broker_tickers st →
              loop_added st1 = loop_added st → loop_updated st1 = loop_updated st →
              sync_items account_id E now rest st1 conn
              = Ok (mkSyncLoop
                      (list_to_set (reverse (snapshot_tickers (item :: rest)))
                       ∪ broker_tickers st) (loop_added st) (loop_updated st), conn))
      as Hrest.
    { intros st1 Hb Ha Hu. rewrite IH by (intros; apply Hagree; set_solver).
      rewrite Hb, Ha, Hu. do 3 f_equal.
      unfold snapshot_tickers. simpl. rewrite reverse_cons.
      rewrite list_to_set_app_L. simpl. set_solver. }
    destruct (Qle_bool (item_shares item) 0) eqn:Hs; [by apply Hrest|].
    apply Qle_bool_false in Hs.
    destruct (Hagree item) as (h & HE & Heq & Htol); [set_solver|done|].
    rewrite HE. apply Qeq_bool_iff in Heq. apply Qlt_bool_false in Htol.
    rewrite Heq, Htol. simpl. by apply Hrest.
Qed.

(** ** The removal loop and the whole of [sync_broker_holdings] *)

Lemma remove_missing_spec account_id tickers existing :
  ∀ n db,
    ∃ n' db',
      remove_missing account_id existing tickers n db = (Ok n', db')
      ∧ db' = set_holdings (λ _, holdings db') db
      ∧ (∀ key, holdings db' !! key = None ∨ holdings db' !! key = holdings db !! key)
      ∧ (∀ t h, (t, h) ∈ existing → t ∉ tickers →
                holdings db' !! (account_id, upper t) = None)
      ∧ (∀ key, (∀ t h, (t, h) ∈ existing → t ∉ tickers →
                        key ≠ (account_id, upper t)) →
                holdings db' !! key = holdings db !! key).
Proof.
  induction existing as [|[t h] rest IH]; intros n db.
  - exists n, db. split; [done|]. split; [by destruct db|]. split; [by right|].
    split; [|done]. intros t h Hin. by apply elem_of_nil in Hin.
  - cbn [remove_missing].
    destruct (bool_decide (t ∉ tickers)) eqn:Hdec.
    + apply bool_decide_eq_true in Hdec.
      unfold svc_bind, remove_holding, get_connection, Sql.delete_holding.
      destruct (IH (n + 1) (set_holdings (delete (account_id, upper t)) db))
        as (n' & db' & Hrun & Hfr & Hrows & Hgone & Hkept).
      exists n', db'. split; [done|]. split; [|split; [|split]].
      * rewrite Hfr. by destruct db.
      * intros key. destruct (Hrows key) as [Hn|He]; [by left|].
        simpl in He. rewrite He.
        destruct (decide ((account_id, upper t) = key)) as [<-|Hne].
        -- left. apply lookup_delete_eq.
        -- right. by rewrite lookup_delete_ne.
      * intros t0 h0 Hin Hnot. apply elem_of_cons in Hin as [[= -> ->]|Hin].
        -- destruct (Hrows (account_id, upper t)) as [Hn|He]; [done|].
           rewrite He. simpl. apply lookup_delete_eq.
        -- by eapply Hgone.
      * intros key Hkey. rewrite Hkept.
        -- simpl. apply lookup_delete_ne. intros Heq. symmetry in Heq.
           revert Heq. eapply Hkey; [left|done].
        -- intros t0 h0 Hin Hnot. eapply Hkey; [by right|done].
    + apply bool_decide_eq_false in Hdec.
      destruct (IH n db) as (n' & db' & Hrun & Hfr & Hrows & Hgone & Hkept).
      exists n', db'. do 3 (split; [done|]). split.
      * intros t0 h0 Hin Hnot.
        apply elem_of_cons in Hin as [[= -> ->]|Hin]; [done|].
        by eapply Hgone.
      * intros key Hkey. apply Hkept.
        intros t0 h0 Hin Hnot. eapply Hkey; [by right|done].
Qed.

Lemma remove_missing_none account_id tickers existing :
  (∀ t h, (t, h) ∈ existing → t ∈ tickers) →
  ∀ n db, remove_missing account_id existing tickers n db = (Ok n, db).
Proof.
  induction existing as [|[t h] rest IH]; intros Hall n db; [done|].
  cbn [remove_missing].
  rewrite bool_decide_eq_false_2 by (intros Hnot; apply Hnot; eapply Hall; left).
  apply IH. intros t0 h0 Hin. eapply Hall. by right.
Qed.

(** The three stages of a returning [sync_broker_holdings]. *)
Lemma sync_broker_holdings_ok account_id items now db counts db' :
  sync_broker_holdings account_id items now db = (Ok counts, db') →
  ∃ st dbL r,
    is_Some (accounts db !! account_id)
    ∧ sync_items account_id
        (dict_of_rows (merge_sort ticker_le (holdings_of account_id db))) now items
        (mkSyncLoop ∅ 0 0) db = Ok (st, dbL)
    ∧ remove_missing account_id (merge_sort ticker_le (holdings_of account_id db))
        (broker_tickers st) 0 dbL = (Ok r, db')
    ∧ counts = mkSyncCounts (loop_added st) (loop_updated st) r.
Proof.
  unfold sync_broker_holdings, svc_bind.
  rewrite get_account_spec.
  destruct (accounts db !! account_id) as [account|]; [|done].
  rewrite list_holdings_spec. unfold get_connection.
  destruct (sync_items _ _ _ _ _ db) as [[st dbL]|]; [|done].
  destruct (remove_missing _ _ _ _ dbL) as [[r|] db1] eqn:Hrm; [|done].
  unfold svc_ret. intros [= <- <-]. by exists st, dbL, r.
Qed.

(** A sync that finds every snapshot item in agreement with the stored
    rows, and every listed row in the snapshot, returns three zeros and
    leaves the database alone. *)
Lemma sync_broker_holdings_noop account_id items now db :
  is_Some (accounts db !! account_id) →
  (∀ item, item ∈ items → (0 < item_shares item)%Q →
     ∃ h, holdings db !! (account_id, upper (item_ticker item)) = Some h
          ∧ (0 < h_shares h)%Q
          ∧ (h_shares h == item_shares item)%Q
          ∧ (Qabs (h_avg_cost h - item_avg_cost item) <= 1 # 100)%Q) →
  (∀ t h, holdings db !! (account_id, t) = Some h → (0 < h_shares h)%Q →
          t ∈ snapshot_tickers items) →
  sync_broker_holdings account_id items now db = (Ok (mkSyncCounts 0 0 0), db).
Proof.
  intros [account Hacc] Hagree Hcover.
  unfold sync_broker_holdings, svc_bind.
  rewrite get_account_spec, Hacc, list_holdings_spec. unfold get_connection.
  rewrite sync_items_noop.
  - simpl. rewrite remove_missing_none; [done|].
    intros t h Hin. apply listed_elem in Hin as [Hrow Hpos].
    apply elem_of_union_l, elem_of_list_to_set, elem_of_reverse.
    by eapply Hcover.
  - intros item Hin Hpos.
    destruct (Hagree item Hin Hpos) as (h & Hrow & Hposh & Heq & Htol).
    exists h. split; [|done]. by apply existing_map_lookup.
Qed.

(** Syncing the same snapshot again, when no ticker occurs twice in it,
    finds nothing left to do. *)
Lemma sync_twice account_id items now now' db counts db1 :
  NoDup (snapshot_tickers items) →
  tickers_upper account_id db →
  sync_broker_holdings account_id items now db = (Ok counts, db1) →
  sync_broker_holdings account_id items now' db1 = (Ok (mkSyncCounts 0 0 0), db1).
Proof.
  intros Hnd Hupper Hrun.
  apply sync_broker_holdings_ok in Hrun as (st & dbL & r & Hacc & Hloop & Hrm & _).
  destruct (remove_missing_spec account_id (broker_tickers st)
              (merge_sort ticker_le (holdings_of account_id db)) 0 dbL)
    as (r' & db1' & Hrm' & Hfr & Hrows & Hgone & Hkept).
  rewrite Hrm in Hrm'. injection Hrm' as <- <-.
  pose proof (sync_items_frame _ _ _ _ _ _ _ _ Hloop) as (HfrL & HB & HkL).
  simpl in HB.
  assert (∀ t, t ∈ broker_tickers st ↔ t ∈ snapshot_tickers items) as HBin.
  { intros t. rewrite HB. set_solver. }
  apply sync_broker_holdings_noop.
  - rewrite Hfr, HfrL. done.
  - intros item Hin Hpos.
    destruct (sync_items_rows _ _ _ _ Hnd _ _ _ _ Hloop) with (item := item)
      as (h & Hrow & Heq & Htol & Hposh); [|done..|].
    { intros t old _ Hold. by apply existing_map_lookup in Hold. }
    exists h. split; [|done].
    rewrite Hkept; [done|].
    intros t h0 Hlisted Hnot [= Heq'].
    apply listed_elem in Hlisted as [Hrow0 _].
    rewrite (Hupper _ _ Hrow0) in Heq'. subst t.
    apply Hnot, HBin, list_elem_of_fmap. by exists item.
  - intros t h Hrow Hpos.
    destruct (decide (t ∈ snapshot_tickers items)) as [|Hnot]; [done|exfalso].
    assert (holdings db !! (account_id, t) = Some h) as Hrow0.
    { destruct (Hrows (account_id, t)) as [Hn|He]; [congruence|].
      rewrite <- HkL, <- He; [done|].
      intros t' Ht' [= ->]. done. }
    assert ((t, h) ∈ merge_sort ticker_le (holdings_of account_id db)) as Hlisted
      by (by apply listed_elem).
    assert (t ∉ broker_tickers st) as HnotB by (by rewrite HBin).
    pose proof (Hgone t h Hlisted HnotB) as Hnone.
    rewrite (Hupper _ _ Hrow0) in Hnone. congruence.
Qed.

(** ** C9: syncing a snapshot twice *)

(** C9 does not hold for a snapshot that names a ticker twice: against a
    holding of 5 AAPL, the snapshot [AAPL 10; AAPL 20] counts two updates
    and leaves 20 shares, and the same snapshot again counts one update
    and leaves 10. *)
Lemma C9_second_sync_updates_again :
  let db := mkDB {[ 1 := mkAccount 1 "US" "USD" true ]}
                 {[ (1, "AAPL") := mkHolding 5 1 0 ]} [] ∅ ∅ ∅ ∅ in
  let snapshot := [mkHoldingItem "AAPL" 10 1; mkHoldingItem "AAPL" 20 1] in
  ∃ db1 db2,
    sync_broker_holdings 1 snapshot 5000000 db = (Ok (mkSyncCounts 0 2 0), db1)
    ∧ (h_shares <$> holdings db1 !! (1, "AAPL")) = Some 20%Q
    ∧ sync_broker_holdings 1 snapshot 9000000 db1 = (Ok (mkSyncCounts 0 1 0), db2)
    ∧ (h_shares <$> holdings db2 !! (1, "AAPL")) = Some 10%Q.
Proof.
  do 2 eexists. split; [vm_compute; reflexivity|].
  split; [vm_compute; reflexivity|].
  split; vm_compute; reflexivity.
Qed.

(** C9 (as the code has it).  For a snapshot in which no ticker occurs
    twice (tickers compared in upper case), on an account whose stored
    tickers are in upper case: when a sync returns, syncing the same
    snapshot again returns added 0, updated 0, removed 0 and changes
    nothing.  And on a database without holdings, the snapshot
    [AAPL, 10 shares at 178.5] returns added 1, updated 0, removed 0, and
    returns three zeros when it is synced again. *)
Theorem C9_sync_of_distinct_tickers_is_idempotent
    (db : DB) (account_id : Z) (now now' : timestamp) :
  (∀ items counts db1,
     NoDup (snapshot_tickers items) →
     tickers_upper account_id db →
     sync_broker_holdings account_id items now db = (Ok counts, db1) →
     sync_broker_holdings account_id items now' db1 = (Ok (mkSyncCounts 0 0 0), db1))
  ∧ (is_Some (accounts db !! account_id) →
     holdings db = ∅ →
     ∃ db1,
       sync_broker_holdings account_id [mkHoldingItem "AAPL" 10 (357 # 2)] now db
       = (Ok (mkSyncCounts 1 0 0), db1)
       ∧ sync_broker_holdings account_id [mkHoldingItem "AAPL" 10 (357 # 2)] now' db1
         = (Ok (mkSyncCounts 0 0 0), db1)).
Proof.
  split.
  - intros items counts db1. apply sync_twice.
  - intros [account Hacc] Hempty.
    assert (holdings_of account_id db = []) as Hnone.
    { unfold holdings_of. by rewrite Hempty, map_to_list_empty. }
    destruct (sync_broker_holdings account_id [mkHoldingItem "AAPL" 10 (357 # 2)]
                now db) as [res db1] eqn:Hrun.
    assert (res = Ok (mkSyncCounts 1 0 0)) as ->.
    { revert Hrun. unfold sync_broker_holdings, svc_bind.
      rewrite get_account_spec, Hacc, list_holdings_spec, Hnone.
      change (merge_sort ticker_le []) with (@nil (string * Holding)).
      change (dict_of_rows []) with (∅ : gmap string Holding).
      unfold get_connection.
      cbn [sync_items item_ticker item_shares item_avg_cost].
      change (upper "AAPL") with "AAPL". change (Qle_bool 10 0) with false.
      cbn iota. rewrite lookup_empty.
      unfold tx_bind, Sql.insert_holding. rewrite Hempty, lookup_empty, Hacc.
      unfold tx_ret, svc_ret. cbn.
      by intros [= <- _]. }
    exists db1. split; [done|].
    eapply sync_twice; [| |done].
    + unfold snapshot_tickers. simpl. apply NoDup_singleton.
    + intros t h. by rewrite Hempty, lookup_empty.
Qed.

Lemma C9_sync_witness :
  let db := mkDB {[ 1 := mkAccount 1 "US" "USD" true ]}
                 {[ (1, "MSFT") := mkHolding 5 300 0 ]} [] ∅ ∅ ∅ ∅ in
  let snapshot := [mkHoldingItem "aapl" 10 (357 # 2); mkHoldingItem "tsla" 3 250] in
  ∃ db1,
    sync_broker_holdings 1 snapshot 5000000 db = (Ok (mkSyncCounts 2 0 1), db1)
    ∧ sync_broker_holdings 1 snapshot 9000000 db1 = (Ok (mkSyncCounts 0 0 0), db1).
Proof.
  intros db snapshot.
  destruct (sync_broker_holdings 1 snapshot 5000000 db) as [[counts|e] db1] eqn:Hrun;
    [|by vm_compute in Hrun].
  exists db1. split.
  - vm_compute in Hrun. by injection Hrun as <- _.
  - apply (proj1 (C9_sync_of_distinct_tickers_is_idempotent db 1 5000000 9000000)
             snapshot counts db1).
    + by apply (bool_decide_unpack _).
    + intros ticker h Hrow. simpl in Hrow.
      by apply lookup_singleton_Some in Hrow as [[= <-] _].
    + done.
Defined.

(** ** C7: share counts do not go negative *)

Lemma add_holding_spec account_id ticker shares avg_cost now db :
  let key := (account_id, upper ticker) in
  let row :=
    match holdings db !! key with
    | Some old =>
        mkHolding (h_shares old + shares)
          (if Qlt_bool 0 (h_shares old + shares)
           then (h_shares old * h_avg_cost old + shares * avg_cost)
                / (h_shares old + shares)
           else 0)%Q
          (datetime_now now)
    | None => mkHolding shares avg_cost (datetime_now now)
    end in
  is_Some (accounts db !! account_id) →
  add_holding account_id ticker shares avg_cost now db
  = (Ok row, set_holdings <[key := row]> db).
Proof.
  intros key row [account Hacc]. subst key row.
  unfold add_holding, get_connection, tx_bind, Sql.select_holding,
    Sql.update_holding, Sql.insert_holding.
  destruct (holdings db !! (account_id, upper ticker)) as [old|] eqn:Hold.
  - simpl. rewrite lookup_alter_eq, Hold. simpl.
    unfold set_holdings. by erewrite alter_const_insert.
  - rewrite Hold, Hacc. simpl. by rewrite lookup_insert_eq.
Qed.

(** Without the account there is no new row: the FOREIGN KEY of the
    INSERT fails and the call commits nothing. *)
Lemma add_holding_without_account account_id ticker shares avg_cost now db :
  accounts db !! account_id = None →
  holdings db !! (account_id, upper ticker) = None →
  add_holding account_id ticker shares avg_cost now db = (Raise IntegrityError, db).
Proof.
  intros Hacc Hrow.
  unfold add_holding, get_connection, tx_bind, Sql.select_holding,
    Sql.insert_holding.
  rewrite Hrow. simpl. by rewrite Hrow, Hacc.
Qed.

(** A returning [add_holding] wrote the row it returns, at the
    upper-cased ticker. *)
Lemma add_holding_inv account_id ticker shares avg_cost now db h db' :
  add_holding account_id ticker shares avg_cost now db = (Ok h, db') →
  db' = set_holdings <[(account_id, upper ticker) := h]> db.
Proof.
  unfold add_holding, get_connection, tx_bind, Sql.select_holding,
    Sql.update_holding, Sql.insert_holding.
  destruct (holdings db !! (account_id, upper ticker)) as [old|] eqn:Hold.
  - simpl. rewrite lookup_alter_eq, Hold. simpl. intros [= <- <-].
    unfold set_holdings. by erewrite alter_const_insert.
  - rewrite Hold. destruct (accounts db !! account_id); [|done].
    simpl. rewrite lookup_insert_eq. by intros [= <- <-].
Qed.

Lemma insert_all (P : Holding → Prop) conn key h :
  P h → holdings_all P conn → holdings_all P (set_holdings <[key := h]> conn).
Proof.
  intros Hh Hall key' h'. simpl.
  destruct (decide (key = key')) as [<-|Hne].
  - rewrite lookup_insert_eq. by intros [= <-].
  - rewrite lookup_insert_ne by done. apply Hall.
Qed.

Lemma delete_all (P : Holding → Prop) conn key :
  holdings_all P conn → holdings_all P (set_holdings (delete key) conn).
Proof.
  intros Hall key' h'. simpl.
  destruct (decide (key = key')) as [<-|Hne].
  - by rewrite lookup_delete_eq.
  - rewrite lookup_delete_ne by done. apply Hall.
Qed.

Lemma buy_inv account_id ticker shares price now conn conn' u :
  update_holding_from_trade account_id ticker "BUY" shares price now conn
    = Ok (u, conn') →
  ∃ h,
    conn' = set_holdings <[(account_id, upper ticker) := h]> conn
    ∧ h_shares h =
        match holdings conn !! (account_id, upper ticker) with
        | Some old => (h_shares old + shares)%Q
        | None => shares
        end.
Proof.
  unfold update_holding_from_trade, tx_bind, Sql.select_holding. simpl.
  destruct (holdings conn !! (account_id, upper ticker)) as [old|] eqn:Hold.
  - unfold py_div, tx_raise, Sql.update_holding.
    destruct (Qeq_bool (h_shares old + shares) 0); [done|].
    intros [= <- <-].
    exists (mkHolding (h_shares old + shares)
              ((h_shares old * h_avg_cost old + shares * price)
               / (h_shares old + shares)) (datetime_now now)).
    split; [|reflexivity].
    unfold set_holdings. by erewrite alter_const_insert.
  - unfold Sql.insert_holding. rewrite Hold.
    destruct (accounts conn !! account_id); [|done]. intros [= <- <-].
    by exists (mkHolding shares price (datetime_now now)).
Qed.

(** A trade of a positive number of shares writes only positive share
    counts, on a table without negative ones. *)
Lemma trade_all (P : Holding → Prop) account_id ticker action shares price now
    conn conn' u :
  (∀ h, P h → (0 <= h_shares h)%Q) →
  (∀ h, (0 < h_shares h)%Q → P h) →
  (0 < shares)%Q →
  action ∈ TRANSACTION_ACTIONS →
  update_holding_from_trade account_id ticker action shares price now conn
    = Ok (u, conn') →
  holdings_all P conn → holdings_all P conn'.
Proof.
  intros Hge Hgt Hpos Hact Hrun Hall.
  apply in_actions in Hact as [-> | ->].
  - apply buy_inv in Hrun as (h & -> & Hsh).
    apply insert_all; [|done]. apply Hgt. rewrite Hsh.
    destruct (holdings conn !! (account_id, upper ticker)) as [old|] eqn:Hold;
      [|done].
    apply Hall, Hge in Hold. lra.
  - apply sell_inv in Hrun as (old & Hold & Hle & ->).
    destruct (Qeq_bool (h_shares old - shares) 0) eqn:Hz.
    + by apply delete_all.
    + apply Qeq_bool_false in Hz. apply insert_all; [|done].
      apply Hgt. simpl. lra.
Qed.

Lemma record_transaction_all (P : Holding → Prop) account_id ticker action shares
    price fee tax executed_at notes now db db' tx :
  (∀ h, P h → (0 <= h_shares h)%Q) →
  (∀ h, (0 < h_shares h)%Q → P h) →
  record_transaction account_id ticker action shares price fee tax executed_at notes
    now db = (Ok tx, db') →
  holdings_all P db → holdings_all P db'.
Proof.
  intros Hge Hgt Hrun Hall.
  apply record_transaction_ok in Hrun
    as (Hact & Hs & _ & account & conn1 & _ & Hupd & _ & ->).
  intros key h. simpl. by eapply (trade_all P).
Qed.

Lemma sync_broker_holdings_all (P : Holding → Prop) account_id items now db db'
    counts :
  (∀ h, (0 < h_shares h)%Q → P h) →
  sync_broker_holdings account_id items now db = (Ok counts, db') →
  holdings_all P db → holdings_all P db'.
Proof.
  intros Hgt Hrun Hall.
  apply sync_broker_holdings_ok in Hrun as (st & dbL & r & _ & Hloop & Hrm & _).
  destruct (remove_missing_spec account_id (broker_tickers st)
              (merge_sort ticker_le (holdings_of account_id db)) 0 dbL)
    as (r' & db1 & Hrm' & _ & Hrows & _).
  rewrite Hrm in Hrm'. injection Hrm' as <- <-.
  pose proof (sync_items_all P _ _ _ _ Hgt _ _ _ _ Hloop Hall) as HallL.
  intros key h Hrow. destruct (Hrows key) as [Hn|He]; [congruence|].
  rewrite He in Hrow. by eapply HallL.
Qed.

(** C7 does not hold for the manual add: on a holding of 10 shares,
    adding -10 shares keeps the row with a share count of zero (and an
    avg_cost of 0), and adding -20 keeps it with a negative count. *)
Lemma C7_add_holding_keeps_zero_row :
  let db := mkDB {[ 1 := mkAccount 1 "US" "USD" true ]}
                 {[ (1, "AAPL") := mkHolding 10 150 0 ]} [] ∅ ∅ ∅ ∅ in
  shares_positive db
  ∧ (∃ h db',
       add_holding 1 "AAPL" (-10) 150 5000000 db = (Ok h, db')
       ∧ holdings db' !! (1, "AAPL") = Some h
       ∧ (h_shares h == 0)%Q)
  ∧ (∃ h db',
       add_holding 1 "AAPL" (-20) 150 5000000 db = (Ok h, db')
       ∧ holdings db' !! (1, "AAPL") = Some h
       ∧ (h_shares h < 0)%Q
       ∧ ¬ shares_nonneg db').
Proof.
  intros db. split; [|split].
  - intros key h Hrow. simpl in Hrow.
    apply lookup_singleton_Some in Hrow as [_ <-]. reflexivity.
  - do 2 eexists. split; [vm_compute; reflexivity|].
    split; [vm_compute; reflexivity|]. reflexivity.
  - do 2 eexists. split; [vm_compute; reflexivity|].
    split; [vm_compute; reflexivity|]. split; [reflexivity|].
    intros Hnn.
    assert (0 <= 10 + -20)%Q as Habs; [|by vm_compute in Habs].
    eapply (Hnn (1, "AAPL") (mkHolding (10 + -20) _ _)).
    vm_compute. reflexivity.
Qed.

(** C7 (as the code has it).  Recording a trade and syncing a snapshot
    keep both "no holding row has a negative share count" and "no holding
    row has a negative or zero share count", and a sell of exactly the
    held shares deletes the row.  The manual add returns on every
    account that exists (for an account that does not, a new row fails
    the FOREIGN KEY and nothing is written); it keeps the first property
    when the shares it is given are not negative and the second when
    they are positive. *)
Theorem C7_share_counts_stay_nonnegative (db : DB) :
  (∀ account_id ticker action shares price fee tax executed_at notes now tx db',
     record_transaction account_id ticker action shares price fee tax executed_at
       notes now db = (Ok tx, db') →
     (shares_nonneg db → shares_nonneg db')
     ∧ (shares_positive db → shares_positive db')
     ∧ (upper action = "SELL" →
        ∀ old, holdings db !! (account_id, upper ticker) = Some old →
               (h_shares old == shares)%Q →
               holdings db' !! (account_id, upper ticker) = None))
  ∧ (∀ account_id items now counts db',
       sync_broker_holdings account_id items now db = (Ok counts, db') →
       (shares_nonneg db → shares_nonneg db')
       ∧ (shares_positive db → shares_positive db'))
  ∧ (∀ account_id ticker shares avg_cost now,
       is_Some (accounts db !! account_id) →
       ∃ h db',
         add_holding account_id ticker shares avg_cost now db = (Ok h, db')
         ∧ ((0 <= shares)%Q → shares_nonneg db → shares_nonneg db')
         ∧ ((0 < shares)%Q → shares_positive db → shares_positive db'))
  ∧ (∀ account_id ticker shares avg_cost now,
       accounts db !! account_id = None →
       holdings db !! (account_id, upper ticker) = None →
       add_holding account_id ticker shares avg_cost now db
       = (Raise IntegrityError, db)).
Proof.
  split; [|split; [|split]];
    [| | |intros; by apply add_holding_without_account].
  - intros account_id ticker action shares price fee tax executed_at notes now tx db'
      Hrun.
    split; [|split].
    + apply (record_transaction_all _ _ _ _ _ _ _ _ _ _ _ _ _ _) with (3 := Hrun);
        simpl; intros h; [done|apply Qlt_le_weak].
    + apply (record_transaction_all _ _ _ _ _ _ _ _ _ _ _ _ _ _) with (3 := Hrun);
        simpl; intros h; [apply Qlt_le_weak|done].
    + intros Hact old Hold Heq.
      apply record_transaction_ok in Hrun
        as (_ & _ & _ & account & conn1 & _ & Hupd & _ & ->).
      rewrite Hact in Hupd. apply sell_inv in Hupd as (old' & Hold' & _ & ->).
      rewrite upper_idemp in Hold'. rewrite Hold in Hold'. injection Hold' as <-.
      assert (Qeq_bool (h_shares old - shares) 0 = true) as ->
        by (apply Qeq_bool_iff; lra).
      simpl. rewrite upper_idemp. apply lookup_delete_eq.
  - intros account_id items now counts db' Hrun. split.
    + apply (sync_broker_holdings_all _ _ _ _ _ _ _) with (2 := Hrun).
      intros h. apply Qlt_le_weak.
    + by apply (sync_broker_holdings_all _ _ _ _ _ _ _) with (2 := Hrun).
  - intros account_id ticker shares avg_cost now Hacc.
    do 2 eexists. split; [by apply add_holding_spec|]. split.
    + intros Hs Hall. apply insert_all; [|done].
      destruct (holdings db !! (account_id, upper ticker)) as [old|] eqn:Hold;
        simpl; [|done].
      apply Hall in Hold. simpl in Hold. lra.
    + intros Hs Hall. apply insert_all; [|done].
      destruct (holdings db !! (account_id, upper ticker)) as [old|] eqn:Hold;
        simpl; [|done].
      apply Hall in Hold. simpl in Hold. lra.
Qed.

Lemma C7_share_counts_witness :
  let db := mkDB {[ 1 := mkAccount 1 "US" "USD" true ]}
                 {[ (1, "AAPL") := mkHolding 10 150 0 ]} [] ∅ ∅ ∅ ∅ in
  (∃ tx db',
     record_transaction 1 "aapl" "sell" 10 160 1 0 None None 5000000 db = (Ok tx, db')
     ∧ (shares_nonneg db → shares_nonneg db')
     ∧ (shares_positive db → shares_positive db')
     ∧ (upper "sell" = "SELL" →
        ∀ old, holdings db !! (1, upper "aapl") = Some old →
               (h_shares old == 10)%Q →
               holdings db' !! (1, upper "aapl") = None))
  ∧ (∃ h db',
       add_holding 1 "msft" 5 300 5000000 db = (Ok h, db')
       ∧ ((0 <= 5)%Q → shares_nonneg db → shares_nonneg db')
       ∧ ((0 < 5)%Q → shares_positive db → shares_positive db'))
  ∧ add_holding 2 "msft" 5 300 5000000 db = (Raise IntegrityError, db).
Proof.
  intros db. split; [|split].
  - destruct (record_transaction 1 "aapl" "sell" 10 160 1 0 None None 5000000 db)
      as [[tx|e] db'] eqn:Hrun; [|by vm_compute in Hrun].
    exists tx, db'. split; [done|].
    exact (proj1 (C7_share_counts_stay_nonnegative db) 1 "aapl" "sell" 10%Q 160%Q
             1%Q 0%Q None None 5000000 tx db' Hrun).
  - apply (proj1 (proj2 (proj2 (C7_share_counts_stay_nonnegative db)))
             1 "msft" 5%Q 300%Q 5000000).
    by eexists.
  - by apply (proj2 (proj2 (proj2 (C7_share_counts_stay_nonnegative db)))
                2 "msft" 5%Q 300%Q 5000000).
Defined.

(** ** Stored tickers stay in upper case *)

(** The assumption of C9 on the stored tickers is an invariant: the
    manual add, the trades and the sync only ever write rows whose ticker
    is upper-cased. *)

Lemma insert_upper account_id ticker h conn :
  (∀ a, tickers_upper a conn) →
  ∀ a, tickers_upper a (set_holdings <[(account_id, upper ticker) := h]> conn).
Proof.
  intros Hall a t h'. simpl.
  destruct (decide ((account_id, upper ticker) = (a, t))) as [[= <- <-]|Hne].
  - intros _. apply upper_idemp.
  - rewrite lookup_insert_ne by done. apply Hall.
Qed.

Lemma sync_step_upper account_id E now item st conn st1 conn1 :
  sync_step account_id E now item st conn st1 conn1 →
  (∀ a, tickers_upper a conn) → ∀ a, tickers_upper a conn1.
Proof.
  intros Hstep Hall. destruct Hstep; try done.
  - intros a t h. simpl.
    destruct (decide ((account_id, upper (item_ticker item)) = (a, t)))
      as [[= <- <-]|Hne].
    + intros _. apply upper_idemp.
    + rewrite lookup_alter_ne by done. apply Hall.
  - by apply insert_upper.
Qed.

Lemma writers_keep_tickers_upper (db : DB) :
  (∀ a, tickers_upper a db) →
  (∀ account_id ticker shares avg_cost now h db',
     add_holding account_id ticker shares avg_cost now db = (Ok h, db') →
     ∀ a, tickers_upper a db')
  ∧ (∀ account_id ticker action shares price fee tax executed_at notes now tx db',
       record_transaction account_id ticker action shares price fee tax executed_at
         notes now db = (Ok tx, db') →
       ∀ a, tickers_upper a db')
  ∧ (∀ account_id items now counts db',
       sync_broker_holdings account_id items now db = (Ok counts, db') →
       ∀ a, tickers_upper a db').
Proof.
  intros Hall. split; [|split].
  - intros account_id ticker shares avg_cost now h db' Hrun.
    apply add_holding_inv in Hrun as ->. by apply insert_upper.
  - intros account_id ticker action shares price fee tax executed_at notes now tx db'
      Hrun.
    apply record_transaction_ok in Hrun
      as (Hact & _ & _ & account & conn1 & _ & Hupd & _ & ->).
    assert (∀ a, tickers_upper a conn1) as Hall1.
    { apply in_actions in Hact as [Hb|Hs].
      - rewrite Hb in Hupd. apply buy_inv in Hupd as (h & -> & _).
        by apply insert_upper.
      - rewrite Hs in Hupd. apply sell_inv in Hupd as (old & _ & _ & ->).
        destruct (Qeq_bool (h_shares old - shares) 0).
        + intros a t h. simpl.
          destruct (decide ((account_id, upper (upper ticker)) = (a, t)))
            as [<-|Hne].
          * by rewrite lookup_delete_eq.
          * rewrite lookup_delete_ne by done. apply Hall.
        + by apply insert_upper. }
    intros a t h. simpl. apply Hall1.
  - intros account_id items now counts db' Hrun.
    apply sync_broker_holdings_ok in Hrun as (st & dbL & r & _ & Hloop & Hrm & _).
    destruct (remove_missing_spec account_id (broker_tickers st)
                (merge_sort ticker_le (holdings_of account_id db)) 0 dbL)
      as (r' & db1 & Hrm' & _ & Hrows & _).
    rewrite Hrm in Hrm'. injection Hrm' as <- <-.
    assert (∀ a, tickers_upper a dbL) as HallL.
    { clear Hrm Hrows. revert Hloop Hall.
      generalize (mkSyncLoop ∅ 0 0). generalize db at 2 3.
      generalize (dict_of_rows (merge_sort ticker_le (holdings_of account_id db))).
      induction items as [|item rest IH]; intros E conn st0 Hloop Hall.
      - by injection Hloop as _ <-.
      - apply sync_items_cons in Hloop as (st1 & conn1 & Hstep & Hloop).
        eapply IH; [done|]. by eapply sync_step_upper. }
    intros a t h Hrow. destruct (Hrows (a, t)) as [Hn|He]; [congruence|].
    rewrite He in Hrow. by eapply HallL.
Qed.

(** * Further properties of the services *)

(** ** Trades: all or nothing, and what a trade leaves alone *)

(** X1.  [record_transaction] is all or nothing.  When it raises, the
    database is the one it started from.  When it returns, the log has
    grown by exactly the returned row, the holdings differ at most at
    (account, ticker), the cash positions at most at (account, settlement
    currency), and accounts, planned orders and both caches are as
    before. *)
Theorem X1_record_transaction_all_or_nothing
    (db db' : DB) (account_id : Z) (ticker action : string)
    (shares price fee tax : Q) (executed_at : option Z) (notes : option string)
    (now : timestamp) (res : result Transaction) :
  record_transaction account_id ticker action shares price fee tax executed_at notes
    now db = (res, db') →
  match res with
  | Raise _ => db' = db
  | Ok tx =>
      transactions db' = (transactions db ++ [tx])%list
      ∧ accounts db' = accounts db
      ∧ planned_orders db' = planned_orders db
      ∧ exchange_rates db' = exchange_rates db
      ∧ price_cache db' = price_cache db
      ∧ (∀ key, key ≠ (account_id, upper ticker) →
                holdings db' !! key = holdings db !! key)
      ∧ ∃ account,
          accounts db !! account_id = Some account
          ∧ ∀ key, key ≠ (account_id, upper (acc_currency account)) →
                   cash_positions db' !! key = cash_positions db !! key
  end.
Proof.
  destruct res as [tx|e]; [|apply record_transaction_raise].
  intros Hrun.
  apply record_transaction_ok in Hrun
    as (Hact & _ & _ & account & conn1 & Hacc & Hupd & -> & ->).
  pose proof (update_holding_from_trade_frame _ _ _ _ _ _ _ _ _ Hupd) as Hfr.
  assert (∀ key, key ≠ (account_id, upper ticker) →
                 holdings conn1 !! key = holdings db !! key) as Hkeys.
  { intros key Hne. apply in_actions in Hact as [Hb|Hs].
    - rewrite Hb in Hupd. apply buy_inv in Hupd as (h & -> & _).
      simpl. rewrite upper_idemp. by rewrite lookup_insert_ne.
    - rewrite Hs in Hupd. apply sell_inv in Hupd as (old & _ & _ & ->).
      rewrite upper_idemp.
      destruct (Qeq_bool (h_shares old - shares) 0); simpl.
      + by rewrite lookup_delete_ne.
      + by rewrite lookup_insert_ne. }
  simpl. rewrite Hfr. simpl. do 5 (split; [done|]). split; [done|].
  exists account. split; [done|]. intros key Hne. by rewrite lookup_insert_ne.
Qed.

Lemma X1_all_or_nothing_witness :
  let db := mkDB {[ 1 := mkAccount 1 "US" "USD" true ]}
                 {[ (1, "AAPL") := mkHolding 10 150 0 ]} [] ∅ ∅ ∅ ∅ in
  ∃ db', record_transaction 1 "aapl" "sell" 20 160 1 0 None None 7000000 db
         = (Raise (ValueError (Cannot_sell 20 "AAPL" 10)), db')
         ∧ db' = db.
Proof.
  intros db.
  destruct (record_transaction 1 "aapl" "sell" 20 160 1 0 None None 7000000 db)
    as [res db'] eqn:Hrun.
  exists db'.
  pose proof (X1_record_transaction_all_or_nothing db db' 1 "aapl" "sell" 20 160 1 0
                None None 7000000 res Hrun) as Hall.
  assert (res = Raise (ValueError (Cannot_sell 20 "AAPL" 10))) as ->
    by (vm_compute in Hrun; by injection Hrun as <- _).
  by split.
Defined.

(** X2.  Buying shares of a ticker the account does not hold and selling
    the same number of shares again leaves the holdings exactly as they
    were: the row the buy created is deleted by the sell.  Both trades are
    logged, and the settlement cash ends at the old balance (zero for a
    fresh position) minus the cost of the buy plus the proceeds of the
    sell. *)
Theorem X2_buy_then_sell_all_restores_holdings
    (db : DB) (account_id : Z) (ticker : string) (shares price1 fee1 tax1 : Q)
    (price2 fee2 tax2 : Q) (now1 now2 : timestamp) (account : Account) :
  accounts db !! account_id = Some account →
  holdings db !! (account_id, upper ticker) = None →
  (0 < shares)%Q → (0 < price1)%Q → (0 < price2)%Q →
  ∃ tx1 db1 tx2 db2,
    record_transaction account_id ticker "BUY" shares price1 fee1 tax1 None None
      now1 db = (Ok tx1, db1)
    ∧ record_transaction account_id ticker "SELL" shares price2 fee2 tax2 None None
        now2 db1 = (Ok tx2, db2)
    ∧ holdings db2 = holdings db
    ∧ transactions db2 = (transactions db ++ [tx1; tx2])%list
    ∧ ∃ balance,
        (c_balance <$> cash_positions db2 !! (account_id, upper (acc_currency account)))
        = Some balance
        ∧ (balance ==
             match cash_positions db !! (account_id, upper (acc_currency account)) with
             | Some before => c_balance before
             | None => 0
             end
             - (shares * price1 + fee1 + tax1) + (shares * price2 - fee2 - tax2))%Q.
Proof.
  intros Hacc Hnone Hs Hp1 Hp2.
  assert (upper "BUY" = "BUY") as Hbuy by reflexivity.
  assert (upper "SELL" = "SELL") as Hsell by reflexivity.
  eassert (record_transaction account_id ticker "BUY" shares price1 fee1 tax1 None
             None now1 db = (Ok _, _)) as Hrun1.
  { rewrite (record_transaction_valid _ _ _ _ _ _ _ _ _ _ _ account);
      [|rewrite Hbuy; apply BUY_in_actions|done..].
    rewrite Hbuy. unfold get_connection, trade_body, tx_bind.
    rewrite buy_without_holding; [|by eexists|by rewrite upper_idemp].
    rewrite adjust_cash_spec. unfold Sql.insert_transaction.
    rewrite upper_idemp. reflexivity. }
  match type of Hrun1 with
  | _ = (Ok ?tx1, ?db1) =>
      eassert (record_transaction account_id ticker "SELL" shares price2 fee2 tax2
                 None None now2 db1 = (Ok _, _)) as Hrun2
  end.
  { rewrite (record_transaction_valid _ _ _ _ _ _ _ _ _ _ _ account);
      [|rewrite Hsell; apply SELL_in_actions|done..].
    rewrite Hsell. unfold get_connection, trade_body, tx_bind.
    unfold update_holding_from_trade, tx_bind, Sql.select_holding.
    rewrite upper_idemp. simpl. rewrite lookup_insert_eq. simpl.
    assert (Qlt_bool shares shares = false) as -> by (apply Qlt_bool_false; lra).
    assert (Qeq_bool (shares - shares) 0 = true) as -> by (apply Qeq_bool_iff; ring).
    unfold Sql.delete_holding. rewrite adjust_cash_spec.
    unfold Sql.insert_transaction. reflexivity. }
  do 4 eexists. split; [exact Hrun1|]. split; [exact Hrun2|]. simpl.
  split; [by rewrite delete_insert_eq, delete_id|].
  split; [by rewrite <- app_assoc|].
  rewrite !lookup_insert_eq. simpl. eexists. split; [reflexivity|].
  unfold cash_change. simpl.
  destruct (cash_positions db !! (account_id, upper (acc_currency account)));
    simpl; ring.
Qed.

Lemma X2_buy_then_sell_witness :
  let db := mkDB {[ 1 := mkAccount 1 "US" "USD" true ]} ∅ []
                 {[ (1, "USD") := mkCashPosition 1000 0 ]} ∅ ∅ ∅ in
  ∃ tx1 db1 tx2 db2,
    record_transaction 1 "aapl" "BUY" 10 50 1 0 None None 0 db = (Ok tx1, db1)
    ∧ record_transaction 1 "aapl" "SELL" 10 60 1 2 None None 1000000 db1
      = (Ok tx2, db2)
    ∧ holdings db2 = holdings db
    ∧ transactions db2 = (transactions db ++ [tx1; tx2])%list
    ∧ ∃ balance,
        (c_balance <$> cash_positions db2 !! (1, upper "USD")) = Some balance
        ∧ (balance ==
             match cash_positions db !! (1%Z, upper "USD") with
             | Some before => c_balance before
             | None => 0
             end
             - (10 * 50 + 1 + 0) + (10 * 60 - 1 - 2))%Q.
Proof.
  intros db.
  apply (X2_buy_then_sell_all_restores_holdings db 1 "aapl" 10 50 1 0 60 1 2 0 1000000
           (mkAccount 1 "US" "USD" true)); reflexivity.
Defined.

(** ** Planned orders: failing executes, cancelling, updating *)

(** X3.  An [execute_order] that raises, for whatever reason (unknown
    order, order not pending, a trade that is refused), leaves the
    database as it found it: no trade is logged, no cash or holding
    moves, and the order keeps its status. *)
Theorem X3_failed_execute_changes_nothing
    (db db' : DB) (order_id : Z) (actual_price fee tax : Q) (now : timestamp)
    (e : exn) :
  execute_order order_id actual_price fee tax now db = (Raise e, db') →
  db' = db.
Proof.
  unfold execute_order, svc_bind. rewrite execute_order_load_spec.
  destruct (planned_orders db !! order_id) as [order|] eqn:Hrow; [|congruence].
  destruct (decide (o_status order ≠ "PENDING")); [congruence|].
  unfold execute_order_record.
  destruct (record_transaction _ _ _ _ _ _ _ _ _ _ db) as [[tx|e1] db1] eqn:Hrec.
  - apply record_transaction_log in Hrec as (Hpo & Hlog & _).
    rewrite (execute_order_mark_spec _ _ _ _ order)
      by (rewrite ?Hpo, ?Hlog; set_solver).
    done.
  - apply record_transaction_raise in Hrec. congruence.
Qed.

Lemma X3_failed_execute_witness :
  let db := mkDB {[ 1 := mkAccount 1 "US" "USD" true ]} ∅ [] ∅
                 {[ 7 := mkPlannedOrder 1 "AAPL" "SELL" 10 None None "NORMAL"
                           "PENDING" 0 None None ]} ∅ ∅ in
  ∃ db', execute_order 7 160 1 0 5000000 db
         = (Raise (ValueError (Cannot_sell 10 "AAPL" 0)), db')
         ∧ db' = db.
Proof.
  intros db.
  destruct (execute_order 7 160 1 0 5000000 db) as [res db'] eqn:Hrun.
  assert (res = Raise (ValueError (Cannot_sell 10 "AAPL" 0))) as ->
    by (vm_compute in Hrun; by injection Hrun as <- _).
  exists db'. split; [done|].
  exact (X3_failed_execute_changes_nothing db db' 7 160 1 0 5000000 _ Hrun).
Defined.

(** X4.  [cancel_order] on a pending order returns the order with status
    CANCELLED and every other column as it was, and changes nothing else
    in the database: no trade is recorded.  On an id without a row it
    raises "Order ID ... not found" and changes nothing. *)
Theorem X4_cancel_pending_order (db : DB) (order_id : Z) :
  (∀ order,
     planned_orders db !! order_id = Some order →
     o_status order = "PENDING" →
     let order' :=
       mkPlannedOrder (o_account_id order) (o_ticker order) (o_action order)
         (o_shares order) (o_target_price order) (o_reason order)
         (o_priority order) "CANCELLED" (o_created_at order)
         (o_executed_at order) (o_linked_transaction_id order) in
     cancel_order order_id db
     = (Ok order', set_planned_orders <[order_id := order']> db))
  ∧ (planned_orders db !! order_id = None →
     cancel_order order_id db = (Raise (ValueError (Order_not_found order_id)), db)).
Proof.
  split.
  - intros order Hrow Hst order'. subst order'.
    unfold cancel_order, get_connection, tx_bind, Sql.select_order,
      Sql.update_order_cancelled.
    rewrite Hrow. rewrite decide_False by (by rewrite Hst; intros []).
    simpl. rewrite lookup_alter_eq, Hrow. simpl.
    unfold set_planned_orders. do 3 f_equal.
    apply map_eq. intros j. destruct (decide (order_id = j)) as [<-|Hne].
    + by rewrite lookup_alter_eq, lookup_insert_eq, Hrow.
    + by rewrite lookup_alter_ne, lookup_insert_ne.
  - intros Hnone.
    unfold cancel_order, get_connection, tx_bind, Sql.select_order.
    by rewrite Hnone.
Qed.

Lemma X4_cancel_witness :
  let order := mkPlannedOrder 1 "AAPL" "BUY" 10 (Some 150%Q) None "HIGH"
                 "PENDING" 86400 None None in
  let order' := mkPlannedOrder 1 "AAPL" "BUY" 10 (Some 150%Q) None "HIGH"
                  "CANCELLED" 86400 None None in
  let db := mkDB {[ 1 := mkAccount 1 "US" "USD" true ]} ∅ [] ∅ {[ 7 := order ]} ∅ ∅ in
  cancel_order 7 db = (Ok order', set_planned_orders <[7 := order']> db).
Proof.
  intros order order' db.
  apply (proj1 (X4_cancel_pending_order db 7) order); reflexivity.
Defined.

(** X5.  [update_order] on a pending order writes each of ticker,
    action, shares, target_price, reason and priority that is given, as
    it is given, and keeps every column that is not given, with the
    account, the status, the creation and execution stamps and the link;
    nothing else in the database changes.  Neither the action nor the
    priority is upper-cased or checked against the allowed values.  An
    order whose action was updated to something other than BUY or SELL
    (in any letter case) can no longer be executed: [execute_order]
    raises "Invalid action" and the order stays pending. *)
Theorem X5_update_order_does_not_validate
    (db : DB) (order_id : Z) (updates : OrderUpdates) (order : PlannedOrder) :
  planned_orders db !! order_id = Some order →
  o_status order = "PENDING" →
  no_updates updates = false →
  let order' :=
    mkPlannedOrder (o_account_id order)
      (match upd_ticker updates with Some t => t | None => o_ticker order end)
      (match upd_action updates with Some a => a | None => o_action order end)
      (match upd_shares updates with Some n => n | None => o_shares order end)
      (match upd_target_price updates with
       | Some p => Some p
       | None => o_target_price order
       end)
      (match upd_reason updates with Some r => Some r | None => o_reason order end)
      (match upd_priority updates with Some p => p | None => o_priority order end)
      "PENDING" (o_created_at order) (o_executed_at order)
      (o_linked_transaction_id order) in
  let db' := set_planned_orders <[order_id := order']> db in
  update_order order_id updates db = (Ok order', db')
  ∧ (∀ a, upd_action updates = Some a → upper a ∉ TRANSACTION_ACTIONS →
          ∀ actual_price fee tax now,
            execute_order order_id actual_price fee tax now db'
            = (Raise (ValueError (Invalid_action (upper a))), db')).
Proof.
  intros Hrow Hst Hupd order' db'.
  assert (apply_updates updates order = order') as Happly.
  { subst order'. unfold apply_updates. rewrite Hst. unfold default. done. }
  split.
  - unfold update_order. rewrite Hupd.
    unfold get_connection, tx_bind, Sql.select_order.
    rewrite Hrow. rewrite decide_False by (by rewrite Hst; intros []).
    simpl. rewrite lookup_alter_eq, Hrow. simpl. rewrite Happly.
    subst db'. unfold set_planned_orders. do 3 f_equal.
    apply map_eq. intros j. destruct (decide (order_id = j)) as [<-|Hne].
    + by rewrite lookup_alter_eq, lookup_insert_eq, Hrow, <- Happly.
    + by rewrite lookup_alter_ne, lookup_insert_ne.
  - intros a Ha Hbad actual_price fee tax now.
    unfold execute_order, svc_bind. rewrite execute_order_load_spec.
    subst db'. cbn [planned_orders set_planned_orders].
    rewrite lookup_insert_eq.
    rewrite decide_False by (by subst order'; simpl; intros []).
    unfold execute_order_record, record_transaction.
    subst order'. cbn [o_action]. rewrite Ha.
    by rewrite bool_decide_eq_false_2.
Qed.

Lemma X5_update_order_witness :
  let order := mkPlannedOrder 1 "AAPL" "BUY" 10 None None "NORMAL"
                 "PENDING" 86400 None None in
  let order' := mkPlannedOrder 1 "AAPL" "hold" 25 None None "NORMAL"
                  "PENDING" 86400 None None in
  let db := mkDB {[ 1 := mkAccount 1 "US" "USD" true ]} ∅ [] ∅ {[ 7 := order ]} ∅ ∅ in
  let db' := set_planned_orders <[7 := order']> db in
  let updates := mkOrderUpdates None (Some "hold") (Some 25%Q) None None None in
  update_order 7 updates db = (Ok order', db')
  ∧ execute_order 7 160 0 0 5000000 db'
    = (Raise (ValueError (Invalid_action "HOLD")), db').
Proof.
  intros order order' db db' updates.
  destruct (X5_update_order_does_not_validate db 7 updates order)
    as (Hrun & Hexec); try reflexivity.
  split; [exact Hrun|].
  apply (Hexec "hold" eq_refl).
  unfold TRANSACTION_ACTIONS. vm_compute. set_solver.
Defined.

(** ** Holdings: manual add, lookup, removal, listing *)

(** X6.  On an existing account, [add_holding] always returns, and a
    following [get_holding] of the same ticker in any letter case returns
    the row it wrote.  Without a previous row that row has the shares and
    the avg_cost given.  With a previous row the shares are added up; the
    avg_cost is the weighted mean of the two lots when the new total is
    positive, and 0 when it is not.  No other holding changes. *)
Theorem X6_add_holding_then_get
    (db : DB) (account_id : Z) (ticker ticker' : string) (shares avg_cost : Q)
    (now : timestamp) :
  is_Some (accounts db !! account_id) →
  upper ticker' = upper ticker →
  ∃ h db',
    add_holding account_id ticker shares avg_cost now db = (Ok h, db')
    ∧ get_holding account_id ticker' db' = (Ok (Some h), db')
    ∧ (holdings db !! (account_id, upper ticker) = None →
       h_shares h = shares ∧ h_avg_cost h = avg_cost)
    ∧ (∀ old,
         holdings db !! (account_id, upper ticker) = Some old →
         h_shares h = (h_shares old + shares)%Q
         ∧ ((0 < h_shares old + shares)%Q →
            h_avg_cost h =
              ((h_shares old * h_avg_cost old + shares * avg_cost)
               / (h_shares old + shares))%Q)
         ∧ ((h_shares old + shares <= 0)%Q → h_avg_cost h = 0%Q))
    ∧ ∀ key, key ≠ (account_id, upper ticker) →
             holdings db' !! key = holdings db !! key.
Proof.
  intros Hacc Hcase. do 2 eexists. split; [by apply add_holding_spec|].
  split; [|split; [|split]].
  - unfold get_holding, get_connection, Sql.select_holding. simpl.
    by rewrite Hcase, lookup_insert_eq.
  - by intros ->.
  - intros old ->. simpl. split; [done|]. split.
    + intros Hpos. apply Qlt_bool_true in Hpos. by rewrite Hpos.
    + intros Hle. apply Qlt_bool_false in Hle. by rewrite Hle.
  - intros key Hne. simpl. by rewrite lookup_insert_ne.
Qed.

Lemma X6_add_holding_witness :
  let db := mkDB {[ 1 := mkAccount 1 "TW" "TWD" true ]}
                 {[ (1, "2330.TW") := mkHolding 1000 500 0 ]} [] ∅ ∅ ∅ ∅ in
  ∃ h db',
    add_holding 1 "2330.tw" 1000 600 5000000 db = (Ok h, db')
    ∧ get_holding 1 "2330.TW" db' = (Ok (Some h), db')
    ∧ h_shares h = (1000 + 1000)%Q
    ∧ h_avg_cost h = ((1000 * 500 + 1000 * 600) / (1000 + 1000))%Q.
Proof.
  intros db.
  destruct (X6_add_holding_then_get db 1 "2330.tw" "2330.TW" 1000 600 5000000)
    as (h & db' & Hadd & Hget & _ & Hold & _); [by eexists|reflexivity|].
  exists h, db'. split; [done|]. split; [done|].
  destruct (Hold (mkHolding 1000 500 0) eq_refl) as (Hs & Hc & _).
  split; [done|]. by apply Hc.
Defined.

(** X7.  [remove_holding] never raises, whether or not the holding
    exists.  Afterwards [get_holding] of that ticker, in any letter case,
    returns None; every other holding is as before; and removing again
    changes nothing. *)
Theorem X7_remove_holding_then_get
    (db : DB) (account_id : Z) (ticker ticker' : string) :
  upper ticker' = upper ticker →
  ∃ db',
    remove_holding account_id ticker db = (Ok tt, db')
    ∧ get_holding account_id ticker' db' = (Ok None, db')
    ∧ (∀ key, key ≠ (account_id, upper ticker) →
              holdings db' !! key = holdings db !! key)
    ∧ remove_holding account_id ticker' db' = (Ok tt, db').
Proof.
  intros Hcase. eexists. split; [reflexivity|]. split; [|split].
  - unfold get_holding, get_connection, Sql.select_holding. simpl.
    by rewrite Hcase, lookup_delete_eq.
  - intros key Hne. simpl. by rewrite lookup_delete_ne.
  - unfold remove_holding, get_connection, Sql.delete_holding, set_holdings.
    simpl. rewrite Hcase.
    by rewrite (delete_id (delete _ _)) by apply lookup_delete_eq.
Qed.

Lemma X7_remove_holding_witness :
  let db := mkDB {[ 1 := mkAccount 1 "US" "USD" true ]}
                 {[ (1, "AAPL") := mkHolding 10 150 0 ]} [] ∅ ∅ ∅ ∅ in
  ∃ db',
    remove_holding 1 "aapl" db = (Ok tt, db')
    ∧ get_holding 1 "AAPL" db' = (Ok None, db')
    ∧ (∀ key, key ≠ (1, upper "aapl") → holdings db' !! key = holdings db !! key)
    ∧ remove_holding 1 "AAPL" db' = (Ok tt, db').
Proof.
  intros db. apply (X7_remove_holding_then_get db 1 "aapl" "AAPL"). reflexivity.
Defined.

#[local] Instance ticker_le_total : Total ticker_le.
Proof. intros x y. apply String.leb_total. Qed.

(** X8.  [list_holdings] reads only.  It returns exactly the holdings of
    the account whose share count is positive (a row left at zero or
    below by a manual add is stored but not listed), each ticker once, in
    ascending byte order of the tickers. *)
Theorem X8_list_holdings_lists_positive_rows (db : DB) (account_id : Z) :
  ∃ rows,
    list_holdings account_id db = (Ok rows, db)
    ∧ (∀ ticker h,
         (ticker, h) ∈ rows
         ↔ holdings db !! (account_id, ticker) = Some h ∧ (0 < h_shares h)%Q)
    ∧ NoDup rows.*1
    ∧ Sorted ticker_le rows.
Proof.
  eexists. split; [apply list_holdings_spec|]. split; [|split].
  - intros ticker h. apply listed_elem.
  - rewrite merge_sort_Permutation. apply holdings_of_NoDup.
  - apply (Sorted_merge_sort _).
Qed.

(** A row that [add_holding] left at zero shares is found by
    [get_holding] and not listed by [list_holdings]. *)
Example zero_share_row_is_stored_but_not_listed :
  let db := mkDB {[ 1 := mkAccount 1 "US" "USD" true ]}
                 {[ (1, "AAPL") := mkHolding 10 150 0 ]} [] ∅ ∅ ∅ ∅ in
  ∃ h db',
    add_holding 1 "AAPL" (-10) 150 0 db = (Ok h, db')
    ∧ get_holding 1 "AAPL" db' = (Ok (Some h), db')
    ∧ list_holdings 1 db' = (Ok [], db').
Proof.
  do 2 eexists. split; [vm_compute; reflexivity|].
  split; vm_compute; reflexivity.
Qed.

(** ** Market data: failures and repeated lookups *)

(** X9.  A rate between a currency and itself (letter case aside) is 1:
    [fetch_rate] returns it without reading or writing the cache and
    without consulting the data source, also when a row for that pair is
    stored. *)
Theorem X9_same_currency_rate_is_one
    (yf : string → FastInfo) (db : DB) (from_currency to_currency : string)
    (now : timestamp) :
  upper from_currency = upper to_currency →
  FxService.fetch_rate yf from_currency to_currency now db = (Ok 1%Q, db).
Proof.
  intros Hsame. unfold FxService.fetch_rate. by rewrite decide_True.
Qed.

Lemma X9_same_currency_witness :
  let yf := λ _ : string, mkFastInfo None None NoCurrencyKey in
  let db := mkDB ∅ ∅ [] ∅ ∅ {[ ("USD", "USD") := rate_row 5 0 ]} ∅ in
  FxService.fetch_rate yf "usd" "USD" 0 db = (Ok 1%Q, db).
Proof.
  intros yf db. apply (X9_same_currency_rate_is_one yf db "usd" "USD" 0).
  reflexivity.
Defined.



(** X11.  A value fetched from the source is served from the cache
    afterwards: after a [fetch_price] that had to ask the source at time
    T, every [fetch_price] of the same ticker between T and T + 15
    minutes minus one second returns the same price and currency with
    cached = True, changes nothing, and does not depend on what the
    source would answer then. *)
Theorem X11_fetched_price_is_served_from_cache
    (yf yf' : string → FastInfo) (db : DB) (ticker : string) (price : Q)
    (now now' : timestamp) :
  (price_cache db !! upper ticker = None
   ∨ ∃ row, price_cache db !! upper ticker = Some row
            ∧ timedelta_minutes 15 < age now (p_fetched_at row)) →
  last_or_previous (yf (upper ticker)) = Some price →
  now <= now' <= now + timedelta_minutes 15 - one_second →
  ∃ currency db1,
    PriceService.fetch_price yf ticker now db
    = (Ok (PriceService.mkPriceResult (upper ticker) price currency false), db1)
    ∧ PriceService.fetch_price yf' ticker now' db1
      = (Ok (PriceService.mkPriceResult (upper ticker) price currency true), db1).
Proof.
  intros Hmiss Hsrc Hnow.
  do 2 eexists. split; [by apply fetch_price_miss|].
  pose proof (stored_stamp_bounds now) as Hb.
  eapply (fetch_price_hit yf' ticker now' _ (price_row price _ now)).
  - simpl. apply lookup_insert_eq.
  - clock.
Qed.

Lemma X11_fetched_price_witness :
  let yf := λ _ : string, mkFastInfo (Some 200%Q) None (CurrencyText "USD") in
  let yf' := λ _ : string, mkFastInfo None None NoCurrencyKey in
  let db := mkDB ∅ ∅ [] ∅ ∅ ∅ ∅ in
  ∃ currency db1,
    PriceService.fetch_price yf "aapl" 5000000 db
    = (Ok (PriceService.mkPriceResult (upper "aapl") 200 currency false), db1)
    ∧ PriceService.fetch_price yf' "aapl" 65000000 db1
      = (Ok (PriceService.mkPriceResult (upper "aapl") 200 currency true), db1).
Proof.
  intros yf yf' db.
  apply (X11_fetched_price_is_served_from_cache yf yf' db "aapl" 200 5000000 65000000).
  - by left.
  - reflexivity.
  - vm_compute. split; discriminate.
Defined.

(** ** Cash: setting a balance, recording a movement *)

Lemma upsert_cash_returns account_id currency balance now db :
  is_Some (accounts db !! account_id)
  ∨ is_Some (cash_positions db !! (account_id, currency)) →
  upsert_cash account_id currency balance now db
  = Returns (tt, set_cash_positions
                   <[(account_id, currency) :=
                       mkCashPosition balance (datetime_now now)]> db).
Proof.
  unfold upsert_cash. intros [[a Ha]|[c Hc]].
  - rewrite Ha. by destruct (cash_positions db !! _).
  - by rewrite Hc.
Qed.

Lemma set_cash_returns account_id currency balance now db :
  upper currency ∈ CURRENCIES →
  is_Some (accounts db !! account_id)
  ∨ is_Some (cash_positions db !! (account_id, upper currency)) →
  set_cash account_id currency balance now db
  = (Returns (mkCashPosition balance (datetime_now now)),
     set_cash_positions
       <[(account_id, upper currency) :=
           mkCashPosition balance (datetime_now now)]> db).
Proof.
  intros Hcur Hrow. unfold set_cash.
  rewrite bool_decide_eq_true_2 by done. simpl.
  rewrite upsert_cash_returns by done. simpl. by rewrite lookup_insert_eq.
Qed.

(** X12.  [set_cash] (and [sync_broker_cash], which calls it) refuses a
    currency outside TWD, USD, SGD, compared in upper case, and an
    account that does not exist, without changing anything.  Otherwise
    it returns the position with exactly the balance given, whatever the
    balance was before; [get_cash] then returns that position; no other
    position changes; and a second [set_cash] leaves the position as if
    the first had not happened. *)
Theorem X12_set_cash_overwrites
    (db : DB) (account_id : Z) (currency : string) (balance : Q) (now : timestamp) :
  (upper currency ∉ CURRENCIES →
   set_cash account_id currency balance now db
   = (Raises (Invalid_currency (upper currency)), db)
   ∧ sync_broker_cash account_id currency balance now db
     = (Raises (Invalid_currency (upper currency)), db))
  ∧ (upper currency ∈ CURRENCIES →
     accounts db !! account_id = None →
     cash_positions db !! (account_id, upper currency) = None →
     set_cash account_id currency balance now db = (Raises Foreign_key_failed, db)
     ∧ sync_broker_cash account_id currency balance now db
       = (Raises Foreign_key_failed, db))
  ∧ (upper currency ∈ CURRENCIES →
     is_Some (accounts db !! account_id) →
     ∃ row db',
       set_cash account_id currency balance now db = (Returns row, db')
       ∧ sync_broker_cash account_id currency balance now db = (Returns tt, db')
       ∧ c_balance row = balance
       ∧ get_cash account_id currency db' = (Ok (Some row), db')
       ∧ db' = set_cash_positions (λ _, cash_positions db') db
       ∧ (∀ key, key ≠ (account_id, upper currency) →
                 cash_positions db' !! key = cash_positions db !! key)
       ∧ ∀ balance2 now2,
           set_cash account_id currency balance2 now2 db'
           = set_cash account_id currency balance2 now2 db).
Proof.
  unfold sync_broker_cash. split; [|split].
  - intros Hbad. unfold set_cash. by rewrite bool_decide_eq_false_2.
  - intros Hcur Hacc Hrow. unfold set_cash, upsert_cash.
    rewrite bool_decide_eq_true_2 by done. simpl. by rewrite Hrow, Hacc.
  - intros Hcur Hacc.
    do 2 eexists. rewrite set_cash_returns by auto.
    split; [reflexivity|]. split; [reflexivity|].
    split; [done|]. split; [|split; [|split]].
    + unfold get_cash, get_connection, Sql.select_cash. simpl.
      by rewrite lookup_insert_eq.
    + by destruct db.
    + intros key Hne. simpl. by rewrite lookup_insert_ne.
    + intros balance2 now2.
      rewrite !set_cash_returns by (simpl; auto).
      unfold set_cash_positions. simpl. by rewrite insert_insert_eq.
Qed.

Lemma X12_set_cash_witness :
  let db := mkDB {[ 1 := mkAccount 1 "TW" "TWD" true ]} ∅ []
                 {[ (1, "TWD") := mkCashPosition 100 0 ]} ∅ ∅ ∅ in
  ∃ row db',
    set_cash 1 "twd" 500000 5000000 db = (Returns row, db')
    ∧ sync_broker_cash 1 "twd" 500000 5000000 db = (Returns tt, db')
    ∧ c_balance row = 500000%Q
    ∧ get_cash 1 "twd" db' = (Ok (Some row), db').
Proof.
  intros db.
  destruct (proj2 (proj2 (X12_set_cash_overwrites db 1 "twd" 500000 5000000)))
    as (row & db' & Hrun & Hsync & Hbal & Hget & _).
  - unfold CURRENCIES. vm_compute. set_solver.
  - by eexists.
  - by exists row, db'.
Defined.

(** X13.  [record_cash_transaction] checks the currency first, then the
    category, both in upper case, and needs the account to exist.  A
    call that raises, for any of these reasons, leaves the balances and
    the log of cash movements as they were. *)
Theorem X13_refused_cash_movement_changes_nothing
    (books : Books) (account_id : Z) (currency category : string) (amount : Q)
    (description : option string) (executed_at : option Z) (now : timestamp) :
  (upper currency ∉ CURRENCIES →
   record_cash_transaction account_id currency amount category description
     executed_at now books
   = (Raises (Invalid_currency (upper currency)), books))
  ∧ (upper currency ∈ CURRENCIES → upper category ∉ CASH_CATEGORIES →
     record_cash_transaction account_id currency amount category description
       executed_at now books
     = (Raises (Invalid_category (upper category)), books))
  ∧ (upper currency ∈ CURRENCIES → upper category ∈ CASH_CATEGORIES →
     accounts (books_db books) !! account_id = None →
     record_cash_transaction account_id currency amount category description
       executed_at now books
     = (Raises Foreign_key_failed, books))
  ∧ ∀ f books',
      record_cash_transaction account_id currency amount category description
        executed_at now books = (Raises f, books') →
      books' = books.
Proof.
  unfold record_cash_transaction. split; [|split; [|split]].
  - intros Hbad. by rewrite bool_decide_eq_false_2.
  - intros Hcur Hbad. rewrite bool_decide_eq_true_2 by done. simpl.
    by rewrite bool_decide_eq_false_2.
  - intros Hcur Hcat Hacc. rewrite !bool_decide_eq_true_2 by done. simpl.
    rewrite adjust_cash_spec. simpl. by rewrite Hacc.
  - intros f books'.
    destruct (negb _); [by intros [= _ <-]|].
    destruct (negb _); [by intros [= _ <-]|].
    rewrite adjust_cash_spec. simpl.
    destruct (accounts (books_db books) !! account_id); [done|].
    by intros [= _ <-].
Qed.

Lemma X13_refused_cash_movement_witness :
  let books := mkBooks (mkDB {[ 1 := mkAccount 1 "US" "USD" true ]} ∅ []
                          {[ (1, "USD") := mkCashPosition 100 0 ]} ∅ ∅ ∅) [] in
  record_cash_transaction 1 "usd" 50 "bonus" None None 0 books
  = (Raises (Invalid_category (upper "bonus")), books).
Proof.
  intros books.
  apply (proj1 (proj2 (X13_refused_cash_movement_changes_nothing books 1 "usd"
                         "bonus" 50 None None 0))).
  - unfold CURRENCIES. vm_compute. set_solver.
  - unfold CASH_CATEGORIES. vm_compute. set_solver.
Defined.

(** X14.  A [record_cash_transaction] with a recognised currency and
    category on an existing account returns, whatever the amount: the
    position is created at the amount or becomes the old balance plus the
    amount, also when that is negative and whatever the category says (a
    WITHDRAWAL with a positive amount adds cash); one row with the
    amount, the upper-cased currency and category is appended to the log
    of cash movements; trades, holdings and the other positions are
    untouched. *)
Theorem X14_cash_movement_adds_the_amount
    (books : Books) (account_id : Z) (currency category : string) (amount : Q)
    (description : option string) (executed_at : option Z) (now : timestamp) :
  upper currency ∈ CURRENCIES →
  upper category ∈ CASH_CATEGORIES →
  is_Some (accounts (books_db books) !! account_id) →
  ∃ row books',
    record_cash_transaction account_id currency amount category description
      executed_at now books = (Returns row, books')
    ∧ ct_amount row = amount
    ∧ ct_currency row = upper currency
    ∧ ct_category row = upper category
    ∧ (ct_id row ∉ (ct_id <$> cash_transactions books))
    ∧ cash_transactions books' = (cash_transactions books ++ [row])%list
    ∧ (c_balance <$> cash_positions (books_db books') !! (account_id, upper currency))
      = Some (adjusted_balance
                (cash_positions (books_db books) !! (account_id, upper currency))
                amount)
    ∧ (∀ key, key ≠ (account_id, upper currency) →
              cash_positions (books_db books') !! key
              = cash_positions (books_db books) !! key)
    ∧ holdings (books_db books') = holdings (books_db books)
    ∧ transactions (books_db books') = transactions (books_db books).
Proof.
  intros Hcur Hcat [account Hacc].
  unfold record_cash_transaction.
  rewrite !bool_decide_eq_true_2 by done. simpl.
  rewrite adjust_cash_spec. simpl. rewrite upper_idemp, Hacc.
  do 2 eexists. split; [reflexivity|]. simpl.
  do 3 (split; [done|]). split; [apply next_rowid_fresh|]. split; [done|].
  split; [by rewrite lookup_insert_eq|]. split; [|done].
  intros key Hne. by rewrite lookup_insert_ne.
Qed.

Lemma X14_cash_movement_witness :
  let books := mkBooks (mkDB {[ 1 := mkAccount 1 "US" "USD" true ]} ∅ []
                          {[ (1, "USD") := mkCashPosition 100 0 ]} ∅ ∅ ∅) [] in
  ∃ row books',
    record_cash_transaction 1 "usd" (-250) "deposit" None None 0 books
    = (Returns row, books')
    ∧ ct_amount row = (-250)%Q
    ∧ ct_category row = "DEPOSIT"
    ∧ (c_balance <$> cash_positions (books_db books') !! (1, "USD"))
      = Some (100 + -250)%Q.
Proof.
  intros books.
  destruct (X14_cash_movement_adds_the_amount books 1 "usd" "deposit" (-250) None
              None 0)
    as (row & books' & Hrun & Ham & _ & Hcat & _ & _ & Hbal & _).
  - unfold CURRENCIES. vm_compute. set_solver.
  - unfold CASH_CATEGORIES. vm_compute. set_solver.
  - by eexists.
  - exists row, books'. split; [done|]. split; [done|]. split; [done|]. exact Hbal.
Defined.

(** ** Accounts: deactivation is soft *)

(** Deactivating an account changes no trade on any holding: the
    account row stays, so the FOREIGN KEY of a new holding is met as
    before. *)
Lemma update_holding_from_trade_deactivated a account_id ticker action shares price
    now db :
  update_holding_from_trade account_id ticker action shares price now
    (set_accounts (alter deactivated a) db)
  = match update_holding_from_trade account_id ticker action shares price now db with
    | Ok (u, conn) => Ok (u, set_accounts (alter deactivated a) conn)
    | Raise e => Raise e
    end.
Proof.
  assert (∀ A (x y : A),
            match alter deactivated a (accounts db) !! account_id with
            | Some _ => x
            | None => y
            end
            = match accounts db !! account_id with Some _ => x | None => y end)
    as Hsame.
  { intros A x y. destruct (decide (a = account_id)) as [->|Hne].
    - rewrite lookup_alter_eq. by destruct (accounts db !! account_id).
    - by rewrite lookup_alter_ne. }
  unfold update_holding_from_trade, tx_bind, Sql.select_holding, py_div, tx_raise,
    tx_ret, Sql.update_holding, Sql.insert_holding, Sql.delete_holding,
    Sql.update_holding_shares.
  simpl.
  destruct (holdings db !! (account_id, upper ticker)) as [old|] eqn:Hold;
    destruct (decide (action = "BUY")); simpl;
    rewrite ?Hold, ?Hsame; repeat (case_match; simplify_eq/=; try done).
Qed.

(** X15.  [deactivate_account] never raises and only clears the active
    flag of that one account (nothing at all for an unknown id): the
    other columns of the account, every other account, and holdings,
    cash, trades and orders stay.  Afterwards [list_accounts] no longer
    lists the account, with or without a user filter, while [get_account]
    still returns it and trades on it are still accepted: a
    [record_transaction] that returned before the deactivation returns
    the same trade row after it. *)
Theorem X15_deactivation_is_soft (db : DB) (account_id : Z) :
  ∃ db',
    deactivate_account account_id db = (Ok tt, db')
    ∧ db' = set_accounts (λ _, accounts db') db
    ∧ (∀ other, other ≠ account_id → accounts db' !! other = accounts db !! other)
    ∧ accounts db' !! account_id
      = (λ account, mkAccount (acc_user_id account) (acc_market account)
                      (acc_currency account) false) <$> accounts db !! account_id
    ∧ (accounts db !! account_id = None → db' = db)
    ∧ (∀ user_id rows,
         list_accounts user_id db' = (Ok rows, db') → account_id ∉ rows.*1)
    ∧ (∀ account,
         accounts db !! account_id = Some account →
         get_account account_id db'
         = (Ok (mkAccount (acc_user_id account) (acc_market account)
                  (acc_currency account) false), db'))
    ∧ (∀ ticker action shares price fee tax executed_at notes now tx db1,
         record_transaction account_id ticker action shares price fee tax executed_at
           notes now db = (Ok tx, db1) →
         ∃ db1',
           record_transaction account_id ticker action shares price fee tax
             executed_at notes now db' = (Ok tx, db1')).
Proof.
  eexists. split; [reflexivity|]. split; [by destruct db|].
  split; [|split; [|split; [|split; [|split]]]].
  - intros other Hne. simpl. by rewrite lookup_alter_ne.
  - simpl. by rewrite lookup_alter_eq.
  - intros Hnone. destruct db as [acc ? ? ? ? ? ?]. unfold set_accounts. simpl in *.
    f_equal. apply map_eq. intros j. destruct (decide (account_id = j)) as [<-|Hne].
    + by rewrite lookup_alter_eq, Hnone.
    + by rewrite lookup_alter_ne.
  - intros user_id rows [= <-] Hin.
    apply list_elem_of_fmap in Hin as ([i account] & Heq & Hin). simpl in Heq. subst i.
    rewrite merge_sort_Permutation in Hin.
    apply list_elem_of_filter in Hin as [Hlisted Hin].
    apply elem_of_map_to_list in Hin. simpl in Hin.
    rewrite lookup_alter_eq in Hin.
    destruct (accounts db !! account_id) as [old|]; simpl in Hin; [|done].
    injection Hin as <-. unfold account_listed in Hlisted. simpl in Hlisted.
    by rewrite andb_false_r in Hlisted.
  - intros account Hacc. rewrite get_account_spec. simpl.
    by rewrite lookup_alter_eq, Hacc.
  - intros ticker action shares price fee tax executed_at notes now tx db1 Hrun.
    apply record_transaction_ok in Hrun
      as (Hact & Hs & Hp & account & conn1 & Hacc & Hupd & -> & _).
    destruct (record_transaction_returns account_id ticker action shares price fee
                tax executed_at notes now
                (set_accounts (alter deactivated account_id) db)
                (deactivated account)
                (set_accounts (alter deactivated account_id) conn1))
      as (tx' & db1' & Hrun'); try done.
    { simpl. by rewrite lookup_alter_eq, Hacc. }
    { by rewrite update_holding_from_trade_deactivated, Hupd. }
    exists db1'. rewrite Hrun'. do 2 f_equal.
    apply record_transaction_ok in Hrun'
      as (_ & _ & _ & account' & _ & Hacc' & _ & -> & _).
    simpl in Hacc'. rewrite lookup_alter_eq, Hacc in Hacc'. simpl in Hacc'.
    by injection Hacc' as <-.
Qed.

Lemma X15_deactivation_witness :
  let db := mkDB {[ 1 := mkAccount 1 "US" "USD" true;
                    2 := mkAccount 1 "TW" "TWD" true ]} ∅ [] ∅ ∅ ∅ ∅ in
  ∃ db',
    deactivate_account 1 db = (Ok tt, db')
    ∧ get_account 1 db' = (Ok (mkAccount 1 "US" "USD" false), db')
    ∧ accounts db' !! 2 = Some (mkAccount 1 "TW" "TWD" true).
Proof.
  intros db.
  destruct (X15_deactivation_is_soft db 1)
    as (db' & Hrun & _ & Hothers & _ & _ & _ & Hget & _).
  exists db'. split; [exact Hrun|]. split.
  - exact (Hget (mkAccount 1 "US" "USD" true) eq_refl).
  - rewrite (Hothers 2) by done. reflexivity.
Defined.

(** ** Trades: looking a trade up *)

(** X16.  A trade can be looked up by the id it was given: after a
    [record_transaction] that returns a row, [get_transaction] of that
    row's id returns the same row; so the transaction an executed order
    is linked to is the trade at the actual price.  An id that no row of
    the log has raises "Transaction ID ... not found". *)
Theorem X16_recorded_trade_is_found (db : DB) :
  (∀ account_id ticker action shares price fee tax executed_at notes now tx db',
     record_transaction account_id ticker action shares price fee tax executed_at
       notes now db = (Ok tx, db') →
     get_transaction (t_id tx) db' = (Returns tx, db'))
  ∧ (∀ order_id actual_price fee tax now order' db',
       execute_order order_id actual_price fee tax now db = (Ok order', db') →
       ∃ tx_id tx,
         o_linked_transaction_id order' = Some tx_id
         ∧ get_transaction tx_id db' = (Returns tx, db')
         ∧ t_price tx = actual_price)
  ∧ (∀ transaction_id,
       transaction_id ∉ (t_id <$> transactions db) →
       get_transaction transaction_id db
       = (Raises (Transaction_not_found transaction_id), db)).
Proof.
  assert (∀ (log : list Transaction) tx,
            t_id tx ∉ (t_id <$> log) →
            list_find (λ row, t_id row = t_id tx) (log ++ [tx])
            = Some (length log, tx)) as Hfind.
  { intros log tx Hfresh. apply list_find_Some. split; [|split].
    - by rewrite lookup_app_r, Nat.sub_diag.
    - done.
    - intros j row Hj Hlt Heq. apply Hfresh. rewrite <- Heq.
      apply list_elem_of_fmap. exists row. split; [done|].
      rewrite lookup_app_l in Hj by done. by eapply list_elem_of_lookup_2. }
  split; [|split].
  - intros account_id ticker action shares price fee tax executed_at notes now tx db'
      Hrun.
    apply record_transaction_log in Hrun as (_ & Hlog & Hid & _).
    unfold get_transaction. rewrite Hlog, Hfind; [done|].
    rewrite Hid. apply next_rowid_fresh.
  - intros order_id actual_price fee tax now order' db' Hrun.
    apply execute_order_ok in Hrun
      as (order & tx & _ & _ & -> & _ & Hlog & Hfresh & Hprice & _).
    exists (t_id tx), tx. split; [done|]. split; [|done].
    unfold get_transaction. by rewrite Hlog, Hfind.
  - intros transaction_id Hnot. unfold get_transaction.
    destruct (list_find _ _) as [[i row]|] eqn:Hf; [|done].
    apply list_find_Some in Hf as (Hi & Hid & _). exfalso. apply Hnot.
    apply list_elem_of_fmap. exists row. split; [done|].
    by eapply list_elem_of_lookup_2.
Qed.

Lemma X16_recorded_trade_witness :
  let db := mkDB {[ 1 := mkAccount 1 "US" "USD" true ]} ∅ [] ∅ ∅ ∅ ∅ in
  ∃ tx db',
    record_transaction 1 "aapl" "buy" 10 150 1 0 None None 5000000 db = (Ok tx, db')
    ∧ get_transaction (t_id tx) db' = (Returns tx, db').
Proof.
  intros db.
  destruct (record_transaction 1 "aapl" "buy" 10 150 1 0 None None 5000000 db)
    as [[tx|e] db'] eqn:Hrun; [|by vm_compute in Hrun].
  exists tx, db'. split; [done|].
  exact (proj1 (X16_recorded_trade_is_found db) 1 "aapl" "buy" 10%Q 150%Q 1%Q 0%Q
           None None 5000000 tx db' Hrun).
Defined.

(** ** Market data: a batch of prices *)

Lemma fetch_price_frame yf ticker now db res db' :
  PriceService.fetch_price yf ticker now db = (res, db') →
  db' = set_price_cache (λ _, price_cache db') db
  ∧ ∀ key, key ≠ upper ticker → price_cache db' !! key = price_cache db !! key.
Proof.
  unfold PriceService.fetch_price, PriceService._get_cached_price, svc_bind,
    get_connection, Sql.select_price, PriceService._update_cache, Sql.upsert_price,
    svc_ret, svc_raise.
  intros Hrun. destruct db. simpl in *.
  repeat (case_match; simplify_eq/=; try done);
    (split; [done|]); intros key Hne; simpl; by rewrite ?lookup_insert_ne.
Qed.

(** What [fetch_price] returns depends on the database only through the
    cached row of the ticker. *)
Lemma fetch_price_local yf ticker now db1 db2 :
  price_cache db1 !! upper ticker = price_cache db2 !! upper ticker →
  (PriceService.fetch_price yf ticker now db1).1
  = (PriceService.fetch_price yf ticker now db2).1.
Proof.
  unfold PriceService.fetch_price, PriceService._get_cached_price, svc_bind,
    get_connection, Sql.select_price, PriceService._update_cache, Sql.upsert_price,
    svc_ret, svc_raise.
  intros Heq. rewrite Heq.
  repeat (case_match; simplify_eq/=; try done).
Qed.

Lemma fetch_prices_loop_spec yf now tickers :
  ∀ results db res db',
    fetch_prices_loop yf tickers now results db = (res, db') →
    db' = set_price_cache (λ _, price_cache db') db
    ∧ (∀ key, key ∉ upper <$> tickers →
              res !! key = results !! key
              ∧ price_cache db' !! key = price_cache db !! key)
    ∧ (∀ key, is_Some (res !! key)
              ↔ is_Some (results !! key) ∨ key ∈ upper <$> tickers)
    ∧ (NoDup (upper <$> tickers) →
       ∀ t, t ∈ tickers →
            res !! upper t
            = Some (price_entry t (PriceService.fetch_price yf t now db).1)).
Proof.
  induction tickers as [|t rest IH]; intros results db res db' Hrun.
  - injection Hrun as <- <-. split; [by destruct db|]. split; [done|].
    split; [|intros _ t Ht; by apply elem_of_nil in Ht].
    intros key. split; [by left|]. intros [?|Hin]; [done|].
    by apply elem_of_nil in Hin.
  - cbn [fetch_prices_loop] in Hrun.
    destruct (PriceService.fetch_price yf t now db) as [r1 db1] eqn:Hone.
    pose proof (fetch_price_frame _ _ _ _ _ _ Hone) as [Hfr1 Hk1].
    assert (fetch_prices_loop yf rest now (<[upper t := price_entry t r1]> results)
              db1 = (res, db')) as Hrest by (by destruct r1).
    apply IH in Hrest as (Hfr & Hout & Hdom & Hin).
    split; [|split; [|split]].
    + rewrite Hfr, Hfr1. done.
    + intros key Hkey. rewrite fmap_cons, not_elem_of_cons in Hkey.
      destruct Hkey as [Hne Hkey]. destruct (Hout key Hkey) as [-> ->].
      by rewrite lookup_insert_ne, Hk1.
    + intros key. rewrite Hdom, fmap_cons, elem_of_cons.
      destruct (decide (upper t = key)) as [<-|Hne].
      * rewrite lookup_insert_eq. naive_solver.
      * rewrite lookup_insert_ne by done. naive_solver.
    + intros Hnd t' Ht'. rewrite fmap_cons in Hnd.
      apply NoDup_cons in Hnd as [Hfresh Hnd].
      apply elem_of_cons in Ht' as [->|Ht'].
      * destruct (Hout (upper t) Hfresh) as [-> _].
        by rewrite lookup_insert_eq, Hone.
      * rewrite (Hin Hnd t' Ht'). do 2 f_equal.
        apply fetch_price_local, Hk1. intros Heq. apply Hfresh. rewrite <- Heq.
        apply list_elem_of_fmap. by exists t'.
Qed.

(** X17.  [fetch_prices] gives every ticker of the batch an entry under
    its upper-cased name and no other entry, and touches nothing but the
    price cache.  A ticker that cannot be priced gets an entry with price
    None and the exception; it does not stop the batch.  When the tickers
    are distinct (in upper case), each entry is what a single
    [fetch_price] of that ticker on the starting database gives: the
    other tickers of the batch have no influence on it. *)
Theorem X17_batch_prices_are_independent
    (yf : string → FastInfo) (tickers : list string) (now : timestamp) (db : DB) :
  ∃ results db',
    fetch_prices yf tickers now db = (results, db')
    ∧ db' = set_price_cache (λ _, price_cache db') db
    ∧ (∀ key, is_Some (results !! key) ↔ key ∈ upper <$> tickers)
    ∧ (∀ key, key ∉ upper <$> tickers →
              price_cache db' !! key = price_cache db !! key)
    ∧ (NoDup (upper <$> tickers) →
       ∀ t, t ∈ tickers →
            results !! upper t
            = Some (price_entry t (PriceService.fetch_price yf t now db).1)).
Proof.
  destruct (fetch_prices yf tickers now db) as [results db'] eqn:Hrun.
  exists results, db'. split; [done|].
  apply fetch_prices_loop_spec in Hrun as (Hfr & Hout & Hdom & Hin).
  split; [done|]. split; [|split; [|done]].
  - intros key. rewrite Hdom, lookup_empty. split; [|by right].
    intros [[? ?]|?]; done.
  - intros key Hkey. by apply Hout.
Qed.

Lemma X17_batch_prices_witness :
  let yf := λ t : string,
              if String.eqb t "AAPL" then mkFastInfo (Some 200%Q) None (CurrencyText "USD")
              else mkFastInfo None None NoCurrencyKey in
  let db := mkDB ∅ ∅ [] ∅ ∅ ∅ ∅ in
  ∃ results db',
    fetch_prices yf ["nope"; "aapl"] 5000000 db = (results, db')
    ∧ results !! "NOPE"
      = Some (Unpriced "NOPE" (ValueError (Could_not_fetch_price "NOPE")))
    ∧ results !! "AAPL"
      = Some (Priced (PriceService.mkPriceResult "AAPL" 200 "USD" false)).
Proof.
  intros yf db.
  destruct (X17_batch_prices_are_independent yf ["nope"; "aapl"] 5000000 db)
    as (results & db' & Hrun & _ & _ & _ & Hin).
  exists results, db'. split; [done|].
  assert (NoDup (upper <$> ["nope"; "aapl"])) as Hnd
    by (by apply (bool_decide_unpack _)).
  split.
  - change "NOPE" with (upper "nope") at 1.
    rewrite (Hin Hnd "nope") by set_solver. reflexivity.
  - change "AAPL" with (upper "aapl") at 1.
    rewrite (Hin Hnd "aapl") by set_solver. reflexivity.
Defined.

(** ** Valuation of an account *)

Lemma cash_of_elem account_id conn currency p :
  (currency, p) ∈ cash_of account_id conn
  ↔ cash_positions conn !! (account_id, currency) = Some p.
Proof.
  unfold cash_of. rewrite list_elem_of_omap. split.
  - intros ([[a c] p'] & Hin & Hf).
    apply elem_of_map_to_list in Hin.
    destruct (bool_decide (a = account_id)) eqn:Ha; [|done].
    apply bool_decide_eq_true in Ha. by simplify_eq.
  - intros Hrow. exists ((account_id, currency), p). split.
    + by apply elem_of_map_to_list.
    + by rewrite bool_decide_eq_true_2.
Qed.

Lemma cash_of_NoDup account_id conn : NoDup (cash_of account_id conn).*1.
Proof.
  unfold cash_of.
  pose proof (NoDup_fst_map_to_list (cash_positions conn)) as Hnd.
  induction (map_to_list (cash_positions conn)) as [|[[a c] p] l IH]; simpl;
    [constructor|].
  apply NoDup_cons in Hnd as [Hnotin Hnd]. specialize (IH Hnd).
  destruct (bool_decide (a = account_id)) eqn:Ha; [|done].
  apply bool_decide_eq_true in Ha. subst a.
  simpl. constructor; [|done].
  intros Hin. apply Hnotin.
  apply list_elem_of_fmap in Hin as ([c' p'] & Heq & Hin). simpl in Heq. subst c'.
  apply list_elem_of_omap in Hin as ([[a2 c2] p2] & Hin & Hf2).
  destruct (bool_decide (a2 = account_id)) eqn:Ha2; [|done].
  apply bool_decide_eq_true in Ha2. simplify_eq.
  apply list_elem_of_fmap. by exists ((account_id, c), p').
Qed.

(** Among rows with distinct currencies, the sum over one currency is
    the balance of its row, or zero without one. *)
Lemma sum_cash_one_row (rows : list (string * CashPosition)) (currency : string) :
  NoDup rows.*1 →
  (∃ p, (currency, p) ∈ rows ∧ (sum_cash currency rows == c_balance p)%Q)
  ∨ ((∀ p, (currency, p) ∉ rows) ∧ sum_cash currency rows = 0%Q).
Proof.
  unfold sum_cash.
  induction rows as [|[c p] rows IH]; intros Hnd.
  - right. split; [|done]. intros p Hin. by apply elem_of_nil in Hin.
  - simpl in Hnd. apply NoDup_cons in Hnd as [Hfresh Hnd].
    destruct (decide (c = currency)) as [->|Hne].
    + left. exists p. split; [left|].
      rewrite filter_cons_True by done.
      assert (filter (λ row : string * CashPosition, row.1 = currency) rows = [])
        as ->.
      { clear IH Hnd. induction rows as [|[c' p'] rows IH]; [done|].
        rewrite filter_cons_False.
        - apply IH. intros Hin. apply Hfresh. by right.
        - simpl. intros ->. apply Hfresh. by left. }
      simpl. ring.
    + rewrite filter_cons_False by done.
      destruct (IH Hnd) as [(p' & Hin & Hsum)|[Hnone Hsum]].
      * left. exists p'. split; [by right|done].
      * right. split; [|done]. intros p' Hin.
        apply elem_of_cons in Hin as [[= ? ?]|Hin]; [done|]. by eapply Hnone.
Qed.

Lemma get_account_summary_spec yf account_id now db account :
  accounts db !! account_id = Some account →
  let rows := merge_sort ticker_le (holdings_of account_id db) in
  let cash := merge_sort currency_le (cash_of account_id db) in
  let fetched := match rows.*1 with
                 | [] => (∅, db)
                 | _ => fetch_prices yf rows.*1 now db
                 end in
  let details := holding_detail fetched.1 <$> rows in
  get_account_summary yf account_id now db
  = (Ok (mkAccountSummary account details cash
           (foldl add_market_value 0%Q details)
           (sum_cash (acc_currency account) cash)
           (foldl add_market_value 0%Q details
            + sum_cash (acc_currency account) cash)%Q
           (acc_currency account)),
     fetched.2).
Proof.
  intros Hacc. simpl.
  unfold get_account_summary, svc_bind, svc_ret.
  rewrite get_account_spec, Hacc, list_holdings_spec.
  unfold list_cash, get_connection.
  destruct ((merge_sort ticker_le (holdings_of account_id db)).*1) eqn:Ht; [done|].
  by destruct (fetch_prices yf (s :: l) now db).
Qed.

(** X18.  [get_account_summary] raises "Account ID ... not found" for an
    unknown account and returns otherwise, also when prices cannot be
    fetched.  It changes nothing but the price cache.  It lists every
    cash position of the account, but the cash total is the balance of
    the position in the account's own currency alone (zero without one):
    cash held in other currencies is not counted; the total value is the
    stock total plus that cash total. *)
Theorem X18_account_summary_cash_and_frame
    (yf : string → FastInfo) (db : DB) (account_id : Z) (now : timestamp) :
  (accounts db !! account_id = None →
   get_account_summary yf account_id now db
   = (Raise (ValueError (Account_not_found account_id)), db))
  ∧ (∀ account,
       accounts db !! account_id = Some account →
       ∃ summary db',
         get_account_summary yf account_id now db = (Ok summary, db')
         ∧ db' = set_price_cache (λ _, price_cache db') db
         ∧ (∀ currency p,
              (currency, p) ∈ s_cash summary
              ↔ cash_positions db !! (account_id, currency) = Some p)
         ∧ (s_total_cash_value summary ==
              match cash_positions db !! (account_id, acc_currency account) with
              | Some p => c_balance p
              | None => 0
              end)%Q
         ∧ s_total_value summary
           = (s_total_stock_value summary + s_total_cash_value summary)%Q).
Proof.
  split.
  - intros Hnone. unfold get_account_summary, svc_bind.
    by rewrite get_account_spec, Hnone.
  - intros account Hacc. do 2 eexists.
    split; [by apply get_account_summary_spec|]. simpl.
    split; [|split; [|split; [|done]]].
    + destruct ((merge_sort ticker_le (holdings_of account_id db)).*1);
        [by destruct db|].
      destruct (fetch_prices yf (s :: l) now db) as [prices db'] eqn:Hrun.
      by apply fetch_prices_loop_spec in Hrun as [Hfr _].
    + intros currency p. rewrite merge_sort_Permutation. apply cash_of_elem.
    + destruct (sum_cash_one_row (merge_sort currency_le (cash_of account_id db))
                  (acc_currency account)) as [(p & Hin & ->)|[Hnone ->]].
      * rewrite merge_sort_Permutation. apply cash_of_NoDup.
      * rewrite merge_sort_Permutation in Hin. apply cash_of_elem in Hin.
        by rewrite Hin.
      * destruct (cash_positions db !! (account_id, acc_currency account))
          as [p|] eqn:Hrow; [|done].
        exfalso. apply (Hnone p). rewrite merge_sort_Permutation.
        by apply cash_of_elem.
Qed.

Lemma X18_account_summary_witness :
  let yf := λ _ : string, mkFastInfo (Some 200%Q) None (CurrencyText "USD") in
  let db := mkDB {[ 1 := mkAccount 1 "US" "USD" true ]}
                 {[ (1, "AAPL") := mkHolding 10 150 0 ]} []
                 {[ (1, "USD") := mkCashPosition 1000 0;
                    (1, "SGD") := mkCashPosition 700 0 ]} ∅ ∅ ∅ in
  ∃ summary db',
    get_account_summary yf 1 5000000 db = (Ok summary, db')
    ∧ (s_total_cash_value summary == 1000)%Q
    ∧ (("SGD", mkCashPosition 700 0) ∈ s_cash summary).
Proof.
  intros yf db.
  destruct (proj2 (X18_account_summary_cash_and_frame yf db 1 5000000)
              (mkAccount 1 "US" "USD" true) eq_refl)
    as (summary & db' & Hrun & _ & Hcash & Htotal & _).
  exists summary, db'. split; [done|]. split.
  - rewrite Htotal. reflexivity.
  - apply Hcash. reflexivity.
Defined.



(** ** Planned orders: creation *)

(** X20.  [create_order] upper-cases ticker, action and priority and
    checks the action, then the priority, and nothing else.  A refused
    call and a call for an account that does not exist (the FOREIGN KEY
    fails) change nothing.  Otherwise the call returns a new PENDING
    order under an id no order had, with no execution stamp and no linked
    trade, and leaves every other order and table alone.  The share count
    is not checked: an order for a count that is not positive is accepted,
    and every later [execute_order] on it is refused with "Shares must be
    positive" and leaves it PENDING. *)
Theorem X20_create_order
    (db : DB) (account_id : Z) (ticker action : string) (shares : Q)
    (target_price : option Q) (reason : option string) (priority : string)
    (now : timestamp) :
  (upper action ∉ TRANSACTION_ACTIONS →
   create_order account_id ticker action shares target_price reason priority now db
   = (Raise (ValueError (Invalid_action (upper action))), db))
  ∧ (upper action ∈ TRANSACTION_ACTIONS →
     upper priority ∉ ORDER_PRIORITIES →
     create_order account_id ticker action shares target_price reason priority now db
     = (Raise (ValueError (Invalid_priority (upper priority))), db))
  ∧ (upper action ∈ TRANSACTION_ACTIONS →
     upper priority ∈ ORDER_PRIORITIES →
     accounts db !! account_id = None →
     create_order account_id ticker action shares target_price reason priority now db
     = (Raise IntegrityError, db))
  ∧ (upper action ∈ TRANSACTION_ACTIONS →
     upper priority ∈ ORDER_PRIORITIES →
     is_Some (accounts db !! account_id) →
     ∃ order_id,
       let order := mkPlannedOrder account_id (upper ticker) (upper action) shares
                      target_price reason (upper priority) "PENDING"
                      (datetime_now now) None None in
       let db' := set_planned_orders <[order_id := order]> db in
       create_order account_id ticker action shares target_price reason priority now
         db = (Ok (order_id, order), db')
       ∧ planned_orders db !! order_id = None
       ∧ (¬ (0 < shares)%Q →
          ∀ actual_price fee tax now',
            execute_order order_id actual_price fee tax now' db'
            = (Raise (ValueError Shares_must_be_positive), db'))).
Proof.
  unfold create_order, svc_raise.
  split; [|split; [|split]].
  - intros Hact. by rewrite bool_decide_eq_false_2.
  - intros Hact Hpri.
    by rewrite bool_decide_eq_true_2, bool_decide_eq_false_2.
  - intros Hact Hpri Hnone.
    rewrite !bool_decide_eq_true_2 by done. simpl.
    unfold get_connection, tx_bind, Sql.insert_order. by rewrite Hnone.
  - intros Hact Hpri [account Hacc].
    rewrite !bool_decide_eq_true_2 by done. simpl.
    unfold get_connection, tx_bind, Sql.insert_order, Sql.select_order, tx_ret.
    rewrite Hacc.
    set (order_id := Sql.next_rowid (map_to_list (planned_orders db)).*1).
    exists order_id. cbn [planned_orders set_planned_orders].
    rewrite lookup_insert_eq.
    split; [done|].
    assert (planned_orders db !! order_id = None) as Hfresh.
    { destruct (planned_orders db !! order_id) as [old|] eqn:Hold; [|done].
      exfalso. apply (next_rowid_fresh (map_to_list (planned_orders db)).*1).
      apply list_elem_of_fmap. exists (order_id, old).
      split; [done|]. by apply elem_of_map_to_list. }
    split; [done|].
    intros Hshares actual_price fee tax now'.
    unfold execute_order, svc_bind. rewrite execute_order_load_spec.
    cbn [planned_orders set_planned_orders]. rewrite lookup_insert_eq.
    cbn [o_status]. rewrite decide_False by (by intros H; apply H).
    unfold execute_order_record, record_transaction. cbn [o_action o_shares].
    rewrite upper_idemp, bool_decide_eq_true_2 by done. simpl.
    apply Qnot_lt_le, Qle_bool_iff in Hshares. by rewrite Hshares.
Qed.

Lemma X20_create_order_witness :
  let db := mkDB {[ 1 := mkAccount 1 "US" "USD" true ]} ∅ [] ∅ ∅ ∅ ∅ in
  ∃ order_id db',
    create_order 1 "aapl" "buy" (-5) None None "high" 5000000 db
    = (Ok (order_id,
           mkPlannedOrder 1 "AAPL" "BUY" (-5) None None "HIGH" "PENDING" 5 None None),
       db')
    ∧ execute_order order_id 100 0 0 6000000 db'
      = (Raise (ValueError Shares_must_be_positive), db').
Proof.
  intros db.
  destruct (proj2 (proj2 (proj2
              (X20_create_order db 1 "aapl" "buy" (-5) None None "high" 5000000))))
    as (order_id & Hrun & _ & Hexec).
  - by apply (bool_decide_unpack _).
  - by apply (bool_decide_unpack _).
  - by eexists.
  - exists order_id. eexists. split; [exact Hrun|].
    apply Hexec. by intros H.
Defined.

(** ** Tickers and bank descriptions: suffixes and substrings *)

Lemma upper_app (a b : string) : upper (a ++ b) = upper a ++ upper b.
Proof. induction a as [|c a IH]; simpl; [done|]. by rewrite IH. Qed.

Lemma rev_app_app (a b c : string) :
  String.rev_app (a ++ b) c = String.rev_app b (String.rev_app a c).
Proof. revert c. induction a as [|x a IH]; intros c; simpl; [done|]. apply IH. Qed.

Lemma prefix_rev_app (s x y : string) :
  String.prefix (String.rev_app s x) (String.rev_app s y) = String.prefix x y.
Proof.
  revert x y. induction s as [|c s IH]; intros x y; simpl; [done|].
  rewrite IH. simpl. by destruct (ascii_dec c c).
Qed.

Lemma prefix_empty (s : string) : String.prefix "" s = true.
Proof. by destruct s. Qed.

Lemma endswith_app (stem suffix : string) : endswith (stem ++ suffix) suffix = true.
Proof.
  unfold endswith, String.rev.
  by rewrite rev_app_app, prefix_rev_app, prefix_empty.
Qed.

Lemma prefix_app (s rest : string) : String.prefix s (s ++ rest) = true.
Proof.
  induction s as [|c s IH]; simpl; [apply prefix_empty|].
  by destruct (ascii_dec c c).
Qed.

Lemma contains_app (needle before after : string) :
  contains needle (before ++ needle ++ after) = true.
Proof.
  induction before as [|c before IH].
  - change ("" ++ needle ++ after) with (needle ++ after).
    pose proof (prefix_app needle after) as Hprefix.
    destruct (needle ++ after); cbn [contains]; by rewrite Hprefix.
  - change (String c before ++ needle ++ after)
      with (String c (before ++ needle ++ after)).
    cbn [contains]. rewrite IH. apply orb_true_r.
Qed.

(** X21.  [detect_market] always answers one of the market codes TW, SG
    and US, and does not depend on the case of the ticker: whatever
    comes before it, a suffix that reads .TW in upper case gives TW and
    one that reads .SI gives SG. *)
Theorem X21_detect_market_by_suffix (ticker : string) :
  detect_market ticker ∈ MARKET_CODES
  ∧ detect_market (upper ticker) = detect_market ticker
  ∧ (∀ stem suffix,
       ticker = stem ++ suffix → upper suffix = ".TW" → detect_market ticker = "TW")
  ∧ (∀ stem suffix,
       ticker = stem ++ suffix → upper suffix = ".SI" → detect_market ticker = "SG").
Proof.
  unfold detect_market. split; [|split; [|split]].
  - unfold MARKET_CODES. repeat case_match; set_solver.
  - by rewrite upper_idemp.
  - intros stem suffix -> Hsuffix.
    by rewrite upper_app, Hsuffix, endswith_app.
  - intros stem suffix -> Hsuffix.
    rewrite upper_app, Hsuffix, endswith_app.
    unfold endswith, String.rev. by rewrite rev_app_app.
Qed.

Lemma X21_detect_market_witness :
  detect_market "2330.tw" = "TW" ∧ detect_market "d05.Si" = "SG".
Proof.
  split.
  - by apply (proj1 (proj2 (proj2 (X21_detect_market_by_suffix "2330.tw")))
                "2330" ".tw").
  - by apply (proj2 (proj2 (proj2 (X21_detect_market_by_suffix "d05.Si")))
                "d05" ".Si").
Defined.

Lemma string_app_assoc (a b c : string) : (a ++ b) ++ c = a ++ b ++ c.
Proof.
  induction a as [|x a IH]; [done|].
  change (String x ((a ++ b) ++ c) = String x (a ++ b ++ c)). by rewrite IH.
Qed.

Lemma prefix_inv (needle text : string) :
  String.prefix needle text = true → ∃ after, text = needle ++ after.
Proof.
  revert text. induction needle as [|c needle IH]; intros text Hp.
  - by exists text.
  - destruct text as [|d text]; [done|]. simpl in Hp.
    destruct (ascii_dec c d) as [->|]; [|done].
    destruct (IH text Hp) as [after ->]. by exists after.
Qed.

Lemma contains_inv (needle text : string) :
  contains needle text = true → ∃ before after, text = before ++ needle ++ after.
Proof.
  induction text as [|c text IH]; cbn [contains]; intros Hc.
  - rewrite orb_false_r in Hc. apply prefix_inv in Hc as [after ->].
    by exists "", after.
  - apply orb_true_iff in Hc as [Hp|Hc].
    + apply prefix_inv in Hp as [after ->]. by exists "", after.
    + destruct (IH Hc) as (before & after & ->). by exists (String c before), after.
Qed.

Lemma upper_split (text x y : string) :
  upper text = x ++ y → ∃ t1 t2, text = t1 ++ t2 ∧ upper t1 = x ∧ upper t2 = y.
Proof.
  revert text. induction x as [|c x IH]; intros text Hu.
  - by exists "", text.
  - destruct text as [|d text]; [done|]. simpl in Hu. injection Hu as Hc Hu.
    destruct (IH text Hu) as (t1 & t2 & -> & H1 & H2).
    exists (String d t1), t2. simpl. by rewrite Hc, H1.
Qed.

(** [word in description.upper()] *)
Lemma contains_mentions (word description : string) :
  contains word (upper description) = true ↔ mentions word description.
Proof.
  split.
  - intros Hc. apply contains_inv in Hc as (before & after & Hu).
    apply upper_split in Hu as (t1 & t23 & -> & _ & Hu).
    apply upper_split in Hu as (t2 & t3 & -> & Hw & _).
    by exists t1, t2, t3.
  - intros (before & found & after & -> & Hw).
    by rewrite !upper_app, Hw, contains_app.
Qed.

Lemma not_contains_mentions (word description : string) :
  contains word (upper description) = false ↔ ¬ mentions word description.
Proof. rewrite <- contains_mentions. by destruct (contains _ _). Qed.

(** X22.  [_categorize_scb_transaction] always answers one of the cash
    categories and does not depend on the case of the description.  Its
    tests are tried in order, and each looks for a word anywhere in the
    description, in any case: INTEREST for a mention of interest;
    otherwise DIVIDEND for dividend; otherwise WITHDRAWAL for withdrawal
    or ATM; otherwise DEPOSIT for deposit, salary or transfer in;
    otherwise FEE for fee or charge; otherwise FX_CONVERSION for FX or
    exchange; and DEPOSIT when none of these words occurs. *)
Theorem X22_scb_category (description : string) :
  let category := _categorize_scb_transaction description in
  let said := λ word, mentions word description in
  category ∈ CASH_CATEGORIES
  ∧ _categorize_scb_transaction (upper description) = category
  ∧ (said "INTEREST" → category = "INTEREST")
  ∧ (¬ said "INTEREST" →
     (said "DIVIDEND" → category = "DIVIDEND")
     ∧ (¬ said "DIVIDEND" →
        (said "WITHDRAWAL" ∨ said "ATM" → category = "WITHDRAWAL")
        ∧ (¬ said "WITHDRAWAL" → ¬ said "ATM" →
           (said "DEPOSIT" ∨ said "SALARY" ∨ said "TRANSFER IN" →
            category = "DEPOSIT")
           ∧ (¬ said "DEPOSIT" → ¬ said "SALARY" → ¬ said "TRANSFER IN" →
              (said "FEE" ∨ said "CHARGE" → category = "FEE")
              ∧ (¬ said "FEE" → ¬ said "CHARGE" →
                 (said "FX" ∨ said "EXCHANGE" → category = "FX_CONVERSION")
                 ∧ (¬ said "FX" → ¬ said "EXCHANGE" → category = "DEPOSIT")))))).
Proof.
  intros category said. subst category said. cbv beta.
  unfold _categorize_scb_transaction.
  split; [unfold CASH_CATEGORIES; repeat case_match; set_solver|].
  split; [by rewrite upper_idemp|].
  split.
  { intros Hi. apply contains_mentions in Hi. by rewrite Hi. }
  intros Hi. apply not_contains_mentions in Hi. rewrite Hi.
  assert (contains "CR INTEREST" (upper description) = false) as ->.
  { apply not_contains_mentions. intros (before & found & after & -> & Hw).
    apply upper_split with (x := "CR ") (y := "INTEREST") in Hw
      as (cr & word & -> & _ & Hw).
    apply not_contains_mentions in Hi. apply Hi.
    exists (before ++ cr), word, after. split; [|done].
    by rewrite !string_app_assoc. }
  cbn [orb]. split.
  { intros Hd. apply contains_mentions in Hd. by rewrite Hd. }
  intros Hd. apply not_contains_mentions in Hd. rewrite Hd. split.
  { intros [H|H]; apply contains_mentions in H; rewrite H;
      by rewrite ?orb_true_r. }
  intros Hw Ha. apply not_contains_mentions in Hw, Ha. rewrite Hw, Ha.
  cbn [orb]. split.
  { intros [H|[H|H]]; apply contains_mentions in H; rewrite H;
      by rewrite ?orb_true_r. }
  intros H1 H2 H3. apply not_contains_mentions in H1, H2, H3.
  rewrite H1, H2, H3. cbn [orb]. split.
  { intros [H|H]; apply contains_mentions in H; rewrite H;
      by rewrite ?orb_true_r. }
  intros H4 H5. apply not_contains_mentions in H4, H5. rewrite H4, H5.
  cbn [orb]. split.
  { intros [H|H]; apply contains_mentions in H; rewrite H;
      by rewrite ?orb_true_r. }
  intros H6 H7. apply not_contains_mentions in H6, H7. by rewrite H6, H7.
Qed.

Lemma X22_scb_category_witness :
  _categorize_scb_transaction "Cr Interest less service fee" = "INTEREST".
Proof.
  apply (proj1 (proj2 (proj2 (X22_scb_category "Cr Interest less service fee")))).
  by exists "Cr ", "Interest", " less service fee".
Defined.

(** ** Broker sync: what a sync leaves behind *)

(** An item without shares is passed over: its round and, when no ticker
    occurs twice, every other round leave the row of its ticker alone. *)
Lemma sync_items_passes_over account_id E now items :
  NoDup (snapshot_tickers items) →
  ∀ st conn st' conn',
    sync_items account_id E now items st conn = Ok (st', conn') →
    ∀ item, item ∈ items → (item_shares item <= 0)%Q →
      holdings conn' !! (account_id, upper (item_ticker item))
      = holdings conn !! (account_id, upper (item_ticker item)).
Proof.
  induction items as [|it rest IH]; intros Hnd st conn st' conn' Hrun item Hin Hle.
  - by apply elem_of_nil in Hin.
  - assert ((upper (item_ticker it) ∉ snapshot_tickers rest)
            ∧ NoDup (snapshot_tickers rest)) as [Hfresh Hnd'].
    { unfold snapshot_tickers in *. simpl in Hnd. by apply NoDup_cons in Hnd. }
    apply sync_items_cons in Hrun as (st1 & conn1 & Hstep & Hrun).
    apply elem_of_cons in Hin as [->|Hin].
    + apply sync_items_frame in Hrun as (_ & _ & Hk).
      rewrite Hk by (intros t Ht [= Heq]; by rewrite <- Heq in Ht).
      destruct Hstep; try done; lra.
    + rewrite (IH Hnd' _ _ _ _ Hrun item Hin Hle).
      apply sync_step_frame in Hstep as (_ & _ & Hk1).
      apply Hk1. intros [= Heq]. apply Hfresh. rewrite <- Heq.
      apply list_elem_of_fmap. by exists item.
Qed.

(** X23.  When [sync_broker_holdings] returns for a snapshot that names
    no ticker twice (compared in upper case), on an account whose stored
    tickers are upper case, the account mirrors the snapshot: every item
    with a positive share count has a row with that share count and an
    avg_cost within 0.01 of the item's (a smaller difference is not
    written), and every row of the account with a positive share count
    is named by the snapshot.  An item whose share count is not positive
    neither removes nor changes the row of its ticker.  Other accounts
    and the other tables are left alone. *)
Theorem X23_sync_mirrors_the_snapshot
    (db db1 : DB) (account_id : Z) (items : list HoldingItem) (now : timestamp)
    (counts : SyncCounts) :
  NoDup (snapshot_tickers items) →
  tickers_upper account_id db →
  sync_broker_holdings account_id items now db = (Ok counts, db1) →
  db1 = set_holdings (λ _, holdings db1) db
  ∧ (∀ other ticker,
       other ≠ account_id →
       holdings db1 !! (other, ticker) = holdings db !! (other, ticker))
  ∧ (∀ item,
       item ∈ items → (0 < item_shares item)%Q →
       ∃ h, holdings db1 !! (account_id, upper (item_ticker item)) = Some h
            ∧ (h_shares h == item_shares item)%Q
            ∧ (Qabs (h_avg_cost h - item_avg_cost item) <= 1 # 100)%Q)
  ∧ (∀ ticker h,
       holdings db1 !! (account_id, ticker) = Some h → (0 < h_shares h)%Q →
       ticker ∈ snapshot_tickers items)
  ∧ (∀ item,
       item ∈ items → (item_shares item <= 0)%Q →
       holdings db1 !! (account_id, upper (item_ticker item))
       = holdings db !! (account_id, upper (item_ticker item))).
Proof.
  intros Hnd Hupper Hrun.
  apply sync_broker_holdings_ok in Hrun as (st & dbL & r & Hacc & Hloop & Hrm & _).
  destruct (remove_missing_spec account_id (broker_tickers st)
              (merge_sort ticker_le (holdings_of account_id db)) 0 dbL)
    as (r' & db1' & Hrm' & Hfr & Hrows & Hgone & Hkept).
  rewrite Hrm in Hrm'. injection Hrm' as <- <-.
  pose proof (sync_items_frame _ _ _ _ _ _ _ _ Hloop) as (HfrL & HB & HkL).
  simpl in HB.
  assert (∀ t, t ∈ broker_tickers st ↔ t ∈ snapshot_tickers items) as HBin.
  { intros t. rewrite HB. set_solver. }
  assert (∀ item, item ∈ items →
            holdings db1 !! (account_id, upper (item_ticker item))
            = holdings dbL !! (account_id, upper (item_ticker item))) as Hnamed.
  { intros item Hin. apply Hkept.
    intros t h0 Hlisted Hnot [= Heq].
    apply listed_elem in Hlisted as [Hrow0 _].
    rewrite (Hupper _ _ Hrow0) in Heq. subst t.
    apply Hnot, HBin, list_elem_of_fmap. by exists item. }
  split; [|split; [|split; [|split]]].
  - rewrite Hfr, HfrL. by destruct db.
  - intros other ticker Hother.
    rewrite Hkept by (intros t h _ _ [= ? _]; done).
    apply HkL. intros t _ [= ? _]. done.
  - intros item Hin Hpos.
    destruct (sync_items_rows _ _ _ _ Hnd _ _ _ _ Hloop) with (item := item)
      as (h & Hrow & Heq & Htol & _); [|done..|].
    { intros t old _ Hold. by apply existing_map_lookup in Hold. }
    exists h. split; [|done]. by rewrite Hnamed.
  - intros t h Hrow Hpos.
    destruct (decide (t ∈ snapshot_tickers items)) as [|Hnot]; [done|exfalso].
    assert (holdings db !! (account_id, t) = Some h) as Hrow0.
    { destruct (Hrows (account_id, t)) as [Hn|He]; [congruence|].
      rewrite <- HkL, <- He; [done|].
      intros t' Ht' [= ->]. done. }
    assert ((t, h) ∈ merge_sort ticker_le (holdings_of account_id db)) as Hlisted
      by (by apply listed_elem).
    assert (t ∉ broker_tickers st) as HnotB by (by rewrite HBin).
    pose proof (Hgone t h Hlisted HnotB) as Hnone.
    rewrite (Hupper _ _ Hrow0) in Hnone. congruence.
  - intros item Hin Hle. rewrite Hnamed by done.
    by eapply sync_items_passes_over.
Qed.

Lemma X23_sync_witness :
  let db := mkDB {[ 1 := mkAccount 1 "US" "USD" true ]}
                 {[ (1, "MSFT") := mkHolding 5 300 0;
                    (1, "TSLA") := mkHolding 3 250 0 ]} [] ∅ ∅ ∅ ∅ in
  let snapshot := [mkHoldingItem "aapl" 10 150; mkHoldingItem "tsla" 0 0] in
  ∃ db1,
    sync_broker_holdings 1 snapshot 5000000 db = (Ok (mkSyncCounts 1 0 1), db1)
    ∧ holdings db1 !! (1, "TSLA") = Some (mkHolding 3 250 0)
    ∧ (∀ h, holdings db1 !! (1, "MSFT") = Some h → ¬ (0 < h_shares h)%Q).
Proof.
  intros db snapshot.
  destruct (sync_broker_holdings 1 snapshot 5000000 db) as [[counts|e] db1] eqn:Hrun;
    [|by vm_compute in Hrun].
  destruct (X23_sync_mirrors_the_snapshot db db1 1 snapshot 5000000 counts)
    as (_ & _ & _ & Honly & Hkept); [| |exact Hrun|].
  { by apply (bool_decide_unpack _). }
  { intros ticker h Hrow. simpl in Hrow.
    apply lookup_insert_Some in Hrow as [[[= <-] _]|[_ Hrow]]; [done|].
    by apply lookup_singleton_Some in Hrow as [[= <-] _]. }
  exists db1. split; [|split].
  - vm_compute in Hrun. by injection Hrun as <- _.
  - apply (Hkept (mkHoldingItem "tsla" 0 0)); [|done].
    right. left.
  - intros h Hrow Hpos. specialize (Honly "MSFT" h Hrow Hpos).
    by apply (bool_decide_pack _) in Honly.
Defined.

(** The loop raises on a snapshot item with shares whose ticker has a
    row the dict of existing rows does not know. *)
Lemma sync_items_unlisted_row account_id E now items ticker :
  E !! ticker = None →
  ∀ st conn item,
    is_Some (holdings conn !! (account_id, ticker)) →
    item ∈ items → upper (item_ticker item) = ticker → (0 < item_shares item)%Q →
    sync_items account_id E now items st conn = Raise IntegrityError.
Proof.
  intros HE. induction items as [|it rest IH]; intros st conn item Hrow Hin Ht Hpos.
  - by apply elem_of_nil in Hin.
  - cbn [sync_items].
    destruct (Qle_bool (item_shares it) 0) eqn:Hs.
    { apply Qle_bool_iff in Hs.
      apply elem_of_cons in Hin as [->|Hin]; [lra|]. by eapply IH. }
    destruct (E !! upper (item_ticker it)) as [old|] eqn:Hit.
    + apply elem_of_cons in Hin as [->|Hin]; [congruence|].
      destruct (negb _ || _).
      * unfold tx_bind, Sql.update_holding. eapply IH; [|done..].
        simpl. destruct (decide ((account_id, upper (item_ticker it))
                                 = (account_id, ticker))) as [->|Hne].
        -- rewrite lookup_alter_eq. by destruct Hrow as [h ->].
        -- by rewrite lookup_alter_ne.
      * by eapply IH.
    + unfold tx_bind, Sql.insert_holding.
      destruct (holdings conn !! (account_id, upper (item_ticker it))) eqn:Hrow';
        [done|].
      apply elem_of_cons in Hin as [->|Hin].
      { rewrite <- Ht, Hrow' in Hrow. by destruct Hrow. }
      destruct (accounts conn !! account_id); [|done].
      eapply IH; [|done..].
      simpl. rewrite lookup_insert_ne; [done|].
      intros [= Heq]. rewrite <- Heq, Hrow' in Hrow. by destruct Hrow.
Qed.

(** X24.  A row with a share count that is not positive is not listed by
    [list_holdings], so [sync_broker_holdings] takes its ticker for new:
    when the snapshot names the ticker with a positive share count, the
    INSERT meets the row, the call raises sqlite3.IntegrityError
    (UNIQUE(account_id, ticker)) and nothing of the sync is kept. *)
Theorem X24_sync_raises_on_an_unlisted_row
    (db : DB) (account_id : Z) (items : list HoldingItem) (now : timestamp)
    (item : HoldingItem) (h : Holding) :
  is_Some (accounts db !! account_id) →
  item ∈ items →
  (0 < item_shares item)%Q →
  holdings db !! (account_id, upper (item_ticker item)) = Some h →
  (h_shares h <= 0)%Q →
  sync_broker_holdings account_id items now db = (Raise IntegrityError, db).
Proof.
  intros [account Hacc] Hin Hpos Hrow Hzero.
  unfold sync_broker_holdings, svc_bind.
  rewrite get_account_spec, Hacc, list_holdings_spec. unfold get_connection.
  rewrite (sync_items_unlisted_row account_id _ now items
             (upper (item_ticker item))) with (item := item); try done.
  destruct (dict_of_rows _ !! _) as [old|] eqn:Hold; [|done].
  apply existing_map_lookup in Hold as [Hrow' Hposo].
  rewrite Hrow in Hrow'. injection Hrow' as <-. lra.
Qed.

Lemma X24_sync_raises_witness :
  let db := mkDB {[ 1 := mkAccount 1 "US" "USD" true ]}
                 {[ (1, "AAPL") := mkHolding 0 0 0 ]} [] ∅ ∅ ∅ ∅ in
  sync_broker_holdings 1 [mkHoldingItem "msft" 5 300; mkHoldingItem "aapl" 10 150]
    5000000 db
  = (Raise IntegrityError, db).
Proof.
  intros db.
  apply (X24_sync_raises_on_an_unlisted_row db 1 _ 5000000
           (mkHoldingItem "aapl" 10 150) (mkHolding 0 0 0)).
  - by eexists.
  - right. left.
  - done.
  - done.
  - done.
Defined.
